(** * nju_crawler: the WeChat source registry, session resolution and crawl loop

    A shallow embedding of [wechat/config.py] and [scripts/wechat_setup.py].

    - Python values are the JSON fragment of the language ([pyval]); a run-time
      dict whose keys are arbitrary hashable values is a [pydict].
    - A [str] is a [string] read as a sequence of code points below 256.
      JSON numbers are integers; floats are not modelled.
    - Exceptions are the subclasses of [Exception]; a function that can raise
      returns a [result].
    - Files are modelled by what [os.path.exists], [open] and [json.load]
      observe of them ([file]); the module-level state of [wechat.config],
      the file system and the standard output form the [world] that the
      stateful functions thread. *)

From Stdlib Require Import ZArith String Ascii List Bool Lia.
From stdpp Require Import base option list strings gmap.

Open Scope string_scope.
Open Scope Z_scope.

(** ** Python run-time values *)

Module Py.

#[local] Set Warnings "-register-all".

(** Hashable JSON scalars: the values that can be the key of a dict. *)
Inductive pykey : Type :=
| KNone
| KBool (b : bool)
| KInt (z : Z)
| KStr (s : string).

(** What [json.load] can return (floats apart). A JSON object keeps the
    insertion order of its keys, which are strings. *)
Inductive pyval : Type :=
| PNone
| PBool (b : bool)
| PInt (z : Z)
| PStr (s : string)
| PList (l : list pyval)
| PDict (d : list (string * pyval)).

(** A dict built at run time: insertion ordered, keys compared with [==]. *)
Abbreviation pydict := (list (pykey * pyval)).

(** An object that is used as a session: either a JSON value or the
    module-level dict [WECHAT_SESSION] itself. *)
Inductive pyobj : Type :=
| OVal (v : pyval)
| ODict (d : pydict).

Inductive exn : Type :=
| AttributeError
| TypeError
| KeyError
| ValueError
| OSError
| JSONDecodeError
| RuntimeError
| CollaboratorError (msg : string).

Inductive result (A : Type) : Type :=
| Ok (a : A)
| Raise (e : exn).
Arguments Ok {A} a.
Arguments Raise {A} e.

Definition is_ok {A} (r : result A) : bool :=
  match r with Ok _ => true | Raise _ => false end.

#[global] Instance result_ret : MRet result := fun A a => Ok a.
#[global] Instance result_bind : MBind result := fun A B f r =>
  match r with
  | Ok a => f a
  | Raise e => Raise e
  end.

(** [bool(v)] *)
Definition truthy (v : pyval) : bool :=
  match v with
  | PNone => false
  | PBool b => b
  | PInt z => negb (z =? 0)
  | PStr s => negb (String.eqb s "")
  | PList l => match l with [] => false | _ => true end
  | PDict d => match d with [] => false | _ => true end
  end.

Definition truthy_obj (o : pyobj) : bool :=
  match o with
  | OVal v => truthy v
  | ODict d => match d with [] => false | _ => true end
  end.

(** [hash(v)]: lists and dicts are unhashable. *)
Definition hashable (v : pyval) : result pykey :=
  match v with
  | PNone => Ok KNone
  | PBool b => Ok (KBool b)
  | PInt z => Ok (KInt z)
  | PStr s => Ok (KStr s)
  | PList _ | PDict _ => Raise TypeError
  end.

Definition of_key (k : pykey) : pyval :=
  match k with
  | KNone => PNone
  | KBool b => PBool b
  | KInt z => PInt z
  | KStr s => PStr s
  end.

(** [bool] is a subclass of [int]: [True == 1] and [False == 0], with equal
    hashes, so as dict keys they are the same key. *)
Definition key_norm (k : pykey) : pykey :=
  match k with
  | KBool true => KInt 1
  | KBool false => KInt 0
  | _ => k
  end.

Definition pykey_eqb (a b : pykey) : bool :=
  match a, b with
  | KNone, KNone => true
  | KBool x, KBool y => Bool.eqb x y
  | KInt x, KInt y => Z.eqb x y
  | KStr x, KStr y => String.eqb x y
  | _, _ => false
  end.

(** [a == b] on keys. *)
Definition key_eqb (a b : pykey) : bool :=
  pykey_eqb (key_norm a) (key_norm b).

(** *** Insertion-ordered dicts *)

Section odict.
Context {K V : Type} (eqb : K -> K -> bool).

(** [d.get(k)] as an option: the value of the entry whose key equals [k]. *)
Fixpoint od_get (d : list (K * V)) (k : K) : option V :=
  match d with
  | [] => None
  | (k', v) :: d' => if eqb k' k then Some v else od_get d' k
  end.

(** [d[k] = v]: an existing key keeps its position (and the key object
    first inserted), a new key goes last. *)
Fixpoint od_set (d : list (K * V)) (k : K) (v : V) : list (K * V) :=
  match d with
  | [] => [(k, v)]
  | (k', v') :: d' =>
      if eqb k' k then (k', v) :: d' else (k', v') :: od_set d' k v
  end.

Definition od_mem (d : list (K * V)) (k : K) : bool :=
  match od_get d k with Some _ => true | None => false end.
End odict.

(** [list(d.values())] *)
Definition od_values {K V : Type} (d : list (K * V)) : list V := map snd d.
Definition od_keys {K V : Type} (d : list (K * V)) : list K := map fst d.

Definition json_get (d : list (string * pyval)) (k : string) : option pyval :=
  od_get String.eqb d k.
Definition dict_get (d : pydict) (k : pykey) : option pyval :=
  od_get key_eqb d k.
Definition dict_set (d : pydict) (k : pykey) (v : pyval) : pydict :=
  od_set key_eqb d k v.

(** *** Attribute and item access on JSON values *)

(** [v.get(k)] with the default [None]: only a dict has [get]. *)
Definition py_get (v : pyval) (k : string) : result pyval :=
  match v with
  | PDict d => Ok (default PNone (json_get d k))
  | _ => Raise AttributeError
  end.

(** [v.get(k, dflt)] *)
Definition py_get_default (v : pyval) (k : string) (dflt : pyval) : result pyval :=
  match v with
  | PDict d => Ok (default dflt (json_get d k))
  | _ => Raise AttributeError
  end.

(** [o.get(k)] on a session object. *)
Definition obj_get (o : pyobj) (k : string) : result pyval :=
  match o with
  | OVal v => py_get v k
  | ODict d => Ok (default PNone (dict_get d (KStr k)))
  end.

(** [v[k]] for a string [k]: a missing key of a dict is a [KeyError]; a list or
    a string wants an integer index; the scalars are not subscriptable. *)
Definition py_getitem (v : pyval) (k : string) : result pyval :=
  match v with
  | PDict d => match json_get d k with Some x => Ok x | None => Raise KeyError end
  | _ => Raise TypeError
  end.

Definition chars (s : string) : list pyval :=
  map (fun c => PStr (String c "")) (list_ascii_of_string s).

(** [iter(v)]: a list yields its elements, a string its characters, a dict
    its keys; the scalars are not iterable. *)
Definition py_iter (v : pyval) : result (list pyval) :=
  match v with
  | PList l => Ok l
  | PStr s => Ok (chars s)
  | PDict d => Ok (map (fun kv => PStr (fst kv)) d)
  | PNone | PBool _ | PInt _ => Raise TypeError
  end.

(** [len(v)] *)
Definition py_len (v : pyval) : result nat :=
  match v with
  | PList l => Ok (length l)
  | PStr s => Ok (String.length s)
  | PDict d => Ok (length d)
  | PNone | PBool _ | PInt _ => Raise TypeError
  end.

Definition is_substring (needle s : string) : bool :=
  match String.index 0 needle s with Some _ => true | None => false end.

(** [k in v] for a string [k]: key membership for a dict, element membership
    for a list, substring test for a string. *)
Definition py_contains (v : pyval) (k : string) : result bool :=
  match v with
  | PDict d => Ok (od_mem String.eqb d k)
  | PList l =>
      Ok (existsb (fun x => match x with PStr s => String.eqb s k | _ => false end) l)
  | PStr s => Ok (is_substring k s)
  | PNone | PBool _ | PInt _ => Raise TypeError
  end.

(** [l.extend(v)] *)
Definition list_extend (l : list pyval) (v : pyval) : result (list pyval) :=
  items ← py_iter v; mret (l ++ items)%list.

(** One step of [dict.update] from a sequence of pairs: the item is turned
    into a sequence, which must have length two, and its first element must
    be hashable. *)
Definition update_pair (d : pydict) (item : pyval) : result pydict :=
  match py_iter item with
  | Raise e => Raise e
  | Ok [k; v] =>
      match hashable k with
      | Ok k' => Ok (dict_set d k' v)
      | Raise e => Raise e
      end
  | Ok _ => Raise ValueError
  end.

(** The pairs are inserted one by one; an exception leaves the dict with the
    pairs inserted so far. *)
Fixpoint update_pairs (d : pydict) (items : list pyval) : pydict * option exn :=
  match items with
  | [] => (d, None)
  | item :: rest =>
      match update_pair d item with
      | Ok d' => update_pairs d' rest
      | Raise e => (d, Some e)
      end
  end.

Definition update_from_dict (d : pydict) (src : list (string * pyval)) : pydict :=
  fold_left (fun acc kv => dict_set acc (KStr (fst kv)) (snd kv)) src d.

(** [d.update(v)]: a dict is merged key by key; anything else is iterated as
    a sequence of key/value pairs. *)
Definition dict_update (d : pydict) (v : pyval) : pydict * option exn :=
  match v with
  | PDict src => (update_from_dict d src, None)
  | _ =>
      match py_iter v with
      | Ok items => update_pairs d items
      | Raise e => (d, Some e)
      end
  end.

(** *** Strings *)

Definition code (c : ascii) : N := N_of_ascii c.

(** [str.isspace] on the code points below 256. *)
Definition is_space (c : ascii) : bool :=
  let n := code c in
  ((9 <=? n) && (n <=? 13) || (28 <=? n) && (n <=? 32) || (n =? 133) || (n =? 160))%N.

Fixpoint lstrip (p : ascii -> bool) (s : string) : string :=
  match s with
  | String c s' => if p c then lstrip p s' else s
  | EmptyString => EmptyString
  end.

Fixpoint rstrip (p : ascii -> bool) (s : string) : string :=
  match s with
  | String c s' =>
      match rstrip p s' with
      | EmptyString => if p c then EmptyString else String c EmptyString
      | r => String c r
      end
  | EmptyString => EmptyString
  end.

(** [s.strip()] *)
Definition strip (s : string) : string := rstrip is_space (lstrip is_space s).

Definition lower_char (c : ascii) : ascii :=
  let n := code c in
  if ((65 <=? n) && (n <=? 90) || (192 <=? n) && (n <=? 222) && negb (n =? 215))%N
  then ascii_of_N (n + 32)
  else c.

(** [s.lower()] *)
Fixpoint lower (s : string) : string :=
  match s with
  | String c s' => String (lower_char c) (lower s')
  | EmptyString => EmptyString
  end.

Definition digit_of (c : ascii) : option Z :=
  let n := code c in
  if ((48 <=? n) && (n <=? 57))%N then Some (Z.of_N n - 48) else None.

(** Digits with single underscores between them. *)
Fixpoint int_digits (acc : Z) (after_digit : bool) (s : string) : option Z :=
  match s with
  | EmptyString => if after_digit then Some acc else None
  | String c s' =>
      match digit_of c with
      | Some d => int_digits (acc * 10 + d) true s'
      | None =>
          if Ascii.eqb c "_" && after_digit then int_digits acc false s' else None
      end
  end.

(** The white space that [int] skips: the ASCII blanks and the spaces above
    127, which it first turns into blanks. *)
Definition is_int_space (c : ascii) : bool :=
  let n := code c in
  ((9 <=? n) && (n <=? 13) || (n =? 32) || (n =? 133) || (n =? 160))%N.

(** [int(s)] in base ten: optional white space around an optional sign and
    the digits. The interpreter's limit on the number of digits is not
    modelled. *)
Definition py_int (s : string) : result Z :=
  let body := rstrip is_int_space (lstrip is_int_space s) in
  let parsed :=
    match body with
    | String "-" r => option_map Z.opp (int_digits 0 false r)
    | String "+" r => int_digits 0 false r
    | _ => int_digits 0 false body
    end in
  match parsed with
  | Some z => Ok z
  | None => Raise ValueError
  end.

End Py.

Import Py.

(** ** The environment of the program *)

(** What the program observes of a JSON file: whether it exists, whether it
    can be opened and read, and what [json.load] makes of its content. *)
Inductive file : Type :=
| FileMissing
| FileUnreadable
| FileMalformed
| FileJson (v : pyval).

(** A file together with the directory that holds it. *)
Record slot : Type := {
  dir_exists : bool;
  dir_creatable : bool;
  content : file;
  writable : bool;
}.

(** The module [Wechat_official_clawler.auth] as the script sees it: the
    import may have failed, the module may lack [get_cookies], or
    [get_cookies()] returns a value or raises. *)
Inductive auth : Type :=
| AuthMissing
| AuthNoGetCookies
| AuthGetCookies (outcome : result pyval).

(** Lines written to the standard output, and the calls to the file system
    and to the login collaborator. *)
Inductive event : Type :=
| WarnConfigDirMissing
| WarnLoadFailed (e : exn)
| InfoUsingConfigSession
| StatCookies
| ReadCookies
| InfoLoadedCookies
| PromptInteractiveLogin
| MakeCfgDir
| CallGetCookies
| WriteCookies
| InfoSavedCookies
| MakeConfigDir
| ReadWechatJson
| WriteWechatJson
| InfoWritten (n : nat)
| CrawlStart (sid : string)
| CrawlOk (n : nat) (sid : string)
| CrawlWarn (sid : string) (e : exn).

Record world : Type := {
  WECHAT_SOURCES : list pyval;
  WECHAT_SESSION : pydict;
  wechat_json : slot;
  cookies_json : slot;
  wechat_auth : auth;
  trace : list event;
}.

Definition set_sources (l : list pyval) (w : world) : world :=
  {| WECHAT_SOURCES := l; WECHAT_SESSION := WECHAT_SESSION w;
     wechat_json := wechat_json w; cookies_json := cookies_json w;
     wechat_auth := wechat_auth w; trace := trace w |}.

Definition set_session (d : pydict) (w : world) : world :=
  {| WECHAT_SOURCES := WECHAT_SOURCES w; WECHAT_SESSION := d;
     wechat_json := wechat_json w; cookies_json := cookies_json w;
     wechat_auth := wechat_auth w; trace := trace w |}.

Definition set_wechat_json (s : slot) (w : world) : world :=
  {| WECHAT_SOURCES := WECHAT_SOURCES w; WECHAT_SESSION := WECHAT_SESSION w;
     wechat_json := s; cookies_json := cookies_json w;
     wechat_auth := wechat_auth w; trace := trace w |}.

Definition set_cookies_json (s : slot) (w : world) : world :=
  {| WECHAT_SOURCES := WECHAT_SOURCES w; WECHAT_SESSION := WECHAT_SESSION w;
     wechat_json := wechat_json w; cookies_json := s;
     wechat_auth := wechat_auth w; trace := trace w |}.

Definition emit (ev : event) (w : world) : world :=
  {| WECHAT_SOURCES := WECHAT_SOURCES w; WECHAT_SESSION := WECHAT_SESSION w;
     wechat_json := wechat_json w; cookies_json := cookies_json w;
     wechat_auth := wechat_auth w; trace := (trace w ++ [ev])%list |}.

(** [os.path.exists] of the file. *)
Definition file_exists (s : slot) : bool :=
  dir_exists s && match content s with FileMissing => false | _ => true end.

(** [os.makedirs(dir, exist_ok=True)]: a directory that had to be created is
    empty. *)
Definition makedirs (s : slot) : result slot :=
  if dir_exists s then Ok s
  else if dir_creatable s
       then Ok {| dir_exists := true; dir_creatable := dir_creatable s;
                  content := FileMissing; writable := writable s |}
       else Raise OSError.

(** [json.load(open(path))] *)
Definition read_json (s : slot) : result pyval :=
  if dir_exists s then
    match content s with
    | FileMissing | FileUnreadable => Raise OSError
    | FileMalformed => Raise JSONDecodeError
    | FileJson v => Ok v
    end
  else Raise OSError.

(** [json.dump(v, open(path, "w"))]: a value of the JSON fragment is read back
    by [json.load] as it was written. *)
Definition write_json (s : slot) (v : pyval) : result slot :=
  if dir_exists s && writable s
  then Ok {| dir_exists := dir_exists s; dir_creatable := dir_creatable s;
             content := FileJson v; writable := writable s |}
  else Raise OSError.

(** *** Stateful computations that can raise *)

Definition M (A : Type) : Type := world -> result A * world.

#[global] Instance M_ret : MRet M := fun A a w => (Ok a, w).
#[global] Instance M_bind : MBind M := fun A B f m w =>
  match m w with
  | (Ok a, w') => f a w'
  | (Raise e, w') => (Raise e, w')
  end.

Definition lift {A} (r : result A) : M A := fun w => (r, w).
Definition raise {A} (e : exn) : M A := fun w => (Raise e, w).
Definition get_world : M world := fun w => (Ok w, w).
Definition modify (f : world -> world) : M unit := fun w => (Ok tt, f w).
Definition say (ev : event) : M unit := modify (emit ev).

(** [try: m except Exception as e: h e] *)
Definition try_except {A} (m : M A) (h : exn -> M A) : M A := fun w =>
  match m w with
  | (Ok a, w') => (Ok a, w')
  | (Raise e, w') => h e w'
  end.

(** ** wechat/config.py *)

Module Config.

(** [os.environ] *)
Abbreviation environ := (gmap string string).

(** [os.getenv(name)] and [os.getenv(name, dflt)] *)
Definition getenv (env : environ) (name : string) : option string := env !! name.
Definition getenv_default (env : environ) (name dflt : string) : string :=
  default dflt (env !! name).

Definition _get_bool_env (env : environ) (name : string) (default : bool) : bool :=
  match getenv env name with
  | None => default
  | Some value =>
      bool_decide (lower (strip value) ∈ ["1"; "true"; "yes"; "on"])
  end.

(** The run-time parameters the module exposes. *)
Record settings : Type := {
  CRAWL_INTERVAL : Z;
  REQUEST_TIMEOUT : Z;
  MAX_RETRIES : Z;
  AUTO_CRAWL_ENABLED : bool;
  VECTOR_SYNC_ENABLED : bool;
  TESSERACT_CMD : string;
  TESSDATA_DIR : string;
  DATABASE_PATH : string;
}.

(** The assignments of the module body, in order; [int] raising stops the
    import. *)
Definition module_settings (env : environ) : result settings :=
  match py_int (getenv_default env "CRAWL_INTERVAL" "3600") with
  | Raise e => Raise e
  | Ok interval =>
      Ok {| CRAWL_INTERVAL := interval;
            REQUEST_TIMEOUT := 30;
            MAX_RETRIES := 3;
            AUTO_CRAWL_ENABLED := _get_bool_env env "AUTO_CRAWL_ENABLED" true;
            VECTOR_SYNC_ENABLED := _get_bool_env env "VECTOR_SYNC_ENABLED" true;
            TESSERACT_CMD := "";
            TESSDATA_DIR := "";
            DATABASE_PATH := getenv_default env "CRAWLER_DB_PATH" "./data/crawler.db" |}
  end.

(** [WECHAT_SOURCES.extend(v)] *)
Definition extend_sources (v : pyval) : M unit := fun w =>
  match list_extend (WECHAT_SOURCES w) v with
  | Ok l => (Ok tt, set_sources l w)
  | Raise e => (Raise e, w)
  end.

(** [WECHAT_SESSION.update(v)] *)
Definition update_session (v : pyval) : M unit := fun w =>
  let '(d, err) := dict_update (WECHAT_SESSION w) v in
  (match err with None => Ok tt | Some e => Raise e end, set_session d w).

Definition load_body : M unit :=
  data ← (fun w => (read_json (wechat_json w), emit ReadWechatJson w));
  has_sources ← lift (py_contains data "sources");
  (if has_sources : bool
   then srcs ← lift (py_getitem data "sources"); extend_sources srcs
   else mret tt);;
  has_session ← lift (py_contains data "session");
  if has_session : bool
  then sess ← lift (py_getitem data "session"); update_session sess
  else mret tt.

Definition load_configurations : M unit := fun w =>
  if negb (dir_exists (wechat_json w)) then say WarnConfigDirMissing w
  else if negb (file_exists (wechat_json w)) then (Ok tt, w)
  else try_except load_body (fun e => say (WarnLoadFailed e)) w.

(** The module state once the import has run the module body. *)
Definition module_state (w : world) : world :=
  snd (load_configurations (set_session [] (set_sources [] w))).

End Config.

(** ** scripts/wechat_setup.py *)

Module Setup.

(** [None] when the file is missing or cannot be read or parsed. *)
Definition load_local_session : M pyval := fun w =>
  let w := emit StatCookies w in
  if negb (file_exists (cookies_json w)) then (Ok PNone, w)
  else
    match read_json (cookies_json w) with
    | Ok data => (Ok data, emit ReadCookies w)
    | Raise _ => (Ok PNone, emit ReadCookies w)
    end.

(** The test of line 58 on the dict [WECHAT_SESSION]. *)
Definition session_from_conf_ok (d : pydict) : bool :=
  truthy_obj (ODict d)
  && (truthy (default PNone (dict_get d (KStr "token")))
      || truthy (default PNone (dict_get d (KStr "cookies_str")))).

(** The interactive login of lines 69 to 81; [None] stands for falling
    through to the final [raise]. *)
Definition interactive_login : M (option pyval) := fun w =>
  match wechat_auth w with
  | AuthMissing | AuthNoGetCookies => (Ok None, w)
  | AuthGetCookies outcome =>
      let w := emit MakeCfgDir (emit PromptInteractiveLogin w) in
      match makedirs (cookies_json w) with
      | Raise e => (Raise e, w)
      | Ok s =>
          let w := emit CallGetCookies (set_cookies_json s w) in
          match outcome with
          | Raise e => (Raise e, w)
          | Ok data =>
              if truthy data then
                let w := emit WriteCookies w in
                match write_json (cookies_json w) data with
                | Ok s' => (Ok (Some data), emit InfoSavedCookies (set_cookies_json s' w))
                | Raise _ => (Ok (Some data), w)
                end
              else (Ok None, w)
          end
      end
  end.

(** Nothing in the [try] of lines 56 to 62 can raise on a dict, so its
    handler is not modelled. The session returned from the configuration is
    the module-level dict itself; [main] last uses it before the reload
    updates that dict, so passing its value is exact. *)
Definition ensure_session_interactive : M pyobj :=
  w ← get_world;
  if session_from_conf_ok (WECHAT_SESSION w)
  then say InfoUsingConfigSession;; mret (ODict (WECHAT_SESSION w))
  else
    sess ← load_local_session;
    if truthy sess
    then say InfoLoadedCookies;; mret (OVal sess)
    else
      data ← interactive_login;
      match data with
      | Some d => mret (OVal d)
      | None => raise RuntimeError
      end.

(** Lines 88 to 95: the document the merge starts from. *)
Definition read_config_data : M pyval := fun w =>
  if file_exists (wechat_json w) then
    let w := emit ReadWechatJson w in
    match read_json (wechat_json w) with
    | Ok data => (Ok data, w)
    | Raise _ => (Ok (PDict [("sources", PList [])]), w)
    end
  else (Ok (PDict [("sources", PList [])]), w).

(** [s.get("id")] as a dict key. *)
Definition get_id (s : pyval) : result pykey :=
  v ← py_get s "id"; hashable v.

(** [s["id"]] as a dict key. *)
Definition item_id (s : pyval) : result pykey :=
  v ← py_getitem s "id"; hashable v.

(** [for s in items: acc[key(s)] = s] *)
Fixpoint assign_all (key : pyval -> result pykey) (acc : pydict)
    (items : list pyval) : result pydict :=
  match items with
  | [] => Ok acc
  | s :: rest => k ← key s; assign_all key (dict_set acc k s) rest
  end.

(** Line 97: [{s.get("id"): s for s in data.get("sources", [])}] *)
Definition existing_of (data : pyval) : result pydict :=
  srcs ← py_get_default data "sources" (PList []);
  items ← py_iter srcs;
  assign_all get_id [] items.

(** The dict literal of a session's three persisted fields. *)
Definition session_fields (session : pyobj) : result pyval :=
  token ← obj_get session "token";
  cookies_str ← obj_get session "cookies_str";
  user_agent ← obj_get session "user_agent";
  mret (PDict [("token", token); ("cookies_str", cookies_str);
               ("user_agent", user_agent)]).

(** Lines 97 to 108: the document that is written back. *)
Definition merged_document (data : pyval) (new_sources : list pyval)
    (session : pyobj) : result pyval :=
  existing ← existing_of data;
  existing ← assign_all item_id existing new_sources;
  fields ← session_fields session;
  mret (PDict [("session", fields); ("sources", PList (od_values existing))]).

Definition merge_wechat_config (new_sources : list pyval) (session : pyobj) : M unit :=
  say MakeConfigDir;;
  w ← get_world;
  dir ← lift (makedirs (wechat_json w));
  modify (set_wechat_json dir);;
  data ← read_config_data;
  merged ← lift (merged_document data new_sources session);
  say WriteWechatJson;;
  w ← get_world;
  file ← lift (write_json (wechat_json w) merged);
  modify (set_wechat_json file);;
  count ← lift (srcs ← py_getitem merged "sources"; py_len srcs);
  say (InfoWritten count).

(** [int(time.time())] is the argument [now]. *)
Definition build_source_entry (name biz : string) (wx_cfg : pyobj) (count : Z)
    (now : Z) : result pyval :=
  let sid := "wechat_" +:+ biz in
  fields ← session_fields wx_cfg;
  mret (PDict [("id", PStr sid); ("name", PStr name); ("biz", PStr biz);
               ("wx_cfg", fields); ("count", PInt count);
               ("created_at", PInt now)]).

(** Lines 175 to 182 of [main]: the in-memory configuration is cleared and
    loaded again from the file just written. *)
Definition main_reload : M unit :=
  try_except
    (modify (set_sources []);; Config.load_configurations)
    (fun _ => mret tt).

(** Lines 134 to 138: what is printed once the fetch has returned or raised;
    [len(items)] is inside the [try]. *)
Definition crawl_report (sid : string) (r : result pyval) : event :=
  match items ← r; py_len items with
  | Ok n => CrawlOk n sid
  | Raise exc => CrawlWarn sid exc
  end.

(** The crawl loop. The fetch [crawl_wechat_source] belongs to
    [wechat.services]; it is a parameter, with a state of its own. *)
Section crawl.
Context {St : Type} (crawl_wechat_source : string -> St -> result pyval * St).

Definition crawl_one (sid : string) (st : St) : list event * St :=
  let '(r, st') := crawl_wechat_source sid st in
  ([CrawlStart sid; crawl_report sid r], st').

Fixpoint maybe_crawl_sources (source_ids : list string) (st : St) : list event * St :=
  match source_ids with
  | [] => ([], st)
  | sid :: rest =>
      let '(out, st') := crawl_one sid st in
      let '(out', st'') := maybe_crawl_sources rest st' in
      ((out ++ out')%list, st'')
  end.
End crawl.

(** *** [main] *)

(** [s.split(sep)] for a separator of one character. *)
Fixpoint split_on (sep : ascii) (s : string) : list string :=
  match s with
  | EmptyString => [EmptyString]
  | String c s' =>
      if Ascii.eqb c sep then EmptyString :: split_on sep s'
      else match split_on sep s' with
           | part :: parts => String c part :: parts
           | [] => [String c EmptyString]
           end
  end.

(** Lines 149 and 152: [[n.strip() for n in s.split(",") if n.strip()]] *)
Definition parse_names (s : string) : list string :=
  List.filter (fun n => negb (String.eqb n "")) (map strip (split_on "," s)).

(** The parsed command line: [--names], [--count] and [--crawl]. *)
Record args : Type := {
  arg_names : option string;
  arg_count : Z;
  arg_crawl : bool;
}.

(** The lines [main] itself prints, prompts included. *)
Inductive notice : Type :=
| NotePromptNames
| NoteNoNames
| NoteProcessing (name : string)
| NoteSkipped (name : string)
| NoteNoNewSources
| NotePromptCrawl.

(** A string that is truthy: neither [None] nor empty. *)
Definition nonempty (o : option string) : option string :=
  match o with
  | Some s => if String.eqb s "" then None else Some s
  | None => None
  end.

(** [entry["id"]], which is a [str] for an entry of [build_source_entry]. *)
Definition entry_id (entry : pyval) : result string :=
  v ← py_getitem entry "id";
  match v with
  | PStr sid => Ok sid
  | _ => Raise TypeError
  end.

(** [main]. The lookup [get_fakeid_by_name] and the fetch belong to
    [wechat.services] and share its state; the lookup returns a [str] or
    [None]. [input k] is what the call number [k] of [input()] returns or
    raises, [time_now k] what [int(time.time())] gives in the call number
    [k] of [build_source_entry]. The lines of [main] are kept apart from the
    trace of the world. *)
Section main.
Context {St : Type}
  (get_fakeid_by_name : pyobj -> string -> St -> result (option string) * St)
  (crawl_wechat_source : string -> St -> result pyval * St)
  (input : nat -> result string)
  (time_now : nat -> Z).

Record run : Type := {
  run_world : world;
  run_services : St;
  run_notes : list notice;
}.

(** Lines 148 to 152. *)
Definition read_names (a : args) (notes : list notice)
  : result (list string) * nat * list notice :=
  match nonempty (arg_names a) with
  | Some s => (Ok (parse_names s), 0%nat, notes)
  | None =>
      (s ← input 0%nat; mret (parse_names s), 1%nat,
       (notes ++ [NotePromptNames])%list)
  end.

(** Lines 160 to 170: the entries built and their ids, in order. *)
Fixpoint collect_sources (wx_cfg : pyobj) (count : Z) (names : list string)
    (built : nat) (st : St) (notes : list notice)
  : result (list pyval * list string) * St * list notice :=
  match names with
  | [] => (Ok ([], []), st, notes)
  | name :: rest =>
      let notes := (notes ++ [NoteProcessing name])%list in
      let '(r, st) := get_fakeid_by_name wx_cfg name st in
      match r with
      | Raise e => (Raise e, st, notes)
      | Ok found =>
          match nonempty found with
          | None =>
              collect_sources wx_cfg count rest built st
                (notes ++ [NoteSkipped name])%list
          | Some biz =>
              match entry ← build_source_entry name biz wx_cfg count (time_now built);
                    sid ← entry_id entry; mret (entry, sid) with
              | Raise e => (Raise e, st, notes)
              | Ok (entry, sid) =>
                  let '(more, st, notes) :=
                    collect_sources wx_cfg count rest (S built) st notes in
                  (match more with
                   | Ok (entries, ids) => Ok (entry :: entries, sid :: ids)
                   | Raise e => Raise e
                   end, st, notes)
              end
          end
      end
  end.

(** [asyncio.run(maybe_crawl_sources(new_ids))] *)
Definition crawl_new (ids : list string) (r : run) : run :=
  let '(out, st) := maybe_crawl_sources crawl_wechat_source ids (run_services r) in
  {| run_world := fold_left (fun w ev => emit ev w) out (run_world r);
     run_services := st; run_notes := run_notes r |}.

Definition main (a : args) (r : run) : result unit * run :=
  let '(names, inputs, notes) := read_names a (run_notes r) in
  match names with
  | Raise e =>
      (Raise e, {| run_world := run_world r; run_services := run_services r;
                   run_notes := notes |})
  | Ok [] =>
      (Ok tt, {| run_world := run_world r; run_services := run_services r;
                 run_notes := (notes ++ [NoteNoNames])%list |})
  | Ok names =>
      match ensure_session_interactive (run_world r) with
      | (Raise e, w) =>
          (Raise e, {| run_world := w; run_services := run_services r;
                       run_notes := notes |})
      | (Ok wx_cfg, w) =>
          let '(collected, st, notes) :=
            collect_sources wx_cfg (arg_count a) names 0%nat (run_services r) notes in
          match collected with
          | Raise e =>
              (Raise e, {| run_world := w; run_services := st; run_notes := notes |})
          | Ok ([], _) =>
              (Ok tt, {| run_world := w; run_services := st;
                         run_notes := (notes ++ [NoteNoNewSources])%list |})
          | Ok (new_sources, new_ids) =>
              match (merge_wechat_config new_sources wx_cfg;; main_reload) w with
              | (Raise e, w) =>
                  (Raise e, {| run_world := w; run_services := st; run_notes := notes |})
              | (Ok _, w) =>
                  if arg_crawl a
                  then (Ok tt, crawl_new new_ids
                                 {| run_world := w; run_services := st;
                                    run_notes := notes |})
                  else
                    let asked := {| run_world := w; run_services := st;
                                    run_notes := (notes ++ [NotePromptCrawl])%list |} in
                    match input inputs with
                    | Raise e => (Raise e, asked)
                    | Ok yn =>
                        if String.eqb (lower (strip yn)) "y"
                        then (Ok tt, crawl_new new_ids asked)
                        else (Ok tt, asked)
                    end
              end
          end
      end
  end.
End main.

End Setup.

Import Config Setup.

(** ** Vocabulary of the properties *)

(** A session is usable when its token or its cookie string is non-empty. *)
Definition usable (o : pyobj) : bool :=
  match obj_get o "token", obj_get o "cookies_str" with
  | Ok token, Ok cookies_str => truthy token || truthy cookies_str
  | _, _ => false
  end.

(** The credential file is missing or cannot be parsed. *)
Definition credentials_unavailable (s : slot) : bool :=
  negb (file_exists s)
  || match content s with FileUnreadable | FileMalformed => true | _ => false end.

(** The login collaborator is unavailable, or returns nothing. *)
Definition login_yields_nothing (a : auth) : bool :=
  match a with
  | AuthMissing | AuthNoGetCookies => true
  | AuthGetCookies (Ok data) => negb (truthy data)
  | AuthGetCookies (Raise _) => false
  end.

Definition login_available (a : auth) : bool :=
  match a with AuthGetCookies _ => true | _ => false end.

(** The backing file is missing, unreadable, or is not JSON. *)
Definition config_unavailable (s : slot) : bool :=
  negb (dir_exists s)
  || match content s with FileJson _ => false | _ => true end.

(** Two records share an id. *)
Definition same_id (r1 r2 : pyval) : Prop :=
  exists k1 k2, get_id r1 = Ok k1 /\ get_id r2 = Ok k2 /\ key_eqb k1 k2 = true.

(** No two records of the list share an id. *)
Definition ids_distinct (srcs : list pyval) : Prop :=
  forall (i j : nat) (r1 r2 : pyval),
    srcs !! i = Some r1 -> srcs !! j = Some r2 -> same_id r1 r2 -> i = j.

(** The record carries the id [k]. *)
Definition has_id (k : pykey) (r : pyval) : bool :=
  match get_id r with
  | Ok k' => key_eqb k' k
  | Raise _ => false
  end.

(** The keys of the dict [existing] are pairwise different. *)
Definition distinct_keys (d : pydict) : Prop :=
  NoDup (map key_norm (od_keys d)).

(** Every value of the dict [existing] carries the id it is stored under. *)
Definition keyed (d : pydict) : Prop :=
  Forall (fun kv => has_id (fst kv) (snd kv) = true) d.

(** The [sources] list of the document in the backing file. *)
Definition persisted_sources (w : world) : option (list pyval) :=
  match content (wechat_json w) with
  | FileJson (PDict d) =>
      match json_get d "sources" with
      | Some (PList l) => Some l
      | _ => None
      end
  | _ => None
  end.

(** Line 97 can load the document: its [sources] can be iterated and every
    record is a dict whose id is hashable. *)
Definition loadable (data : pyval) : bool :=
  match srcs ← py_get_default data "sources" (PList []); py_iter srcs with
  | Ok items => forallb (fun r => is_ok (get_id r)) items
  | Raise _ => false
  end.

(** The backing file can be rewritten, and what it holds can be loaded. *)
Definition registry_ok (w : world) : bool :=
  let s := wechat_json w in
  (dir_exists s || dir_creatable s) && writable s
  && match content s with
     | FileJson v => negb (dir_exists s) || loadable v
     | _ => true
     end.

(** The arguments of one call of [merge_wechat_config] are well formed:
    every new source has a hashable ["id"], and the session is a dict. *)
Definition call_ok (call : list pyval * pyobj) : bool :=
  forallb (fun r => is_ok (item_id r)) (fst call)
  && is_ok (session_fields (snd call)).

(** A sequence of calls of [merge_wechat_config]. *)
Fixpoint merge_all (calls : list (list pyval * pyobj)) : M unit :=
  match calls with
  | [] => mret tt
  | call :: rest => merge_wechat_config (fst call) (snd call);; merge_all rest
  end.

(** [k] calls of [load_configurations], one after the other. *)
Fixpoint load_times (k : nat) : M unit :=
  match k with
  | O => mret tt
  | S k' => load_configurations;; load_times k'
  end.

(** [k] copies of a list, end to end. *)
Fixpoint copies {A} (k : nat) (l : list A) : list A :=
  match k with
  | O => []
  | S k' => (l ++ copies k' l)%list
  end.

(** What the fetch collaborator answers along a list of ids, when nothing
    but its own state is threaded. *)
Fixpoint fetch_outcomes {St : Type} (fetch : string -> St -> result pyval * St)
    (source_ids : list string) (st : St) : list (result pyval) :=
  match source_ids with
  | [] => []
  | sid :: rest =>
      let '(r, st') := fetch sid st in r :: fetch_outcomes fetch rest st'
  end.

(** A fetch succeeded: it returned something that has a length. *)
Definition fetched (r : result pyval) : option nat :=
  match items ← r; py_len items with
  | Ok n => Some n
  | Raise _ => None
  end.

(** A fetch failed: it raised, or it returned something without a length. *)
Definition failed (r : result pyval) : bool :=
  match fetched r with
  | Some _ => false
  | None => true
  end.

(** The two kinds of report line of the crawl. *)
Definition is_warning (ev : event) : bool :=
  match ev with CrawlWarn _ _ => true | _ => false end.

Definition is_success (ev : event) : bool :=
  match ev with CrawlOk _ _ => true | _ => false end.

(** The records line 97 iterates over: the [sources] of the document in the
    backing file, nothing when the file is missing or cannot be parsed. *)
Definition stored_items (s : slot) : list pyval :=
  if file_exists s then
    match data ← read_json s; srcs ← py_get_default data "sources" (PList []);
          py_iter srcs with
    | Ok items => items
    | Raise _ => []
    end
  else [].

(** What the credential file gives to [load_local_session]. *)
Definition stored_credentials (s : slot) : pyval :=
  if file_exists s then
    match read_json s with
    | Ok data => data
    | Raise _ => PNone
    end
  else PNone.

(** The value is a JSON object. *)
Definition is_dict (v : pyval) : bool :=
  match v with PDict _ => true | _ => false end.

(** The number of calls of [get_cookies] in a trace. *)
Definition login_calls (evs : list event) : nat :=
  length (List.filter (fun ev => match ev with CallGetCookies => true | _ => false end) evs).

(** The string is made of white space only. *)
Fixpoint blank (s : string) : bool :=
  match s with
  | EmptyString => true
  | String c s' => is_space c && blank s'
  end.

(** The string contains the character. *)
Fixpoint has_char (c : ascii) (s : string) : bool :=
  match s with
  | EmptyString => false
  | String c' s' => Ascii.eqb c' c || has_char c s'
  end.

(** A name as [parse_names] yields them: not empty, no white space at
    either end, no comma. *)
Definition clean_name (n : string) : bool :=
  negb (String.eqb n "") && String.eqb (strip n) n && negb (has_char "," n).

(** The string is made of commas and white space only. *)
Fixpoint only_separators (s : string) : bool :=
  match s with
  | EmptyString => true
  | String c s' => (Ascii.eqb c "," || is_space c) && only_separators s'
  end.

(** [",".join(names)] *)
Definition join_names (names : list string) : string := String.concat "," names.

(** *** Sample data *)

Definition sample_session : list (string * pyval) :=
  [("token", PStr "tok"); ("cookies_str", PStr "k=v"); ("user_agent", PStr "UA")].

Definition sample_source (biz name : string) (count : Z) : pyval :=
  PDict [("id", PStr ("wechat_" +:+ biz)); ("name", PStr name); ("biz", PStr biz);
         ("wx_cfg", PDict sample_session); ("count", PInt count);
         ("created_at", PInt 1700000000)].

Definition sample_document : list (string * pyval) :=
  [("session", PDict sample_session);
   ("sources", PList [sample_source "123" "A" 5; sample_source "456" "B" 10])].

(** A document in which two records share the id wechat_123. *)
Definition sample_duplicates : list (string * pyval) :=
  [("session", PDict sample_session);
   ("sources", PList [sample_source "123" "A" 5; sample_source "456" "B" 10;
                      sample_source "123" "A again" 7])].

Definition sample_slot (f : file) : slot :=
  {| dir_exists := true; dir_creatable := true; content := f; writable := true |}.

(** A world with the given module-level session, backing file, credential
    file and login collaborator. *)
Definition sample_world (conf : pydict) (doc cookies : file) (a : auth) : world :=
  {| WECHAT_SOURCES := []; WECHAT_SESSION := conf;
     wechat_json := sample_slot doc; cookies_json := sample_slot cookies;
     wechat_auth := a; trace := [] |}.

(** The fetch times out for one id and returns two items for any other; its
    state counts the calls. *)
Definition sample_fetch (sid : string) (calls : nat) : result pyval * nat :=
  (if String.eqb sid "wechat_456"
   then Raise (CollaboratorError "timeout")
   else Ok (PList [PStr "article 1"; PStr "article 2"]),
   S calls).

(** The lookup knows two accounts; its state counts the calls. *)
Definition sample_lookup (session : pyobj) (name : string) (calls : nat)
  : result (option string) * nat :=
  (if String.eqb name "A" then Ok (Some "123")
   else if String.eqb name "B" then Ok (Some "456")
   else Ok None,
   S calls).

(** The same lookup over a connection that breaks on the account C. *)
Definition sample_lookup_flaky (session : pyobj) (name : string) (calls : nat)
  : result (option string) * nat :=
  if String.eqb name "C" then (Raise (CollaboratorError "connection reset"), S calls)
  else sample_lookup session name calls.

(** The user answers "y" to every prompt. *)
Definition sample_input (k : nat) : result string := Ok " Y ".

Definition sample_clock (k : nat) : Z := 1700000000 + Z.of_nat k.

(** ** The definitions on concrete inputs *)

Example strip_lower_example : lower (strip "  TRUE ") = "true".
Proof. reflexivity. Qed.

Example py_int_examples :
  py_int "3600" = Ok 3600 /\ py_int " -1_000 " = Ok (-1000)
  /\ py_int "1__0" = Raise ValueError /\ py_int "" = Raise ValueError
  /\ py_int "- 5" = Raise ValueError.
Proof. repeat split. Qed.

Example key_eqb_examples :
  key_eqb (KBool true) (KInt 1) = true /\ key_eqb (KStr "1") (KInt 1) = false
  /\ key_eqb KNone (KBool false) = false.
Proof. repeat split. Qed.

(** [update] from a list of pairs stops at the first bad element and keeps
    what it has inserted. *)
Example dict_update_pairs_example :
  dict_update [] (PList [PList [PStr "token"; PStr "t"]; PStr "ab"; PInt 3])
  = ([(KStr "token", PStr "t"); (KStr "a", PStr "b")], Some TypeError).
Proof. reflexivity. Qed.

(** Of two records with the same id the second is kept, at the place of the
    first. *)
Example existing_of_duplicates_example :
  (existing ← existing_of (PDict sample_duplicates); mret (od_values existing))
  = Ok [sample_source "123" "A again" 7; sample_source "456" "B" 10].
Proof. reflexivity. Qed.

(** A document that is JSON but not an object has no [get]: the merge
    raises, and the file is left as it was. *)
Example merge_into_a_list_example :
  let w := sample_world [] (FileJson (PList [])) FileMissing AuthMissing in
  fst (merge_wechat_config [sample_source "123" "A" 5] (OVal (PDict sample_session)) w)
  = Raise AttributeError
  /\ content (wechat_json
                (snd (merge_wechat_config [sample_source "123" "A" 5]
                        (OVal (PDict sample_session)) w)))
     = FileJson (PList []).
Proof. split; reflexivity. Qed.

(** With no usable session in the configuration, the credential file is
    read and whatever truthy value it holds is returned. *)
Example ensure_session_from_cookies_example :
  let w := sample_world [(KStr "user_agent", PStr "UA")] FileMissing
             (FileJson (PDict sample_session)) AuthMissing in
  fst (ensure_session_interactive w) = Ok (OVal (PDict sample_session))
  /\ trace (snd (ensure_session_interactive w))
     = [StatCookies; ReadCookies; InfoLoadedCookies].
Proof. split; reflexivity. Qed.

(** The login collaborator is called when both files give nothing, and what
    it returns is saved to the credential file. *)
Example ensure_session_by_login_example :
  let w := sample_world [] FileMissing FileMalformed
             (AuthGetCookies (Ok (PDict sample_session))) in
  fst (ensure_session_interactive w) = Ok (OVal (PDict sample_session))
  /\ content (cookies_json (snd (ensure_session_interactive w)))
     = FileJson (PDict sample_session).
Proof. split; reflexivity. Qed.

(** ** Dicts: lookup after assignment *)

Lemma pykey_eqb_eq (a b : pykey) : pykey_eqb a b = true <-> a = b.
Proof.
  destruct a, b; simpl; split; try discriminate; try reflexivity.
  - intros H. apply Bool.eqb_prop in H. congruence.
  - intros [= ->]. apply Bool.eqb_reflx.
  - intros H. apply Z.eqb_eq in H. congruence.
  - intros [= ->]. apply Z.eqb_refl.
  - intros H. apply String.eqb_eq in H. congruence.
  - intros [= ->]. apply String.eqb_refl.
Qed.

Lemma key_eqb_norm (a b : pykey) : key_eqb a b = true <-> key_norm a = key_norm b.
Proof. unfold key_eqb. apply pykey_eqb_eq. Qed.

Lemma key_eqb_refl (a : pykey) : key_eqb a a = true.
Proof. apply key_eqb_norm. reflexivity. Qed.

Lemma key_eqb_sym (a b : pykey) : key_eqb a b = key_eqb b a.
Proof.
  destruct (key_eqb a b) eqn:Hab, (key_eqb b a) eqn:Hba; try reflexivity.
  - apply key_eqb_norm in Hab. symmetry in Hab. apply key_eqb_norm in Hab. congruence.
  - apply key_eqb_norm in Hba. symmetry in Hba. apply key_eqb_norm in Hba. congruence.
Qed.

Lemma key_eqb_congr (a b c : pykey) :
  key_eqb a b = true -> key_eqb a c = key_eqb b c.
Proof.
  intros Hab. apply key_eqb_norm in Hab. unfold key_eqb. rewrite Hab. reflexivity.
Qed.

Lemma key_eqb_str (a b : string) : key_eqb (KStr a) (KStr b) = String.eqb a b.
Proof. reflexivity. Qed.

Lemma dict_get_set (d : pydict) (k k' : pykey) (v : pyval) :
  dict_get (dict_set d k v) k' = if key_eqb k k' then Some v else dict_get d k'.
Proof.
  unfold dict_get, dict_set.
  induction d as [|[k0 v0] d IH]; simpl.
  - reflexivity.
  - destruct (key_eqb k0 k) eqn:Hk; simpl.
    + rewrite (key_eqb_congr _ _ k' Hk). destruct (key_eqb k k'); reflexivity.
    + rewrite IH. destruct (key_eqb k0 k') eqn:Hk'; [|reflexivity].
      destruct (key_eqb k k') eqn:Hkk'; [|reflexivity].
      rewrite (key_eqb_congr _ _ k Hk'), key_eqb_sym in Hk. congruence.
Qed.

Lemma json_get_None (d : list (string * pyval)) (k : string) :
  json_get d k = None <-> ~ In k (map fst d).
Proof.
  unfold json_get. induction d as [|[k0 v0] d IH]; simpl.
  - tauto.
  - destruct (String.eqb k0 k) eqn:Hk.
    + apply String.eqb_eq in Hk. split; [discriminate|]. intros H. exfalso. auto.
    + apply String.eqb_neq in Hk. rewrite IH. tauto.
Qed.

Lemma update_from_dict_get (src : list (string * pyval)) (d : pydict) (k : string) :
  NoDup (map fst src) ->
  dict_get (update_from_dict d src) (KStr k)
  = match json_get src k with
    | Some v => Some v
    | None => dict_get d (KStr k)
    end.
Proof.
  unfold update_from_dict. revert d.
  induction src as [|[k0 v0] src IH]; intros d Hnd.
  - reflexivity.
  - change (map fst ((k0, v0) :: src)) with (k0 :: map fst src) in Hnd.
    apply NoDup_cons in Hnd as [Hk0 Hnd]. rewrite list_elem_of_In in Hk0.
    simpl. rewrite (IH _ Hnd).
    unfold json_get at 2. simpl. fold (json_get src k).
    rewrite dict_get_set, key_eqb_str.
    destruct (String.eqb k0 k) eqn:Hk.
    + apply String.eqb_eq in Hk. subst k0.
      apply json_get_None in Hk0. rewrite Hk0. reflexivity.
    + reflexivity.
Qed.

(** ** Properties of [wechat/config.py] *)

(** C9. When the variable is set, [_get_bool_env] is true exactly when the
    value, stripped and lowercased, is one of "1", "true", "yes", "on", and
    the default plays no part; "0", "enabled" and any other word give false
    even with a true default; the default is returned when the variable is
    unset. *)
Theorem get_bool_env_spec (env : environ) (name : string) (dflt : bool) :
  (forall value, getenv env name = Some value ->
     (_get_bool_env env name dflt = true <->
      In (lower (strip value)) ["1"; "true"; "yes"; "on"])
     /\ _get_bool_env env name dflt = _get_bool_env env name (negb dflt))
  /\ (getenv env name = None -> _get_bool_env env name dflt = dflt)
  /\ (forall value, In value ["0"; "enabled"; "garbage"] ->
        _get_bool_env (<[name := value]> env) name true = false).
Proof.
  unfold _get_bool_env, getenv. split; [|split].
  - intros value ->. split; [|reflexivity].
    rewrite bool_decide_eq_true, list_elem_of_In. reflexivity.
  - intros ->. reflexivity.
  - intros value Hv. rewrite lookup_insert_eq.
    simpl in Hv. destruct Hv as [<-|[<-|[<-|[]]]]; reflexivity.
Qed.

(** The three cases on the variable AUTO_CRAWL_ENABLED. *)
Lemma get_bool_env_spec_witness :
  _get_bool_env (<["AUTO_CRAWL_ENABLED" := " Yes "]> ∅) "AUTO_CRAWL_ENABLED" false = true
  /\ _get_bool_env ∅ "AUTO_CRAWL_ENABLED" true = true
  /\ _get_bool_env (<["AUTO_CRAWL_ENABLED" := "enabled"]> ∅) "AUTO_CRAWL_ENABLED" true = false.
Proof.
  split; [|split].
  - destruct (get_bool_env_spec (<["AUTO_CRAWL_ENABLED" := " Yes "]> ∅)
                "AUTO_CRAWL_ENABLED" false) as (Hset & _ & _).
    destruct (Hset " Yes ") as [Hiff _]; [reflexivity|].
    apply Hiff. vm_compute. auto.
  - destruct (get_bool_env_spec ∅ "AUTO_CRAWL_ENABLED" true) as (_ & Hunset & _).
    apply Hunset. reflexivity.
  - destruct (get_bool_env_spec ∅ "AUTO_CRAWL_ENABLED" true) as (_ & _ & Hwords).
    apply Hwords. simpl. auto.
Defined.

(** C8, as the claim states it: some environment moves the request timeout
    or the retry count away from 30 and 3. No environment does; with
    REQUEST_TIMEOUT=60 and MAX_RETRIES=5 set, they are still 30 and 3. *)
Lemma timeout_and_retries_not_configurable :
  (exists cfg,
     module_settings (<["REQUEST_TIMEOUT" := "60"]> (<["MAX_RETRIES" := "5"]> ∅)) = Ok cfg
     /\ REQUEST_TIMEOUT cfg = 30 /\ MAX_RETRIES cfg = 3)
  /\ ~ (exists env cfg, module_settings env = Ok cfg
                        /\ (REQUEST_TIMEOUT cfg <> 30 \/ MAX_RETRIES cfg <> 3)).
Proof.
  split.
  - eexists. split; [vm_compute; reflexivity|]. split; reflexivity.
  - intros (env & cfg & H & Hne). unfold module_settings in H.
    destruct (py_int _); [|discriminate].
    injection H as <-. simpl in Hne. destruct Hne as [Hne|Hne]; apply Hne; reflexivity.
Qed.

(** A flag read by [_get_bool_env] with the default [true]. *)
Lemma get_bool_env_flag (env : environ) (name : string) :
  (getenv env name = None -> _get_bool_env env name true = true)
  /\ (forall value, getenv env name = Some value ->
        (_get_bool_env env name true = true
         <-> lower (strip value) ∈ ["1"; "true"; "yes"; "on"])).
Proof.
  unfold _get_bool_env. split.
  - intros ->. reflexivity.
  - intros value ->. apply bool_decide_eq_true.
Qed.

(** C8, amended. The request timeout and the retry count are the constants
    30 and 3 whatever the environment. Each of the other three settings
    depends on its own variable only, whatever else is set: the crawl
    interval is [int] of CRAWL_INTERVAL and 3600 when that is unset; the
    flags AUTO_CRAWL_ENABLED and VECTOR_SYNC_ENABLED are true when their
    variable is unset and, when it is set, true exactly for the words 1,
    true, yes and on. The module body returns unless CRAWL_INTERVAL is set
    to a value that [int] rejects, and then it raises what [int] raised. *)
Theorem settings_defaults (env : environ) :
  (forall cfg, module_settings env = Ok cfg ->
     REQUEST_TIMEOUT cfg = 30 /\ MAX_RETRIES cfg = 3
     /\ (getenv env "CRAWL_INTERVAL" = None -> CRAWL_INTERVAL cfg = 3600)
     /\ (forall value, getenv env "CRAWL_INTERVAL" = Some value ->
           py_int value = Ok (CRAWL_INTERVAL cfg))
     /\ (getenv env "AUTO_CRAWL_ENABLED" = None -> AUTO_CRAWL_ENABLED cfg = true)
     /\ (forall value, getenv env "AUTO_CRAWL_ENABLED" = Some value ->
           (AUTO_CRAWL_ENABLED cfg = true
            <-> lower (strip value) ∈ ["1"; "true"; "yes"; "on"]))
     /\ (getenv env "VECTOR_SYNC_ENABLED" = None -> VECTOR_SYNC_ENABLED cfg = true)
     /\ (forall value, getenv env "VECTOR_SYNC_ENABLED" = Some value ->
           (VECTOR_SYNC_ENABLED cfg = true
            <-> lower (strip value) ∈ ["1"; "true"; "yes"; "on"])))
  /\ (getenv env "CRAWL_INTERVAL" = None -> exists cfg, module_settings env = Ok cfg)
  /\ (forall value seconds,
        getenv env "CRAWL_INTERVAL" = Some value -> py_int value = Ok seconds ->
        exists cfg, module_settings env = Ok cfg /\ CRAWL_INTERVAL cfg = seconds)
  /\ (forall value e,
        getenv env "CRAWL_INTERVAL" = Some value -> py_int value = Raise e ->
        module_settings env = Raise e).
Proof.
  split; [|split; [|split]].
  - intros cfg H. unfold module_settings, getenv_default in H.
    destruct (py_int (default "3600" (env !! "CRAWL_INTERVAL"))) as [interval|e] eqn:Hint;
      [|discriminate].
    injection H as <-. cbn [REQUEST_TIMEOUT MAX_RETRIES CRAWL_INTERVAL
                            AUTO_CRAWL_ENABLED VECTOR_SYNC_ENABLED].
    split; [reflexivity|]. split; [reflexivity|].
    split.
    { unfold getenv. intros Hnone. rewrite Hnone in Hint. simpl in Hint.
      change (py_int "3600") with (@Ok Z 3600) in Hint. congruence. }
    split.
    { unfold getenv. intros value Hsome. rewrite Hsome in Hint. simpl in Hint. exact Hint. }
    destruct (get_bool_env_flag env "AUTO_CRAWL_ENABLED") as [Ha1 Ha2].
    destruct (get_bool_env_flag env "VECTOR_SYNC_ENABLED") as [Hv1 Hv2].
    auto.
  - unfold module_settings, getenv_default, getenv. intros ->. simpl.
    change (py_int "3600") with (@Ok Z 3600). eexists. reflexivity.
  - unfold module_settings, getenv_default, getenv. intros value seconds -> Hint.
    simpl. rewrite Hint. eexists. split; reflexivity.
  - unfold module_settings, getenv_default, getenv. intros value e -> Hint.
    simpl. rewrite Hint. reflexivity.
Qed.

(** The settings in an empty environment, and with the crawl interval set
    to one minute and the vector synchronisation switched off. *)
Lemma settings_defaults_witness :
  (exists cfg, module_settings ∅ = Ok cfg
     /\ CRAWL_INTERVAL cfg = 3600 /\ REQUEST_TIMEOUT cfg = 30 /\ MAX_RETRIES cfg = 3
     /\ AUTO_CRAWL_ENABLED cfg = true /\ VECTOR_SYNC_ENABLED cfg = true)
  /\ (exists cfg,
        module_settings (<["CRAWL_INTERVAL" := " 60 "]> (<["VECTOR_SYNC_ENABLED" := "Off"]> ∅))
        = Ok cfg
        /\ CRAWL_INTERVAL cfg = 60 /\ REQUEST_TIMEOUT cfg = 30 /\ MAX_RETRIES cfg = 3
        /\ AUTO_CRAWL_ENABLED cfg = true /\ VECTOR_SYNC_ENABLED cfg = false).
Proof.
  split.
  - destruct (settings_defaults ∅) as (Hall & Hdflt & _).
    destruct (Hdflt eq_refl) as [cfg Hcfg].
    destruct (Hall cfg Hcfg) as (Ht & Hr & Hint & _ & Hauto & _ & Hvec & _).
    exists cfg. split; [exact Hcfg|]. split; [exact (Hint eq_refl)|].
    split; [exact Ht|]. split; [exact Hr|].
    split; [exact (Hauto eq_refl) | exact (Hvec eq_refl)].
  - destruct (settings_defaults
                (<["CRAWL_INTERVAL" := " 60 "]> (<["VECTOR_SYNC_ENABLED" := "Off"]> ∅)))
      as (Hall & _ & Hset & _).
    destruct (Hset " 60 " 60 eq_refl eq_refl) as (cfg & Hcfg & Hint).
    destruct (Hall cfg Hcfg) as (Ht & Hr & _ & _ & Hauto & _ & _ & Hvec).
    exists cfg. split; [exact Hcfg|]. split; [exact Hint|].
    split; [exact Ht|]. split; [exact Hr|].
    split; [exact (Hauto eq_refl)|].
    destruct (VECTOR_SYNC_ENABLED cfg) eqn:Hflag; [|reflexivity].
    exfalso. destruct (Hvec "Off" eq_refl) as [Hwords _].
    specialize (Hwords eq_refl). vm_compute in Hwords.
    repeat (apply elem_of_cons in Hwords as [Hwords|Hwords]; [discriminate Hwords|]).
    apply elem_of_nil in Hwords. exact Hwords.
Defined.

Lemma od_mem_get (d : list (string * pyval)) (k : string) (v : pyval) :
  json_get d k = Some v -> od_mem String.eqb d k = true.
Proof. unfold json_get, od_mem. intros ->. reflexivity. Qed.

(** One call of [load_configurations] on a file that holds a list of sources. *)
Lemma load_configurations_step (w : world) (d : list (string * pyval)) (l : list pyval) :
  dir_exists (wechat_json w) = true ->
  content (wechat_json w) = FileJson (PDict d) ->
  json_get d "sources" = Some (PList l) ->
  exists w', load_configurations w = (Ok tt, w')
    /\ WECHAT_SOURCES w' = (WECHAT_SOURCES w ++ l)%list
    /\ wechat_json w' = wechat_json w
    /\ WECHAT_SESSION w'
       = match json_get d "session" with
         | Some v => fst (dict_update (WECHAT_SESSION w) v)
         | None => WECHAT_SESSION w
         end.
Proof.
  intros Hdir Hc Hsrc.
  unfold load_configurations, file_exists. rewrite Hdir, Hc. simpl.
  unfold try_except, load_body, mbind, M_bind, read_json, lift.
  simpl. rewrite Hdir, Hc. simpl.
  rewrite (od_mem_get _ _ _ Hsrc), Hsrc.
  unfold extend_sources at 1. simpl.
  unfold od_mem. fold (json_get d "session").
  destruct (json_get d "session") as [v|] eqn:Hsess.
  - unfold update_session. simpl.
    destruct (dict_update (WECHAT_SESSION w) v) as [d' err] eqn:Hup.
    destruct err; simpl; eexists; (split; [reflexivity|]); simpl; auto.
  - simpl. eexists; (split; [reflexivity|]); simpl; auto.
Qed.

Lemma load_configurations_total (w : world) : fst (load_configurations w) = Ok tt.
Proof.
  unfold load_configurations.
  destruct (negb (dir_exists (wechat_json w))); [reflexivity|].
  destruct (negb (file_exists (wechat_json w))); [reflexivity|].
  unfold try_except. destruct (load_body w) as [[[]|e] w']; reflexivity.
Qed.

Lemma load_configurations_unavailable (w : world) :
  config_unavailable (wechat_json w) = true ->
  WECHAT_SOURCES (snd (load_configurations w)) = WECHAT_SOURCES w
  /\ WECHAT_SESSION (snd (load_configurations w)) = WECHAT_SESSION w.
Proof.
  unfold config_unavailable, load_configurations, file_exists. intros H.
  destruct (dir_exists (wechat_json w)) eqn:Hdir; simpl in *; [|auto].
  destruct (content (wechat_json w)) eqn:Hc; try discriminate; simpl; [auto| |].
  all: unfold try_except, load_body, mbind, M_bind, read_json; simpl;
    rewrite Hdir, Hc; simpl; auto.
Qed.

Lemma copies_length {A} (k : nat) (l : list A) :
  length (copies k l) = (k * length l)%nat.
Proof. induction k as [|k IH]; simpl; [reflexivity|]. rewrite length_app, IH. reflexivity. Qed.

Lemma load_times_sources (k : nat) (w : world) (d : list (string * pyval)) (l : list pyval) :
  dir_exists (wechat_json w) = true ->
  content (wechat_json w) = FileJson (PDict d) ->
  json_get d "sources" = Some (PList l) ->
  fst (load_times k w) = Ok tt
  /\ WECHAT_SOURCES (snd (load_times k w)) = (WECHAT_SOURCES w ++ copies k l)%list.
Proof.
  revert w. induction k as [|k IH]; intros w Hdir Hc Hsrc; simpl.
  - split; [reflexivity|]. symmetry. apply app_nil_r.
  - destruct (load_configurations_step w d l Hdir Hc Hsrc) as (w' & Hrun & Hs & Hj & _).
    unfold mbind, M_bind. rewrite Hrun.
    rewrite <- Hj in Hdir, Hc. destruct (IH w' Hdir Hc Hsrc) as [Hok Hk].
    split; [exact Hok|]. rewrite Hk, Hs, <- app_assoc. reflexivity.
Qed.

(** C5. [load_configurations] never raises, whatever the file holds. When the
    file is missing, unreadable or not JSON, it leaves the module state as it
    was, so the import ends with no sources and an empty session; and the
    merge reads a fallback document that it treats exactly as the empty
    document [{"session": {}, "sources": []}]. *)
Theorem config_load_never_fails (w : world) :
  fst (load_configurations w) = Ok tt
  /\ (config_unavailable (wechat_json w) = true ->
      WECHAT_SOURCES (snd (load_configurations w)) = WECHAT_SOURCES w
      /\ WECHAT_SESSION (snd (load_configurations w)) = WECHAT_SESSION w
      /\ WECHAT_SOURCES (module_state w) = []
      /\ WECHAT_SESSION (module_state w) = []
      /\ exists data, fst (read_config_data w) = Ok data
           /\ existing_of data = Ok []
           /\ forall new_sources session,
                merged_document data new_sources session
                = merged_document (PDict [("session", PDict []); ("sources", PList [])])
                    new_sources session).
Proof.
  split; [apply load_configurations_total|]. intros H.
  destruct (load_configurations_unavailable w H) as [Hs Hd].
  split; [exact Hs|]. split; [exact Hd|].
  destruct (load_configurations_unavailable (set_session [] (set_sources [] w)) H)
    as [Hs0 Hd0].
  split; [exact Hs0|]. split; [exact Hd0|].
  exists (PDict [("sources", PList [])]). split; [|split; reflexivity].
  unfold config_unavailable in H. unfold read_config_data, file_exists, read_json.
  simpl. destruct (dir_exists (wechat_json w)); simpl in *; [|reflexivity].
  destruct (content (wechat_json w)); try discriminate; reflexivity.
Qed.

(** A backing file that is not JSON, at import. *)
Lemma config_load_never_fails_witness :
  let w := {| WECHAT_SOURCES := []; WECHAT_SESSION := [];
              wechat_json := {| dir_exists := true; dir_creatable := true;
                                content := FileMalformed; writable := true |};
              cookies_json := {| dir_exists := false; dir_creatable := true;
                                 content := FileMissing; writable := true |};
              wechat_auth := AuthMissing; trace := [] |} in
  config_unavailable (wechat_json w) = true
  /\ fst (load_configurations w) = Ok tt
  /\ WECHAT_SOURCES (module_state w) = []
  /\ WECHAT_SESSION (module_state w) = [].
Proof.
  intros w. split; [reflexivity|].
  destruct (config_load_never_fails w) as [Hok Hunav].
  split; [exact Hok|].
  destruct Hunav as (_ & _ & Hs & Hd & _); [reflexivity|].
  split; assumption.
Defined.

(** C10. With a file that holds a list of n sources, every call of
    [load_configurations] appends the n sources again: k calls leave the
    earlier entries followed by k copies, k * n entries from an empty list, so
    a second call changes the state whenever n is positive; the clear of
    [main] before the reload leaves exactly the n sources. The session is
    merged by [update]: a key of the file's session takes the file's value,
    any other key keeps its value. *)
Theorem load_configurations_accumulates (w : world) (d : list (string * pyval))
    (l : list pyval) (k : nat) :
  dir_exists (wechat_json w) = true ->
  content (wechat_json w) = FileJson (PDict d) ->
  json_get d "sources" = Some (PList l) ->
  fst (load_times k w) = Ok tt
  /\ WECHAT_SOURCES (snd (load_times k w)) = (WECHAT_SOURCES w ++ copies k l)%list
  /\ (WECHAT_SOURCES w = [] ->
      length (WECHAT_SOURCES (snd (load_times k w))) = (k * length l)%nat)
  /\ (l <> [] ->
      WECHAT_SOURCES (snd (load_times 2 w)) <> WECHAT_SOURCES (snd (load_times 1 w)))
  /\ WECHAT_SOURCES (snd (main_reload w)) = l
  /\ (forall fields key,
        json_get d "session" = Some (PDict fields) -> NoDup (map fst fields) ->
        dict_get (WECHAT_SESSION (snd (load_configurations w))) (KStr key)
        = match json_get fields key with
          | Some v => Some v
          | None => dict_get (WECHAT_SESSION w) (KStr key)
          end)
  /\ (json_get d "session" = None ->
      WECHAT_SESSION (snd (load_configurations w)) = WECHAT_SESSION w).
Proof.
  intros Hdir Hc Hsrc.
  destruct (load_times_sources k w d l Hdir Hc Hsrc) as [Hok Hk].
  split; [exact Hok|]. split; [exact Hk|]. split; [|split; [|split; [|split]]].
  - intros Hnil. rewrite Hk, Hnil. simpl. apply copies_length.
  - intros Hl Heq.
    destruct (load_times_sources 2 w d l Hdir Hc Hsrc) as [_ H2].
    destruct (load_times_sources 1 w d l Hdir Hc Hsrc) as [_ H1].
    rewrite H2, H1 in Heq. apply app_inv_head in Heq.
    apply (f_equal (@length pyval)) in Heq. rewrite !copies_length in Heq.
    destruct l; [congruence|]. simpl in Heq. lia.
  - destruct (load_configurations_step (set_sources [] w) d l Hdir Hc Hsrc)
      as (w' & Hrun & Hs & _).
    unfold main_reload, try_except, mbind, M_bind, modify. simpl.
    rewrite Hrun. simpl. exact Hs.
  - intros fields key Hsess Hnd.
    destruct (load_configurations_step w d l Hdir Hc Hsrc) as (w' & Hrun & _ & _ & Hd).
    rewrite Hrun. simpl. rewrite Hd, Hsess. simpl.
    apply update_from_dict_get, Hnd.
  - intros Hsess.
    destruct (load_configurations_step w d l Hdir Hc Hsrc) as (w' & Hrun & _ & _ & Hd).
    rewrite Hrun. simpl. rewrite Hd, Hsess. reflexivity.
Qed.

(** Three loads of a file with two sources leave six entries. *)
Lemma load_configurations_accumulates_witness :
  let w := sample_world [] (FileJson (PDict sample_document)) FileMissing AuthMissing in
  fst (load_times 3 w) = Ok tt
  /\ length (WECHAT_SOURCES (snd (load_times 3 w))) = 6%nat
  /\ WECHAT_SOURCES (snd (load_times 2 w)) <> WECHAT_SOURCES (snd (load_times 1 w))
  /\ dict_get (WECHAT_SESSION (snd (load_configurations w))) (KStr "token")
     = Some (PStr "tok").
Proof.
  intros w.
  destruct (load_configurations_accumulates w sample_document
              [sample_source "123" "A" 5; sample_source "456" "B" 10] 3)
    as (Hok & _ & Hlen & Hne & _ & Hsess & _); try reflexivity.
  split; [exact Hok|]. split; [apply Hlen; reflexivity|].
  split; [apply Hne; discriminate|].
  rewrite (Hsess sample_session "token"); [reflexivity|reflexivity|].
  apply (bool_decide_unpack _). vm_compute. exact I.
Defined.

(** ** Properties of [scripts/wechat_setup.py] *)

Lemma session_from_conf_ok_usable (d : pydict) :
  session_from_conf_ok d = usable (ODict d).
Proof.
  unfold session_from_conf_ok, usable. simpl.
  destruct d as [|kv d]; [reflexivity|]. reflexivity.
Qed.

(** C2. When the persisted session is usable, [ensure_session_interactive]
    returns it; its only effect is the line that announces it, so the
    credential file is neither looked for nor read and [get_cookies] is not
    called. *)
Theorem persisted_session_has_priority (w : world) :
  usable (ODict (WECHAT_SESSION w)) = true ->
  ensure_session_interactive w
  = (Ok (ODict (WECHAT_SESSION w)), emit InfoUsingConfigSession w)
  /\ trace (snd (ensure_session_interactive w)) = (trace w ++ [InfoUsingConfigSession])%list
  /\ cookies_json (snd (ensure_session_interactive w)) = cookies_json w.
Proof.
  intros H. rewrite <- session_from_conf_ok_usable in H.
  assert (ensure_session_interactive w
          = (Ok (ODict (WECHAT_SESSION w)), emit InfoUsingConfigSession w)) as Hrun.
  { unfold ensure_session_interactive, mbind, M_bind, get_world. rewrite H. reflexivity. }
  rewrite Hrun. auto.
Qed.

(** A persisted session with cookies and an empty token, next to a valid
    credential file and a working login: only the announcement is traced. *)
Lemma persisted_session_has_priority_witness :
  let w := sample_world [(KStr "token", PStr ""); (KStr "cookies_str", PStr "k=v")]
             FileMissing (FileJson (PDict sample_session))
             (AuthGetCookies (Ok (PDict sample_session))) in
  usable (ODict (WECHAT_SESSION w)) = true
  /\ fst (ensure_session_interactive w) = Ok (ODict (WECHAT_SESSION w))
  /\ trace (snd (ensure_session_interactive w)) = [InfoUsingConfigSession].
Proof.
  intros w. split; [reflexivity|].
  destruct (persisted_session_has_priority w) as (Hrun & Htrace & _); [reflexivity|].
  split; [rewrite Hrun; reflexivity | exact Htrace].
Defined.

(** C3. When the persisted session is unusable, the credential file is
    missing or cannot be parsed, and the login collaborator is unavailable or
    returns nothing, [ensure_session_interactive] raises and returns no
    session. The exception is the [RuntimeError] of line 82, unless creating
    the credential directory for the login raised first. *)
Theorem no_session_available (w : world) :
  usable (ODict (WECHAT_SESSION w)) = false ->
  credentials_unavailable (cookies_json w) = true ->
  login_yields_nothing (wechat_auth w) = true ->
  (exists e, fst (ensure_session_interactive w) = Raise e)
  /\ (login_available (wechat_auth w) = false
      \/ is_ok (makedirs (cookies_json w)) = true ->
      fst (ensure_session_interactive w) = Raise RuntimeError).
Proof.
  intros Hconf Hfile Hlogin. rewrite <- session_from_conf_ok_usable in Hconf.
  assert (load_local_session w = (Ok PNone, snd (load_local_session w))) as Hlocal.
  { unfold credentials_unavailable in Hfile. unfold load_local_session, read_json. simpl.
    destruct (file_exists (cookies_json w)) eqn:He; simpl in *; [|reflexivity].
    unfold file_exists in He. destruct (dir_exists (cookies_json w)); [|discriminate].
    destruct (content (cookies_json w)); try discriminate; reflexivity. }
  unfold ensure_session_interactive, mbind, M_bind, get_world. rewrite Hconf, Hlocal.
  simpl. set (w1 := snd (load_local_session w)).
  assert (wechat_auth w1 = wechat_auth w /\ cookies_json w1 = cookies_json w) as [Ha Hc].
  { unfold w1, load_local_session.
    destruct (negb _); [|destruct (read_json _)]; simpl; auto. }
  unfold interactive_login. rewrite Ha.
  destruct (wechat_auth w) as [| |[data|e]]; simpl in *; try discriminate.
  - split; [eauto|]. reflexivity.
  - split; [eauto|]. reflexivity.
  - rewrite Hc. destruct (makedirs (cookies_json w)) as [s|e] eqn:Hmk; simpl.
    + apply negb_true_iff in Hlogin. rewrite Hlogin. split; [eauto|]. reflexivity.
    + split; [eauto|]. intros [?|?]; discriminate.
Qed.

(** An empty token, a credential file that is not JSON, and a login that
    returns [None]. *)
Lemma no_session_available_witness :
  let w := sample_world [(KStr "token", PStr ""); (KStr "user_agent", PStr "UA")]
             FileMissing FileMalformed (AuthGetCookies (Ok PNone)) in
  usable (ODict (WECHAT_SESSION w)) = false
  /\ credentials_unavailable (cookies_json w) = true
  /\ login_yields_nothing (wechat_auth w) = true
  /\ fst (ensure_session_interactive w) = Raise RuntimeError.
Proof.
  intros w. do 3 (split; [reflexivity|]).
  destruct (no_session_available w eq_refl eq_refl eq_refl) as [_ Hexn].
  apply Hexn. right. reflexivity.
Defined.

(** C7, as the claim states it, fails: two calls with the same name, key,
    session and count, one second apart, build different records. *)
Lemma build_source_entry_stamps_clock :
  build_source_entry "A" "123" (OVal (PDict sample_session)) 5 1700000000
  <> build_source_entry "A" "123" (OVal (PDict sample_session)) 5 1700000001.
Proof. vm_compute. discriminate. Qed.

(** C7, amended. For a session that is a dict, [build_source_entry] returns
    a record that depends on its four arguments and on the clock only: its
    id is "wechat_" followed by the platform key, its [wx_cfg] is a new dict
    of exactly the session's token, cookies_str and user_agent, its
    [created_at] is the clock reading, and two calls at different times
    agree on every field but [created_at]. *)
Theorem build_source_entry_spec (name biz : string) (wx_cfg : pyobj) (count now : Z)
    (token cookies_str user_agent : pyval) :
  obj_get wx_cfg "token" = Ok token ->
  obj_get wx_cfg "cookies_str" = Ok cookies_str ->
  obj_get wx_cfg "user_agent" = Ok user_agent ->
  exists fields,
    build_source_entry name biz wx_cfg count now = Ok (PDict fields)
    /\ od_keys fields = ["id"; "name"; "biz"; "wx_cfg"; "count"; "created_at"]
    /\ json_get fields "id" = Some (PStr ("wechat_" +:+ biz))
    /\ json_get fields "name" = Some (PStr name)
    /\ json_get fields "biz" = Some (PStr biz)
    /\ json_get fields "wx_cfg"
       = Some (PDict [("token", token); ("cookies_str", cookies_str);
                      ("user_agent", user_agent)])
    /\ json_get fields "count" = Some (PInt count)
    /\ json_get fields "created_at" = Some (PInt now)
    /\ forall now', exists fields',
         build_source_entry name biz wx_cfg count now' = Ok (PDict fields')
         /\ forall key, key <> "created_at" -> json_get fields' key = json_get fields key.
Proof.
  intros Ht Hc Hu. unfold build_source_entry, session_fields, mbind, result_bind.
  rewrite Ht, Hc, Hu. simpl. eexists. split; [reflexivity|].
  do 7 (split; [reflexivity|]).
  intros now'. eexists. split; [reflexivity|].
  intros key Hkey. unfold json_get. cbn [od_get].
  do 5 (destruct (String.eqb _ key); [reflexivity|]).
  destruct (String.eqb_spec "created_at" key); [congruence | reflexivity].
Qed.

(** The record built for the platform key 123. *)
Lemma build_source_entry_spec_witness :
  exists fields,
    build_source_entry "A" "123" (OVal (PDict sample_session)) 5 1700000000
    = Ok (PDict fields)
    /\ json_get fields "id" = Some (PStr "wechat_123")
    /\ json_get fields "wx_cfg" = Some (PDict sample_session).
Proof.
  destruct (build_source_entry_spec "A" "123" (OVal (PDict sample_session)) 5 1700000000
              (PStr "tok") (PStr "k=v") (PStr "UA") eq_refl eq_refl eq_refl)
    as (fields & Hrun & _ & Hid & _ & _ & Hcfg & _).
  exists fields. split; [exact Hrun|]. split; [exact Hid | exact Hcfg].
Defined.

Section crawl_facts.
Context {St : Type} (fetch : string -> St -> result pyval * St).

Lemma fetch_outcomes_length (ids : list string) (st : St) :
  length (fetch_outcomes fetch ids st) = length ids.
Proof.
  revert st. induction ids as [|sid rest IH]; intros st; simpl; [reflexivity|].
  destruct (fetch sid st) as [r st']. simpl. rewrite IH. reflexivity.
Qed.

Lemma maybe_crawl_sources_length (ids : list string) (st : St) :
  length (fst (maybe_crawl_sources fetch ids st)) = (2 * length ids)%nat.
Proof.
  revert st. induction ids as [|sid rest IH]; intros st; simpl; [reflexivity|].
  unfold crawl_one. destruct (fetch sid st) as [r st'].
  specialize (IH st'). destruct (maybe_crawl_sources fetch rest st') as [out st''].
  simpl in *. lia.
Qed.

(** The two lines printed for the id at position [j] are fixed by that id
    and by what the fetch answered for it. *)
Lemma maybe_crawl_sources_lines (ids : list string) (st : St) (j : nat)
    (sid : string) (r : result pyval) :
  ids !! j = Some sid ->
  fetch_outcomes fetch ids st !! j = Some r ->
  fst (maybe_crawl_sources fetch ids st) !! (2 * j)%nat = Some (CrawlStart sid)
  /\ fst (maybe_crawl_sources fetch ids st) !! (2 * j + 1)%nat
     = Some (crawl_report sid r).
Proof.
  revert st j. induction ids as [|sid0 rest IH]; intros st j Hid Hout.
  - discriminate.
  - cbn [maybe_crawl_sources fetch_outcomes] in *. unfold crawl_one.
    destruct (fetch sid0 st) as [r0 st'].
    specialize (IH st'). destruct (maybe_crawl_sources fetch rest st') as [out st''].
    destruct j as [|j].
    + simpl in *. injection Hid as ->. injection Hout as ->. split; reflexivity.
    + destruct (IH j Hid Hout) as [Hstart Hreport].
      replace (2 * S j)%nat with (S (S (2 * j)))%nat by lia.
      split; [exact Hstart | exact Hreport].
Qed.
End crawl_facts.

(** C6. The loop prints two lines for every id, in order, and never raises.
    When the fetch raises for the id at position [i] and succeeds for every
    other position, the line after the start line of position [i] is the
    warning with that exception, and every other id has its start line
    followed by its success line with the number of items fetched. *)
Theorem crawl_failure_isolated {St : Type} (fetch : string -> St -> result pyval * St)
    (ids : list string) (st : St) (i : nat) (bad : string) (exc : exn) :
  let outcomes := fetch_outcomes fetch ids st in
  let out := fst (maybe_crawl_sources fetch ids st) in
  ids !! i = Some bad ->
  outcomes !! i = Some (Raise exc) ->
  (forall j r, j <> i -> outcomes !! j = Some r -> is_Some (fetched r)) ->
  length out = (2 * length ids)%nat
  /\ out !! (2 * i)%nat = Some (CrawlStart bad)
  /\ out !! (2 * i + 1)%nat = Some (CrawlWarn bad exc)
  /\ forall j sid, j <> i -> ids !! j = Some sid ->
       exists r n, outcomes !! j = Some r /\ fetched r = Some n
         /\ out !! (2 * j)%nat = Some (CrawlStart sid)
         /\ out !! (2 * j + 1)%nat = Some (CrawlOk n sid).
Proof.
  intros outcomes out Hbad Hexc Hothers.
  split; [apply maybe_crawl_sources_length|].
  destruct (maybe_crawl_sources_lines fetch ids st i bad _ Hbad Hexc) as [Hs Hw].
  split; [exact Hs|]. split; [exact Hw|].
  intros j sid Hj Hsid.
  assert (j < length outcomes)%nat as Hlt.
  { unfold outcomes. rewrite fetch_outcomes_length. eapply lookup_lt_Some, Hsid. }
  destruct (lookup_lt_is_Some_2 _ _ Hlt) as [r Hr].
  destruct (Hothers j r Hj Hr) as [n Hn].
  destruct (maybe_crawl_sources_lines fetch ids st j sid r Hsid Hr) as [Hs' Hr'].
  exists r, n. split; [exact Hr|]. split; [exact Hn|]. split; [exact Hs'|].
  unfold out. rewrite Hr'. f_equal. unfold crawl_report. unfold fetched in Hn.
  destruct (items ← r; py_len items); [congruence | discriminate].
Qed.

(** Three ids, the fetch of the second one times out. *)
Lemma crawl_failure_isolated_witness :
  let ids := ["wechat_123"; "wechat_456"; "wechat_789"] in
  let out := fst (maybe_crawl_sources sample_fetch ids 0%nat) in
  fetch_outcomes sample_fetch ids 0%nat !! 1%nat
  = Some (Raise (CollaboratorError "timeout"))
  /\ out !! 1%nat = Some (CrawlOk 2 "wechat_123")
  /\ out !! 3%nat = Some (CrawlWarn "wechat_456" (CollaboratorError "timeout"))
  /\ out !! 5%nat = Some (CrawlOk 2 "wechat_789").
Proof.
  intros ids out. split; [reflexivity|].
  assert (forall j r, j <> 1%nat ->
            fetch_outcomes sample_fetch ids 0%nat !! j = Some r ->
            is_Some (fetched r)) as Hothers.
  { unfold ids. intros [|[|[|j]]] r Hj Hr; simpl in Hr;
      [ | exfalso; apply Hj; reflexivity | | discriminate Hr ];
      inversion Hr; eexists; reflexivity. }
  destruct (crawl_failure_isolated sample_fetch ids 0%nat 1%nat "wechat_456"
              (CollaboratorError "timeout") eq_refl eq_refl Hothers)
    as (_ & _ & Hwarn & Hrest).
  destruct (Hrest 0%nat "wechat_123") as (r0 & n0 & Hr0 & Hn0 & _ & Hok0);
    [lia | reflexivity |].
  destruct (Hrest 2%nat "wechat_789") as (r2 & n2 & Hr2 & Hn2 & _ & Hok2);
    [lia | reflexivity |].
  injection Hr0 as <-. injection Hn0 as <-.
  injection Hr2 as <-. injection Hn2 as <-.
  split; [exact Hok0|]. split; [exact Hwarn | exact Hok2].
Defined.

(** ** The merge *)

Lemma item_id_get_id (s : pyval) (k : pykey) : item_id s = Ok k -> get_id s = Ok k.
Proof.
  unfold item_id, get_id, py_getitem, py_get. destruct s; try discriminate.
  simpl. destruct (json_get d "id"); [auto | discriminate].
Qed.

Lemma has_id_of_get_id (s : pyval) (k k' : pykey) :
  get_id s = Ok k -> has_id k' s = key_eqb k k'.
Proof. unfold has_id. intros ->. reflexivity. Qed.

Lemma dict_set_keys (d : pydict) (k : pykey) (v : pyval) (x : pykey) :
  In x (map key_norm (od_keys (dict_set d k v))) ->
  In x (map key_norm (od_keys d)) \/ x = key_norm k.
Proof.
  unfold dict_set, od_keys. induction d as [|[k0 v0] d IH]; simpl.
  - intros [<-|[]]. auto.
  - destruct (key_eqb k0 k); simpl; [auto|].
    intros [<-|H]; [auto|]. destruct (IH H); auto.
Qed.

Lemma dict_set_distinct (d : pydict) (k : pykey) (v : pyval) :
  distinct_keys d -> distinct_keys (dict_set d k v).
Proof.
  unfold distinct_keys, dict_set, od_keys. induction d as [|[k0 v0] d IH]; simpl.
  - intros _. apply NoDup_singleton.
  - intros Hnd. apply NoDup_cons in Hnd as [Hk0 Hnd].
    destruct (key_eqb k0 k) eqn:Hk; simpl.
    + apply NoDup_cons. auto.
    + apply NoDup_cons. split; [|auto].
      rewrite list_elem_of_In in *. intros Hin.
      destruct (dict_set_keys d k v _ Hin) as [H|H]; [auto|].
      apply key_eqb_norm in H. congruence.
Qed.

Lemma dict_set_keyed (d : pydict) (k : pykey) (v : pyval) :
  keyed d -> get_id v = Ok k -> keyed (dict_set d k v).
Proof.
  unfold keyed, dict_set. intros Hd Hv. induction Hd as [|[k0 v0] d Hkv Hd IH]; simpl.
  - repeat constructor. simpl. rewrite (has_id_of_get_id _ _ _ Hv). apply key_eqb_refl.
  - destruct (key_eqb k0 k) eqn:Hk; constructor; auto.
    simpl. rewrite (has_id_of_get_id _ _ _ Hv), key_eqb_sym. exact Hk.
Qed.

(** The loop [for s in items: acc[key(s)] = s] keeps the keys distinct and
    the values under their own ids, and leaves under each id the last item
    that carries it. *)
Lemma assign_all_spec (key : pyval -> result pykey) (items : list pyval) (acc : pydict) :
  (forall s k, key s = Ok k -> get_id s = Ok k) ->
  forallb (fun r => is_ok (key r)) items = true ->
  distinct_keys acc -> keyed acc ->
  exists d, assign_all key acc items = Ok d
    /\ distinct_keys d /\ keyed d
    /\ forall k, dict_get d k
         = match last (List.filter (has_id k) items) with
           | Some r => Some r
           | None => dict_get acc k
           end.
Proof.
  intros Hkey. revert acc.
  induction items as [|s rest IH]; intros acc Hok Hnd Hkd; simpl.
  - exists acc. auto.
  - simpl in Hok. apply andb_true_iff in Hok as [Hs Hrest].
    destruct (key s) as [ks|] eqn:Hks; [|discriminate]. simpl.
    pose proof (Hkey _ _ Hks) as Hgs.
    destruct (IH (dict_set acc ks s) Hrest (dict_set_distinct _ _ _ Hnd)
                (dict_set_keyed _ _ _ Hkd Hgs)) as (d & Hrun & Hnd' & Hkd' & Hget).
    exists d. split; [exact Hrun|]. split; [exact Hnd'|]. split; [exact Hkd'|].
    intros k. rewrite Hget, dict_get_set, (has_id_of_get_id _ _ _ Hgs).
    destruct (key_eqb ks k); [|reflexivity].
    rewrite last_cons. destruct (last _); reflexivity.
Qed.

Lemma keyed_lookup (d : pydict) (i : nat) (r : pyval) :
  keyed d -> od_values d !! i = Some r ->
  exists k k', d !! i = Some (k, r) /\ get_id r = Ok k' /\ key_norm k' = key_norm k.
Proof.
  unfold od_values. intros Hkd Hi. rewrite list_lookup_fmap in Hi.
  destruct (d !! i) as [[k v]|] eqn:Hd; simpl in Hi; [|discriminate].
  inversion Hi; subst v. unfold keyed in Hkd. rewrite Forall_lookup in Hkd.
  specialize (Hkd _ _ Hd). simpl in Hkd. unfold has_id in Hkd.
  destruct (get_id r) as [k'|]; [|discriminate].
  exists k, k'. split; [reflexivity|]. split; [reflexivity|]. apply key_eqb_norm, Hkd.
Qed.

Lemma registry_ids_distinct (d : pydict) :
  distinct_keys d -> keyed d -> ids_distinct (od_values d).
Proof.
  intros Hnd Hkd i j r1 r2 Hi Hj (a & b & Ha & Hb & Hab).
  destruct (keyed_lookup d i r1 Hkd Hi) as (k1 & k1' & Hd1 & Hg1 & Hn1).
  destruct (keyed_lookup d j r2 Hkd Hj) as (k2 & k2' & Hd2 & Hg2 & Hn2).
  apply key_eqb_norm in Hab.
  assert (key_norm k1 = key_norm k2) as Heq by congruence.
  unfold distinct_keys, od_keys in Hnd.
  eapply NoDup_lookup; [exact Hnd| |].
  - rewrite !list_lookup_fmap, Hd1. reflexivity.
  - rewrite !list_lookup_fmap, Hd2. simpl. congruence.
Qed.

Lemma filter_absent (d : pydict) (k : pykey) :
  keyed d -> ~ In (key_norm k) (map key_norm (od_keys d)) ->
  List.filter (has_id k) (od_values d) = [].
Proof.
  unfold od_keys, od_values. intros Hkd.
  induction Hkd as [|[k0 v0] d Hkv Hd IH]; simpl; [reflexivity|].
  intros Hin. unfold has_id in Hkv |- *. simpl in Hkv.
  destruct (get_id v0) as [k0'|]; [|discriminate].
  destruct (key_eqb k0' k) eqn:Hk; [|auto].
  exfalso. apply Hin. left.
  apply key_eqb_norm in Hkv, Hk. congruence.
Qed.

(** In a dict of records, the records that carry an id are the one stored
    under it, if any. *)
Lemma filter_by_id (d : pydict) (k : pykey) :
  distinct_keys d -> keyed d ->
  List.filter (has_id k) (od_values d)
  = match dict_get d k with Some r => [r] | None => [] end.
Proof.
  unfold distinct_keys, od_keys, od_values, dict_get. intros Hnd Hkd. revert Hnd.
  induction Hkd as [|[k0 v0] d Hkv Hd IH]; simpl; [reflexivity|].
  intros Hnd. apply NoDup_cons in Hnd as [Hk0 Hnd]. rewrite list_elem_of_In in Hk0.
  simpl in Hkv. unfold has_id at 1. unfold has_id in Hkv.
  destruct (get_id v0) as [k0'|]; [|discriminate].
  rewrite (key_eqb_congr _ _ k Hkv).
  destruct (key_eqb k0 k) eqn:Hk.
  - f_equal. apply filter_absent; [exact Hd|].
    apply key_eqb_norm in Hk. rewrite <- Hk. exact Hk0.
  - apply IH, Hnd.
Qed.

Lemma loadable_fallback : loadable (PDict [("sources", PList [])]) = true.
Proof. reflexivity. Qed.

(** What [merge_wechat_config] reads is a document that line 97 can load. *)
Lemma read_config_data_loadable (w : world) :
  match content (wechat_json w) with
  | FileJson v => negb (dir_exists (wechat_json w)) || loadable v
  | _ => true
  end = true ->
  exists data w', read_config_data w = (Ok data, w')
    /\ loadable data = true /\ wechat_json w' = wechat_json w.
Proof.
  intros H. unfold read_config_data, file_exists, read_json. simpl.
  destruct (dir_exists (wechat_json w)); simpl in *.
  - destruct (content (wechat_json w)); simpl; eauto using loadable_fallback.
  - eauto using loadable_fallback.
Qed.

(** The document written back: its sources are the values of a dict whose
    keys are distinct and whose values carry their keys, and under the id of
    a new source it holds the last new source with that id. *)
Lemma merged_document_spec (data : pyval) (new_sources : list pyval) (session : pyobj) :
  loadable data = true ->
  call_ok (new_sources, session) = true ->
  exists existing fields,
    merged_document data new_sources session
    = Ok (PDict [("session", fields); ("sources", PList (od_values existing))])
    /\ distinct_keys existing /\ keyed existing
    /\ forall k r, last (List.filter (has_id k) new_sources) = Some r ->
         dict_get existing k = Some r.
Proof.
  unfold loadable, call_ok, merged_document, existing_of. simpl fst. simpl snd.
  intros Hload Hcall. apply andb_true_iff in Hcall as [Hnew Hsess].
  destruct (py_get_default data "sources" (PList [])) as [srcs|]; [|discriminate].
  simpl in *. destruct (py_iter srcs) as [items|]; [|discriminate]. simpl in *.
  destruct (assign_all_spec get_id items [] (fun _ _ H => H) Hload)
    as (loaded & Hrun & Hnd & Hkd & _); [apply NoDup_nil_2 | constructor |].
  rewrite Hrun. simpl.
  destruct (assign_all_spec item_id new_sources loaded item_id_get_id Hnew Hnd Hkd)
    as (existing & Hrun' & Hnd' & Hkd' & Hget).
  rewrite Hrun'. simpl.
  destruct (session_fields session) as [fields|]; [|discriminate]. simpl.
  exists existing, fields. split; [reflexivity|]. split; [exact Hnd'|].
  split; [exact Hkd'|]. intros k r Hlast. rewrite Hget, Hlast. reflexivity.
Qed.

Lemma keyed_loadable (existing : pydict) (fields : pyval) :
  keyed existing ->
  loadable (PDict [("session", fields); ("sources", PList (od_values existing))]) = true.
Proof.
  unfold loadable. simpl. unfold keyed, od_values. intros Hkd.
  apply forallb_forall. intros r Hr. apply in_map_iff in Hr as ([k v] & <- & Hin).
  rewrite Forall_forall in Hkd. rewrite <- list_elem_of_In in Hin.
  specialize (Hkd _ Hin). simpl in *. unfold has_id in Hkd.
  destruct (get_id v); [reflexivity | discriminate].
Qed.

(** One call of [merge_wechat_config] on a registry that can be loaded and
    rewritten. *)
Lemma merge_wechat_config_run (new_sources : list pyval) (session : pyobj) (w : world) :
  registry_ok w = true ->
  call_ok (new_sources, session) = true ->
  exists w' existing fields,
    merge_wechat_config new_sources session w = (Ok tt, w')
    /\ content (wechat_json w')
       = FileJson (PDict [("session", fields); ("sources", PList (od_values existing))])
    /\ registry_ok w' = true
    /\ distinct_keys existing /\ keyed existing
    /\ forall k r, last (List.filter (has_id k) new_sources) = Some r ->
         dict_get existing k = Some r.
Proof.
  unfold registry_ok. intros Hreg Hcall.
  apply andb_true_iff in Hreg as [Hreg Hdoc]. apply andb_true_iff in Hreg as [Hdir Hwr].
  unfold merge_wechat_config, mbind, M_bind, say, modify, get_world, lift. simpl.
  assert (exists s, makedirs (wechat_json w) = Ok s /\ dir_exists s = true
                    /\ writable s = true
                    /\ match content s with
                       | FileJson v => negb (dir_exists s) || loadable v
                       | _ => true
                       end = true) as (s & Hmk & Hsd & Hsw & Hsdoc).
  { unfold makedirs. destruct (dir_exists (wechat_json w)) eqn:Hd.
    - exists (wechat_json w). rewrite Hd. auto.
    - simpl in Hdir. rewrite Hdir. eexists. split; [reflexivity|]. simpl. auto. }
  rewrite Hmk.
  set (w1 := set_wechat_json s (emit MakeConfigDir w)).
  destruct (read_config_data_loadable w1 Hsdoc) as (data & w2 & Hread & Hload & Hw2).
  rewrite Hread.
  destruct (merged_document_spec data new_sources session Hload Hcall)
    as (existing & fields & Hmerged & Hnd & Hkd & Hget).
  rewrite Hmerged. simpl. rewrite Hw2. unfold write_json. simpl.
  rewrite Hsd, Hsw. simpl.
  eexists _, existing, fields. split; [reflexivity|]. simpl.
  split; [reflexivity|].
  split; [apply keyed_loadable, Hkd|]. auto.
Qed.

Lemma merge_all_run (calls : list (list pyval * pyobj)) (w : world) :
  registry_ok w = true ->
  forallb call_ok calls = true ->
  calls <> [] ->
  exists w' existing fields,
    merge_all calls w = (Ok tt, w')
    /\ content (wechat_json w')
       = FileJson (PDict [("session", fields); ("sources", PList (od_values existing))])
    /\ distinct_keys existing /\ keyed existing.
Proof.
  revert w. induction calls as [|[new_sources session] rest IH]; intros w Hreg Hcalls Hne.
  - congruence.
  - simpl in Hcalls. apply andb_true_iff in Hcalls as [Hcall Hrest].
    destruct (merge_wechat_config_run new_sources session w Hreg Hcall)
      as (w1 & existing & fields & Hrun & Hc & Hreg1 & Hnd & Hkd & _).
    cbn [merge_all fst snd]. unfold mbind, M_bind. rewrite Hrun.
    destruct rest as [|call rest].
    + exists w1, existing, fields. auto.
    + apply (IH w1 Hreg1 Hrest). discriminate.
Qed.

Lemma persisted_sources_written (w : world) (fields : pyval) (srcs : list pyval) :
  content (wechat_json w) = FileJson (PDict [("session", fields); ("sources", PList srcs)]) ->
  persisted_sources w = Some srcs.
Proof. unfold persisted_sources. intros ->. reflexivity. Qed.

(** C4. A document that can be loaded gives a mapping in which no two
    records share an id, and the record kept for an id is the last one of
    the document with that id. After one or more calls of
    [merge_wechat_config], each with well-formed arguments, on a registry
    that can be loaded and rewritten, every call has returned and no two
    records of the sources list in the file share an id. *)
Theorem merges_keep_ids_distinct (data : pyval) (w : world)
    (calls : list (list pyval * pyobj)) :
  (loadable data = true ->
   exists items existing,
     (srcs ← py_get_default data "sources" (PList []); py_iter srcs) = Ok items
     /\ existing_of data = Ok existing
     /\ ids_distinct (od_values existing)
     /\ forall k, List.filter (has_id k) (od_values existing)
          = match last (List.filter (has_id k) items) with
            | Some r => [r]
            | None => []
            end)
  /\ (registry_ok w = true -> forallb call_ok calls = true -> calls <> [] ->
      exists w' srcs,
        merge_all calls w = (Ok tt, w')
        /\ persisted_sources w' = Some srcs
        /\ ids_distinct srcs).
Proof.
  split.
  - unfold loadable, existing_of. intros Hload.
    destruct (srcs ← py_get_default data "sources" (PList []); py_iter srcs)
      as [items|] eqn:Hitems; [|discriminate].
    exists items.
    destruct (assign_all_spec get_id items [] (fun _ _ H => H) Hload)
      as (existing & Hrun & Hnd & Hkd & Hget); [apply NoDup_nil_2 | constructor |].
    exists existing. split; [reflexivity|].
    split.
    { unfold mbind, result_bind in *.
      destruct (py_get_default data "sources" (PList [])); [|discriminate].
      rewrite Hitems. exact Hrun. }
    split; [apply registry_ids_distinct; assumption|].
    intros k. rewrite (filter_by_id _ _ Hnd Hkd), Hget.
    destruct (last _); reflexivity.
  - intros Hreg Hcalls Hne.
    destruct (merge_all_run calls w Hreg Hcalls Hne)
      as (w' & existing & fields & Hrun & Hc & Hnd & Hkd).
    exists w', (od_values existing). split; [exact Hrun|].
    split; [eapply persisted_sources_written, Hc|].
    apply registry_ids_distinct; assumption.
Qed.

(** C1. On a registry that can be loaded and rewritten, merging an entry and
    then an entry with the same id (the same entry again, or other fields
    under that id) returns both times and leaves in the file exactly one
    record with that id: the entry of the second merge, with all its
    fields. *)
Theorem merge_twice_last_wins (w : world) (e1 e2 : pyval) (k1 k2 : pykey)
    (s1 s2 : pyobj) :
  registry_ok w = true ->
  item_id e1 = Ok k1 -> item_id e2 = Ok k2 -> key_eqb k1 k2 = true ->
  is_ok (session_fields s1) = true -> is_ok (session_fields s2) = true ->
  exists w' srcs,
    merge_all [([e1], s1); ([e2], s2)] w = (Ok tt, w')
    /\ persisted_sources w' = Some srcs
    /\ List.filter (has_id k1) srcs = [e2]
    /\ List.filter (has_id k2) srcs = [e2].
Proof.
  intros Hreg He1 He2 Hk Hs1 Hs2.
  assert (call_ok ([e1], s1) = true) as Hc1.
  { unfold call_ok. simpl. rewrite He1, Hs1. reflexivity. }
  assert (call_ok ([e2], s2) = true) as Hc2.
  { unfold call_ok. simpl. rewrite He2, Hs2. reflexivity. }
  destruct (merge_wechat_config_run [e1] s1 w Hreg Hc1)
    as (w1 & ex1 & f1 & Hrun1 & _ & Hreg1 & _).
  destruct (merge_wechat_config_run [e2] s2 w1 Hreg1 Hc2)
    as (w2 & ex2 & f2 & Hrun2 & Hc & _ & Hnd & Hkd & Hget).
  exists w2, (od_values ex2).
  split.
  { cbn [merge_all fst snd]. unfold mbind, M_bind. rewrite Hrun1, Hrun2. reflexivity. }
  split; [eapply persisted_sources_written, Hc|].
  pose proof (item_id_get_id _ _ He2) as Hg2.
  assert (forall k, key_eqb k2 k = true ->
            List.filter (has_id k) (od_values ex2) = [e2]) as Hone.
  { intros k Hkk. rewrite (filter_by_id _ _ Hnd Hkd), (Hget k e2); [reflexivity|].
    simpl. rewrite (has_id_of_get_id _ _ _ Hg2), Hkk. reflexivity. }
  split; apply Hone; [rewrite key_eqb_sym; exact Hk | apply key_eqb_refl].
Qed.

(** A document with a duplicated id, then two merges that add a source and
    re-register two. *)
Lemma merges_keep_ids_distinct_witness :
  let data := PDict sample_duplicates in
  let w := sample_world [] (FileJson data) FileMissing AuthMissing in
  let calls := [([sample_source "789" "C" 3], OVal (PDict sample_session));
                ([sample_source "123" "A renamed" 10; sample_source "789" "C" 4],
                 OVal (PDict sample_session))] in
  loadable data = true
  /\ registry_ok w = true
  /\ forallb call_ok calls = true
  /\ (exists existing, existing_of data = Ok existing
        /\ ids_distinct (od_values existing))
  /\ (exists w' srcs, merge_all calls w = (Ok tt, w')
        /\ persisted_sources w' = Some srcs /\ ids_distinct srcs).
Proof.
  intros data w calls. do 3 (split; [reflexivity|]).
  destruct (merges_keep_ids_distinct data w calls) as [Hload Hmerge].
  split.
  - destruct (Hload eq_refl) as (items & existing & _ & Hrun & Hids & _).
    exists existing. split; assumption.
  - apply Hmerge; [reflexivity | reflexivity | discriminate].
Defined.

(** The source wechat_123 registered as A, then renamed with another count. *)
Lemma merge_twice_last_wins_witness :
  let w := sample_world [] (FileJson (PDict sample_document)) FileMissing AuthMissing in
  let e1 := sample_source "123" "A" 5 in
  let e2 := sample_source "123" "A-renamed" 10 in
  let s := OVal (PDict sample_session) in
  registry_ok w = true
  /\ item_id e1 = Ok (KStr "wechat_123")
  /\ item_id e2 = Ok (KStr "wechat_123")
  /\ exists w' srcs,
       merge_all [([e1], s); ([e2], s)] w = (Ok tt, w')
       /\ persisted_sources w' = Some srcs
       /\ List.filter (has_id (KStr "wechat_123")) srcs = [e2].
Proof.
  intros w e1 e2 s. do 3 (split; [reflexivity|]).
  destruct (merge_twice_last_wins w e1 e2 (KStr "wechat_123") (KStr "wechat_123") s s
              eq_refl eq_refl eq_refl eq_refl eq_refl eq_refl)
    as (w' & srcs & Hrun & Hsrcs & _ & Hone).
  exists w', srcs. auto.
Defined.

(** * Further properties of the code *)

(** ** Session resolution: the order of the sources *)

Lemma load_local_session_run (w : world) :
  load_local_session w
  = (Ok (stored_credentials (cookies_json w)),
     if file_exists (cookies_json w)
     then emit ReadCookies (emit StatCookies w)
     else emit StatCookies w).
Proof.
  unfold load_local_session, stored_credentials. simpl.
  destruct (file_exists (cookies_json w)); simpl; [|reflexivity].
  destruct (read_json (cookies_json w)); reflexivity.
Qed.

(** The world once the credential file has been consulted. *)
Lemma load_local_session_frame (w : world) :
  let w1 := snd (load_local_session w) in
  cookies_json w1 = cookies_json w /\ wechat_json w1 = wechat_json w
  /\ WECHAT_SOURCES w1 = WECHAT_SOURCES w /\ WECHAT_SESSION w1 = WECHAT_SESSION w
  /\ wechat_auth w1 = wechat_auth w
  /\ exists evs, trace w1 = (trace w ++ evs)%list /\ login_calls evs = 0%nat.
Proof.
  rewrite load_local_session_run. simpl.
  destruct (file_exists (cookies_json w)); simpl; repeat split;
    [exists [StatCookies; ReadCookies] | exists [StatCookies]];
    rewrite <- ?app_assoc; split; reflexivity.
Qed.

Lemma ensure_session_from_conf (w : world) :
  usable (ODict (WECHAT_SESSION w)) = true ->
  ensure_session_interactive w
  = (Ok (ODict (WECHAT_SESSION w)), emit InfoUsingConfigSession w).
Proof.
  intros H. rewrite <- session_from_conf_ok_usable in H.
  unfold ensure_session_interactive, mbind, M_bind, get_world. rewrite H. reflexivity.
Qed.

Lemma ensure_session_from_file (w : world) :
  usable (ODict (WECHAT_SESSION w)) = false ->
  truthy (stored_credentials (cookies_json w)) = true ->
  ensure_session_interactive w
  = (Ok (OVal (stored_credentials (cookies_json w))),
     emit InfoLoadedCookies (snd (load_local_session w))).
Proof.
  intros Hconf Hv. rewrite <- session_from_conf_ok_usable in Hconf.
  unfold ensure_session_interactive, mbind, M_bind, get_world.
  rewrite Hconf, load_local_session_run, Hv. reflexivity.
Qed.

Lemma ensure_session_by_login (w : world) :
  usable (ODict (WECHAT_SESSION w)) = false ->
  truthy (stored_credentials (cookies_json w)) = false ->
  ensure_session_interactive w
  = match interactive_login (snd (load_local_session w)) with
    | (Ok (Some data), w2) => (Ok (OVal data), w2)
    | (Ok None, w2) => (Raise RuntimeError, w2)
    | (Raise e, w2) => (Raise e, w2)
    end.
Proof.
  intros Hconf Hv. rewrite <- session_from_conf_ok_usable in Hconf.
  unfold ensure_session_interactive, mbind, M_bind, get_world.
  rewrite Hconf, load_local_session_run, Hv. simpl.
  destruct (interactive_login _) as [[[data|]|e] w2]; reflexivity.
Qed.

Lemma login_calls_app (a b : list event) :
  login_calls (a ++ b) = (login_calls a + login_calls b)%nat.
Proof. unfold login_calls. rewrite List.filter_app, length_app. reflexivity. Qed.

Lemma stored_credentials_makedirs (s s' : slot) :
  makedirs s = Ok s' -> stored_credentials s' = stored_credentials s.
Proof.
  unfold makedirs, stored_credentials, file_exists, read_json.
  destruct (dir_exists s) eqn:Hd.
  - intros [= <-]. rewrite Hd. reflexivity.
  - destruct (dir_creatable s); [|discriminate]. intros [= <-]. reflexivity.
Qed.

Lemma stored_credentials_written (s s' : slot) (data : pyval) :
  write_json s data = Ok s' -> stored_credentials s' = data.
Proof.
  unfold write_json, stored_credentials, file_exists, read_json.
  destruct (dir_exists s) eqn:Hd; [|discriminate].
  destruct (writable s); [|discriminate]. intros [= <-]. simpl. rewrite ?Hd. reflexivity.
Qed.

(** What the login of lines 69 to 81 does to the world. *)
Lemma interactive_login_frame (w : world) :
  let r := fst (interactive_login w) in
  let w2 := snd (interactive_login w) in
  wechat_json w2 = wechat_json w
  /\ WECHAT_SOURCES w2 = WECHAT_SOURCES w /\ WECHAT_SESSION w2 = WECHAT_SESSION w
  /\ wechat_auth w2 = wechat_auth w
  /\ (exists evs, trace w2 = (trace w ++ evs)%list /\ (login_calls evs <= 1)%nat)
  /\ (stored_credentials (cookies_json w2) = stored_credentials (cookies_json w)
      \/ exists data, wechat_auth w = AuthGetCookies (Ok data) /\ truthy data = true
           /\ r = Ok (Some data) /\ stored_credentials (cookies_json w2) = data)
  /\ (forall data, r = Ok (Some data) ->
        wechat_auth w = AuthGetCookies (Ok data) /\ truthy data = true).
Proof.
  unfold interactive_login.
  destruct (wechat_auth w) as [| |[data|e]] eqn:Ha; simpl;
    try destruct (makedirs (cookies_json w)) as [s|e1] eqn:Hmk; simpl;
    try destruct (truthy data) eqn:Ht; simpl;
    try destruct (write_json s data) as [s'|e2] eqn:Hwr; simpl.
  all: repeat match goal with |- _ /\ _ => split end.
  all: try reflexivity.
  all: try assumption.
  all: try (intros d Hd;
            first [discriminate Hd
                  | injection Hd as <-; split; [reflexivity | assumption]]).
  all: try (eexists; split;
            [first [symmetry; apply app_nil_r | rewrite <- !app_assoc; reflexivity]
            | unfold login_calls; simpl; lia]).
  all: try (left; first [reflexivity | eapply stored_credentials_makedirs, Hmk]).
  all: right; exists data; repeat split; try assumption;
    eapply stored_credentials_written, Hwr.
Qed.

(** What [ensure_session_interactive] does to the world, in each of its
    three branches. *)
Lemma ensure_session_frame_lemma (w : world) :
  let r := fst (ensure_session_interactive w) in
  let w' := snd (ensure_session_interactive w) in
  wechat_json w' = wechat_json w
  /\ WECHAT_SOURCES w' = WECHAT_SOURCES w /\ WECHAT_SESSION w' = WECHAT_SESSION w
  /\ wechat_auth w' = wechat_auth w
  /\ (exists evs, trace w' = (trace w ++ evs)%list /\ (login_calls evs <= 1)%nat)
  /\ (stored_credentials (cookies_json w') = stored_credentials (cookies_json w)
      \/ exists data, wechat_auth w = AuthGetCookies (Ok data) /\ truthy data = true
           /\ r = Ok (OVal data) /\ stored_credentials (cookies_json w') = data).
Proof.
  destruct (usable (ODict (WECHAT_SESSION w))) eqn:Hconf.
  { rewrite (ensure_session_from_conf w Hconf). simpl. repeat split.
    - exists [InfoUsingConfigSession]. split; [reflexivity | unfold login_calls; simpl; lia].
    - left. reflexivity. }
  destruct (load_local_session_frame w) as (Hc & Hj & Hs & Hd & Ha & evs & Ht & Hn).
  destruct (truthy (stored_credentials (cookies_json w))) eqn:Hv.
  { rewrite (ensure_session_from_file w Hconf Hv). simpl. repeat split; try assumption.
    - exists (evs ++ [InfoLoadedCookies])%list. rewrite Ht, <- app_assoc.
      split; [reflexivity|]. rewrite login_calls_app, Hn. unfold login_calls. simpl. lia.
    - left. rewrite Hc. reflexivity. }
  rewrite (ensure_session_by_login w Hconf Hv).
  destruct (interactive_login_frame (snd (load_local_session w)))
    as (Hj' & Hs' & Hd' & Ha' & (evs' & Ht' & Hn') & Hcred & Hdata).
  destruct (interactive_login (snd (load_local_session w))) as [[[data|]|e] w2] eqn:Hlogin;
    simpl in *.
  all: split; [congruence|]; split; [congruence|]; split; [congruence|];
       split; [congruence|]; split;
       [exists (evs ++ evs')%list; rewrite Ht', Ht, <- app_assoc; split; [reflexivity|];
        rewrite login_calls_app, Hn; simpl; exact Hn' |].
  - destruct Hcred as [Hcred|(d & Hd1 & Hd2 & Hd3 & Hd4)].
    + left. congruence.
    + right. exists d. injection Hd3 as <-. repeat split; congruence.
  - destruct Hcred as [Hcred|(d & _ & _ & Hd3 & _)]; [left; congruence | discriminate].
  - destruct Hcred as [Hcred|(d & _ & _ & Hd3 & _)]; [left; congruence | discriminate].
Qed.

(** X1. With no usable persisted session, a credential file that holds a
    truthy JSON value decides: that value is returned as it is, whatever its
    shape, nothing is written and [get_cookies] is not called. *)
Theorem credential_file_is_second (w : world) (v : pyval) :
  usable (ODict (WECHAT_SESSION w)) = false ->
  file_exists (cookies_json w) = true ->
  content (cookies_json w) = FileJson v ->
  truthy v = true ->
  ensure_session_interactive w
  = (Ok (OVal v), emit InfoLoadedCookies (emit ReadCookies (emit StatCookies w)))
  /\ cookies_json (snd (ensure_session_interactive w)) = cookies_json w.
Proof.
  intros Hconf Hex Hc Hv.
  assert (stored_credentials (cookies_json w) = v) as Hstored.
  { unfold stored_credentials, read_json. rewrite Hex, Hc.
    unfold file_exists in Hex. apply andb_true_iff in Hex as [-> _]. reflexivity. }
  rewrite <- Hstored in Hv.
  rewrite (ensure_session_from_file w Hconf Hv), load_local_session_run, Hex, Hstored.
  split; reflexivity.
Qed.

Lemma credential_file_is_second_witness :
  let w := sample_world [(KStr "user_agent", PStr "UA")] FileMissing
             (FileJson (PList [PInt 1])) (AuthGetCookies (Ok (PDict sample_session))) in
  fst (ensure_session_interactive w) = Ok (OVal (PList [PInt 1]))
  /\ trace (snd (ensure_session_interactive w))
     = [StatCookies; ReadCookies; InfoLoadedCookies].
Proof.
  intros w.
  destruct (credential_file_is_second w (PList [PInt 1]) eq_refl eq_refl eq_refl eq_refl)
    as (Hrun & _).
  rewrite Hrun. split; reflexivity.
Defined.

(** X2. When neither the persisted session nor the credential file gives
    anything and the login returns a truthy value, that value is returned
    and [get_cookies] has been called once. If the credential file can be
    written it now holds the value, and a second resolution returns it from
    the file without a new login; if it cannot be written, the failure is
    swallowed and the file holds what it held. *)
Theorem login_result_is_returned_and_saved (w : world) (data : pyval) :
  usable (ODict (WECHAT_SESSION w)) = false ->
  truthy (stored_credentials (cookies_json w)) = false ->
  wechat_auth w = AuthGetCookies (Ok data) ->
  truthy data = true ->
  dir_exists (cookies_json w) || dir_creatable (cookies_json w) = true ->
  let w' := snd (ensure_session_interactive w) in
  fst (ensure_session_interactive w) = Ok (OVal data)
  /\ login_calls (trace w') = S (login_calls (trace w))
  /\ (writable (cookies_json w) = true ->
      stored_credentials (cookies_json w') = data
      /\ fst (ensure_session_interactive w') = Ok (OVal data)
      /\ login_calls (trace (snd (ensure_session_interactive w'))) = login_calls (trace w'))
  /\ (writable (cookies_json w) = false ->
      stored_credentials (cookies_json w') = stored_credentials (cookies_json w)).
Proof.
  intros Hconf Hv Ha Ht Hdir w'. unfold w'.
  rewrite (ensure_session_by_login w Hconf Hv).
  destruct (load_local_session_frame w) as (Hc & Hj & Hs & Hd & Ha1 & evs & Htr & Hn).
  set (w1 := snd (load_local_session w)) in *.
  assert (exists s, makedirs (cookies_json w1) = Ok s /\ dir_exists s = true
                    /\ writable s = writable (cookies_json w)
                    /\ stored_credentials s = stored_credentials (cookies_json w))
    as (s & Hmk & Hsd & Hsw & Hsc).
  { rewrite Hc. unfold makedirs. destruct (dir_exists (cookies_json w)) eqn:Hde.
    - eexists. repeat split; assumption.
    - simpl in Hdir. rewrite Hdir. eexists. split; [reflexivity|].
      repeat split. unfold stored_credentials, file_exists. simpl. rewrite Hde. reflexivity. }
  unfold interactive_login. rewrite Ha1, Ha. simpl. rewrite Hmk. simpl. rewrite Ht.
  unfold write_json. simpl. rewrite Hsd, Hsw. simpl.
  destruct (writable (cookies_json w)) eqn:Hw; simpl.
  - split; [reflexivity|]. rewrite Htr.
    split; [rewrite <- !app_assoc, !login_calls_app, Hn; unfold login_calls; simpl; lia|].
    split; [|discriminate]. intros _.
    match goal with |- context [emit InfoSavedCookies ?x] =>
      set (w2 := emit InfoSavedCookies x) end.
    assert (stored_credentials (cookies_json w2) = data) as Hstored.
    { unfold w2, stored_credentials, file_exists, read_json. simpl. rewrite ?Hsd. reflexivity. }
    split; [exact Hstored|].
    assert (usable (ODict (WECHAT_SESSION w2)) = false) as Hconf2.
    { unfold w2. simpl. rewrite Hd. exact Hconf. }
    assert (truthy (stored_credentials (cookies_json w2)) = true) as Hv2 by congruence.
    rewrite (ensure_session_from_file w2 Hconf2 Hv2), Hstored. split; [reflexivity|].
    destruct (load_local_session_frame w2) as (_ & _ & _ & _ & _ & evs2 & Htr2 & Hn2).
    cbn [snd]. unfold emit at 1. cbn [trace].
    rewrite Htr2, !login_calls_app, Hn2. unfold w2. simpl.
    rewrite Htr, <- !app_assoc, !login_calls_app. unfold login_calls. simpl. lia.
  - split; [reflexivity|]. rewrite Htr.
    split; [rewrite <- !app_assoc, !login_calls_app, Hn; unfold login_calls; simpl; lia|].
    split; [discriminate|]. intros _. exact Hsc.
Qed.

Lemma login_result_is_returned_and_saved_witness :
  let w := sample_world [] FileMissing FileMalformed
             (AuthGetCookies (Ok (PDict sample_session))) in
  let w' := snd (ensure_session_interactive w) in
  fst (ensure_session_interactive w) = Ok (OVal (PDict sample_session))
  /\ login_calls (trace w') = 1%nat
  /\ fst (ensure_session_interactive w') = Ok (OVal (PDict sample_session))
  /\ login_calls (trace (snd (ensure_session_interactive w'))) = 1%nat.
Proof.
  intros w w'.
  destruct (login_result_is_returned_and_saved w (PDict sample_session)
              eq_refl eq_refl eq_refl eq_refl eq_refl) as (Hrun & Hcalls & Hsaved & _).
  destruct (Hsaved eq_refl) as (_ & Hagain & Hcalls').
  split; [exact Hrun|]. split; [exact Hcalls|]. split; [exact Hagain|].
  fold w' in Hcalls'. rewrite Hcalls'. exact Hcalls.
Defined.

(** X3. An exception of [get_cookies] is not caught: with nothing from the
    persisted session and the credential file, the resolution raises that
    exception, not the [RuntimeError] of line 82, and the credential file
    holds what it held. *)
Theorem login_exception_propagates (w : world) (e : exn) :
  usable (ODict (WECHAT_SESSION w)) = false ->
  truthy (stored_credentials (cookies_json w)) = false ->
  wechat_auth w = AuthGetCookies (Raise e) ->
  dir_exists (cookies_json w) || dir_creatable (cookies_json w) = true ->
  fst (ensure_session_interactive w) = Raise e
  /\ stored_credentials (cookies_json (snd (ensure_session_interactive w)))
     = stored_credentials (cookies_json w).
Proof.
  intros Hconf Hv Ha Hdir.
  rewrite (ensure_session_by_login w Hconf Hv).
  destruct (load_local_session_frame w) as (Hc & _ & _ & _ & Ha1 & _).
  set (w1 := snd (load_local_session w)) in *.
  unfold interactive_login. rewrite Ha1, Ha. simpl. rewrite Hc.
  unfold makedirs. destruct (dir_exists (cookies_json w)) eqn:Hde; simpl.
  - split; reflexivity.
  - simpl in Hdir. rewrite Hdir. simpl. split; [reflexivity|].
    unfold stored_credentials, file_exists. simpl. rewrite Hde. reflexivity.
Qed.

Lemma login_exception_propagates_witness :
  let w := sample_world [] FileMissing FileMissing
             (AuthGetCookies (Raise (CollaboratorError "browser closed"))) in
  fst (ensure_session_interactive w) = Raise (CollaboratorError "browser closed").
Proof.
  intros w.
  apply (login_exception_propagates w (CollaboratorError "browser closed")
           eq_refl eq_refl eq_refl eq_refl).
Defined.

(** X4. Session resolution never touches the registry file nor the module
    state: [wechat.json], [WECHAT_SOURCES], [WECHAT_SESSION] are as before,
    the trace only grows, [get_cookies] is called at most once, and the
    credential file changes only when the login has returned the session
    that is handed back, which is then what the file holds. *)
Theorem ensure_session_frame (w : world) :
  let r := fst (ensure_session_interactive w) in
  let w' := snd (ensure_session_interactive w) in
  wechat_json w' = wechat_json w
  /\ WECHAT_SOURCES w' = WECHAT_SOURCES w /\ WECHAT_SESSION w' = WECHAT_SESSION w
  /\ (exists evs, trace w' = (trace w ++ evs)%list /\ (login_calls evs <= 1)%nat)
  /\ (stored_credentials (cookies_json w') = stored_credentials (cookies_json w)
      \/ exists data, wechat_auth w = AuthGetCookies (Ok data) /\ truthy data = true
           /\ r = Ok (OVal data) /\ stored_credentials (cookies_json w') = data).
Proof.
  destruct (ensure_session_frame_lemma w) as (H1 & H2 & H3 & _ & H5 & H6).
  repeat split; assumption.
Qed.

(** X5. A session that [ensure_session_interactive] returns is never empty,
    and it is the first of the three sources that gives something: the
    persisted session when it is usable, else the content of the credential
    file when it is truthy, else what the login returned. *)
Theorem ensure_session_result (w : world) (o : pyobj) :
  fst (ensure_session_interactive w) = Ok o ->
  truthy_obj o = true
  /\ ((usable (ODict (WECHAT_SESSION w)) = true /\ o = ODict (WECHAT_SESSION w))
      \/ (usable (ODict (WECHAT_SESSION w)) = false
          /\ truthy (stored_credentials (cookies_json w)) = true
          /\ o = OVal (stored_credentials (cookies_json w)))
      \/ (usable (ODict (WECHAT_SESSION w)) = false
          /\ truthy (stored_credentials (cookies_json w)) = false
          /\ exists data, wechat_auth w = AuthGetCookies (Ok data)
               /\ truthy data = true /\ o = OVal data)).
Proof.
  destruct (usable (ODict (WECHAT_SESSION w))) eqn:Hconf.
  { rewrite (ensure_session_from_conf w Hconf). simpl. intros [= <-].
    split; [|left; auto]. rewrite <- session_from_conf_ok_usable in Hconf.
    unfold session_from_conf_ok in Hconf. apply andb_true_iff in Hconf as [H _]. exact H. }
  destruct (truthy (stored_credentials (cookies_json w))) eqn:Hv.
  { rewrite (ensure_session_from_file w Hconf Hv). simpl. intros [= <-].
    split; [exact Hv|]. right. left. auto. }
  rewrite (ensure_session_by_login w Hconf Hv).
  destruct (load_local_session_frame w) as (_ & _ & _ & _ & Ha & _).
  destruct (interactive_login_frame (snd (load_local_session w)))
    as (_ & _ & _ & _ & _ & _ & Hdata).
  destruct (interactive_login (snd (load_local_session w))) as [[[data|]|e] w2];
    simpl in *; try discriminate.
  intros [= <-]. destruct (Hdata data eq_refl) as [Hauth Ht].
  split; [exact Ht|]. right. right. repeat split. exists data. rewrite <- Ha. auto.
Qed.

Lemma ensure_session_result_witness :
  let w := sample_world [(KStr "token", PStr "")] FileMissing
             (FileJson (PDict [("note", PStr "no token here")])) AuthMissing in
  fst (ensure_session_interactive w) = Ok (OVal (PDict [("note", PStr "no token here")]))
  /\ truthy_obj (OVal (PDict [("note", PStr "no token here")])) = true
  /\ usable (OVal (PDict [("note", PStr "no token here")])) = false.
Proof.
  intros w. split; [reflexivity|].
  destruct (ensure_session_result w (OVal (PDict [("note", PStr "no token here")])) eq_refl)
    as [Ht _].
  split; [exact Ht | reflexivity].
Defined.

(** ** Loading the configuration: what is kept *)

Lemma dict_set_keeps (d : pydict) (k k' : pykey) (v : pyval) :
  is_Some (dict_get d k') -> is_Some (dict_get (dict_set d k v) k').
Proof. intros H. rewrite dict_get_set. destruct (key_eqb k k'); eauto. Qed.

Lemma update_from_dict_keeps (src : list (string * pyval)) (d : pydict) (k : pykey) :
  is_Some (dict_get d k) -> is_Some (dict_get (update_from_dict d src) k).
Proof.
  unfold update_from_dict. revert d.
  induction src as [|[k0 v0] src IH]; intros d H; simpl; [exact H|].
  apply IH, dict_set_keeps, H.
Qed.

Lemma update_pairs_keeps (items : list pyval) (d : pydict) (k : pykey) :
  is_Some (dict_get d k) -> is_Some (dict_get (fst (update_pairs d items)) k).
Proof.
  revert d. induction items as [|item rest IH]; intros d H; simpl; [exact H|].
  destruct (update_pair d item) as [d'|e] eqn:Hp; [|exact H].
  apply IH. unfold update_pair in Hp.
  destruct (py_iter item) as [[|a [|b [|c l]]]|]; try discriminate.
  destruct (hashable a) as [ka|]; [|discriminate].
  injection Hp as <-. apply dict_set_keeps, H.
Qed.

(** [update] never removes a key. *)
Lemma dict_update_keeps (d : pydict) (v : pyval) (k : pykey) :
  is_Some (dict_get d k) -> is_Some (dict_get (fst (dict_update d v)) k).
Proof.
  intros H. unfold dict_update.
  destruct v; simpl; try exact H; try (apply update_pairs_keeps, H).
  apply update_from_dict_keeps, H.
Qed.

Lemma list_extend_app (l : list pyval) (v : pyval) (l' : list pyval) :
  list_extend l v = Ok l' -> exists added, l' = (l ++ added)%list.
Proof.
  unfold list_extend, mbind, result_bind.
  destruct (py_iter v) as [items|]; [|discriminate]. intros [= <-]. eauto.
Qed.

Lemma load_body_frame (w : world) :
  let w' := snd (load_body w) in
  wechat_json w' = wechat_json w /\ cookies_json w' = cookies_json w
  /\ wechat_auth w' = wechat_auth w
  /\ (exists added, WECHAT_SOURCES w' = (WECHAT_SOURCES w ++ added)%list)
  /\ (forall k, is_Some (dict_get (WECHAT_SESSION w) k) ->
        is_Some (dict_get (WECHAT_SESSION w') k)).
Proof.
  unfold load_body, mbind, M_bind, lift, extend_sources, update_session. simpl.
  repeat match goal with
  | |- context [read_json ?x] => destruct (read_json x); simpl
  | |- context [py_contains ?d ?k] => destruct (py_contains d k) as [[|]|]; simpl
  | |- context [py_getitem ?d ?k] => destruct (py_getitem d k); simpl
  | |- context [list_extend ?a ?b] =>
      let H := fresh "Hext" in
      destruct (list_extend a b) eqn:H; [apply list_extend_app in H as [? ->]|]; simpl
  | |- context [dict_update ?a ?b] =>
      let H := fresh "Hkeep" in
      pose proof (dict_update_keeps a b) as H;
      destruct (dict_update a b) as [? [|]]; simpl in *
  end.
  all: repeat split; eauto.
  all: exists []; rewrite app_nil_r; reflexivity.
Qed.

Lemma load_configurations_only_adds_lemma (w : world) :
  let w' := snd (load_configurations w) in
  wechat_json w' = wechat_json w /\ cookies_json w' = cookies_json w
  /\ (exists added, WECHAT_SOURCES w' = (WECHAT_SOURCES w ++ added)%list)
  /\ (forall k, is_Some (dict_get (WECHAT_SESSION w) k) ->
        is_Some (dict_get (WECHAT_SESSION w') k)).
Proof.
  unfold load_configurations.
  destruct (negb (dir_exists (wechat_json w))); simpl.
  { repeat split; [exists []; rewrite app_nil_r; reflexivity | auto]. }
  destruct (negb (file_exists (wechat_json w))); simpl.
  { repeat split; [exists []; rewrite app_nil_r; reflexivity | auto]. }
  unfold try_except.
  destruct (load_body_frame w) as (Hj & Hc & _ & Hs & Hd).
  destruct (load_body w) as [[[]|e] w1]; simpl in *; repeat split; assumption.
Qed.

(** X18. [load_configurations] only adds: whatever the file holds, it
    writes to no file, the entries [WECHAT_SOURCES] had are still there, in
    front, and every key [WECHAT_SESSION] had is still a key. *)
Theorem load_configurations_only_adds (w : world) :
  let w' := snd (load_configurations w) in
  wechat_json w' = wechat_json w /\ cookies_json w' = cookies_json w
  /\ (exists added, WECHAT_SOURCES w' = (WECHAT_SOURCES w ++ added)%list)
  /\ (forall k, is_Some (dict_get (WECHAT_SESSION w) k) ->
        is_Some (dict_get (WECHAT_SESSION w') k)).
Proof. apply load_configurations_only_adds_lemma. Qed.

(** X19. A registry file that is valid JSON but not an object loads
    nothing: the call returns and [WECHAT_SOURCES] and [WECHAT_SESSION] are
    as they were. *)
Theorem load_of_a_document_that_is_not_an_object (w : world) (v : pyval) :
  dir_exists (wechat_json w) = true ->
  content (wechat_json w) = FileJson v ->
  is_dict v = false ->
  fst (load_configurations w) = Ok tt
  /\ WECHAT_SOURCES (snd (load_configurations w)) = WECHAT_SOURCES w
  /\ WECHAT_SESSION (snd (load_configurations w)) = WECHAT_SESSION w.
Proof.
  intros Hdir Hc Hv. split; [apply load_configurations_total|].
  unfold load_configurations, file_exists. rewrite Hdir, Hc. simpl.
  unfold try_except, load_body, mbind, M_bind, read_json, lift. simpl.
  rewrite Hdir, Hc. simpl.
  destruct v as [| | |s|l|d]; try discriminate; simpl; try (split; reflexivity).
  - destruct (is_substring "sources" s); simpl; [split; reflexivity|].
    destruct (is_substring "session" s); simpl; split; reflexivity.
  - destruct (existsb _ l); simpl; [split; reflexivity|].
    destruct (existsb _ l); simpl; split; reflexivity.
Qed.

Lemma load_of_a_document_that_is_not_an_object_witness :
  let w := sample_world [(KStr "token", PStr "tok")]
             (FileJson (PList [PStr "sources"; PStr "session"])) FileMissing AuthMissing in
  fst (load_configurations w) = Ok tt
  /\ WECHAT_SOURCES (snd (load_configurations w)) = []
  /\ WECHAT_SESSION (snd (load_configurations w)) = [(KStr "token", PStr "tok")].
Proof.
  intros w.
  apply (load_of_a_document_that_is_not_an_object w
           (PList [PStr "sources"; PStr "session"]) eq_refl eq_refl eq_refl).
Defined.

(** X20. The load is not atomic: when the file holds a list of sources and
    a session that [update] rejects, the call still returns, the sources
    have been appended, the session holds the pairs inserted before the
    bad one, and the failure is printed as a warning. *)
Theorem load_with_a_bad_session (w : world) (d : list (string * pyval))
    (l : list pyval) (sess : pyval) (e : exn) :
  dir_exists (wechat_json w) = true ->
  content (wechat_json w) = FileJson (PDict d) ->
  json_get d "sources" = Some (PList l) ->
  json_get d "session" = Some sess ->
  snd (dict_update (WECHAT_SESSION w) sess) = Some e ->
  let w' := snd (load_configurations w) in
  fst (load_configurations w) = Ok tt
  /\ WECHAT_SOURCES w' = (WECHAT_SOURCES w ++ l)%list
  /\ WECHAT_SESSION w' = fst (dict_update (WECHAT_SESSION w) sess)
  /\ trace w' = (trace w ++ [ReadWechatJson; WarnLoadFailed e])%list.
Proof.
  intros Hdir Hc Hsrc Hsess Hup.
  unfold load_configurations, file_exists. rewrite Hdir, Hc. simpl.
  unfold try_except, load_body, mbind, M_bind, read_json, lift. simpl.
  rewrite Hdir, Hc. simpl.
  rewrite (od_mem_get _ _ _ Hsrc), Hsrc. unfold extend_sources at 1. simpl.
  rewrite (od_mem_get _ _ _ Hsess), Hsess. unfold update_session. simpl.
  destruct (dict_update (WECHAT_SESSION w) sess) as [d' err]. simpl in Hup. subst err.
  simpl. rewrite <- app_assoc. repeat split.
Qed.

Lemma load_with_a_bad_session_witness :
  let doc := [("sources", PList [sample_source "123" "A" 5]);
              ("session", PList [PList [PStr "token"; PStr "t"]; PInt 3])] in
  let w := sample_world [] (FileJson (PDict doc)) FileMissing AuthMissing in
  fst (load_configurations w) = Ok tt
  /\ WECHAT_SOURCES (snd (load_configurations w)) = [sample_source "123" "A" 5]
  /\ WECHAT_SESSION (snd (load_configurations w)) = [(KStr "token", PStr "t")]
  /\ trace (snd (load_configurations w)) = [ReadWechatJson; WarnLoadFailed TypeError].
Proof.
  intros doc w.
  apply (load_with_a_bad_session w doc [sample_source "123" "A" 5]
           (PList [PList [PStr "token"; PStr "t"]; PInt 3]) TypeError
           eq_refl eq_refl eq_refl eq_refl eq_refl).
Defined.

(** ** The merge: what is kept, in which order *)

Lemma dict_set_absent (d : pydict) (k : pykey) (v : pyval) :
  dict_get d k = None -> dict_set d k v = (d ++ [(k, v)])%list.
Proof.
  unfold dict_get, dict_set. induction d as [|[k0 v0] d IH]; simpl; [reflexivity|].
  destruct (key_eqb k0 k); [discriminate|]. intros H. rewrite (IH H). reflexivity.
Qed.

Lemma dict_set_present_keys (d : pydict) (k : pykey) (v v0 : pyval) :
  dict_get d k = Some v0 -> od_keys (dict_set d k v) = od_keys d.
Proof.
  unfold dict_get, dict_set, od_keys. induction d as [|[k1 v1] d IH]; simpl; [discriminate|].
  destruct (key_eqb k1 k); simpl; [reflexivity|]. intros H. rewrite (IH H). reflexivity.
Qed.

Lemma dict_get_lookup (d : pydict) (k : pykey) (v : pyval) :
  dict_get d k = Some v ->
  exists i k0, d !! i = Some (k0, v) /\ key_eqb k0 k = true.
Proof.
  unfold dict_get. induction d as [|[k0 v0] d IH]; simpl; [discriminate|].
  destruct (key_eqb k0 k) eqn:Hk.
  - intros [= ->]. exists 0%nat, k0. auto.
  - intros H. destruct (IH H) as (i & k1 & Hi & Hk1). exists (S i), k1. auto.
Qed.

Lemma dict_get_absent (d : pydict) (k : pykey) :
  ~ In (key_norm k) (map key_norm (od_keys d)) -> dict_get d k = None.
Proof.
  unfold dict_get, od_keys. induction d as [|[k0 v0] d IH]; simpl; [reflexivity|].
  intros Hin. destruct (key_eqb k0 k) eqn:Hk.
  - apply key_eqb_norm in Hk. exfalso. auto.
  - apply IH. auto.
Qed.

(** Two dicts with the same keys in the same order and the same lookups are
    the same dict. *)
Lemma dict_ext (d1 d2 : pydict) :
  distinct_keys d1 -> od_keys d1 = od_keys d2 ->
  (forall k, dict_get d1 k = dict_get d2 k) -> d1 = d2.
Proof.
  unfold distinct_keys. revert d2.
  induction d1 as [|[k v1] d1 IH]; intros [|[k2 v2] d2] Hnd Hkeys Hget;
    try discriminate; [reflexivity|].
  injection Hkeys as <- Hkeys.
  change (od_keys ((k, v1) :: d1)) with (k :: od_keys d1) in Hnd.
  change (map key_norm (k :: od_keys d1)) with (key_norm k :: map key_norm (od_keys d1)) in Hnd.
  apply NoDup_cons in Hnd as [Hk Hnd]. rewrite list_elem_of_In in Hk.
  pose proof (Hget k) as Hhead. unfold dict_get in Hhead. simpl in Hhead.
  rewrite key_eqb_refl in Hhead. injection Hhead as <-.
  f_equal. apply IH; [exact Hnd | exact Hkeys |].
  intros k'. specialize (Hget k'). unfold dict_get in Hget. simpl in Hget.
  destruct (key_eqb k k') eqn:Hkk'; [|exact Hget].
  apply key_eqb_norm in Hkk'.
  rewrite !dict_get_absent; [reflexivity | rewrite <- Hkeys |]; rewrite <- Hkk'; exact Hk.
Qed.

(** In a dict of records, the lookup of an id is decided by the values. *)
Lemma dict_get_by_values (d : pydict) (k : pykey) :
  distinct_keys d -> keyed d ->
  dict_get d k = head (List.filter (has_id k) (od_values d)).
Proof.
  intros Hnd Hkd. rewrite (filter_by_id d k Hnd Hkd).
  destruct (dict_get d k); reflexivity.
Qed.

(** Records whose ids are new and pairwise different are appended in order. *)
Lemma assign_all_fresh (key : pyval -> result pykey) (items : list pyval) (acc : pydict) :
  (forall s k, key s = Ok k -> get_id s = Ok k) ->
  forallb (fun r => is_ok (key r)) items = true ->
  keyed acc ->
  ids_distinct (od_values acc ++ items) ->
  exists d, assign_all key acc items = Ok d
    /\ od_values d = (od_values acc ++ items)%list.
Proof.
  intros Hkey. revert acc.
  induction items as [|s rest IH]; intros acc Hok Hkd Hids; simpl.
  - exists acc. rewrite app_nil_r. auto.
  - simpl in Hok. apply andb_true_iff in Hok as [Hs Hrest].
    destruct (key s) as [ks|] eqn:Hks; [|discriminate]. simpl.
    pose proof (Hkey _ _ Hks) as Hgs.
    assert (dict_get acc ks = None) as Hfresh.
    { destruct (dict_get acc ks) as [v0|] eqn:Hget; [|reflexivity]. exfalso.
      destruct (dict_get_lookup _ _ _ Hget) as (i & k0 & Hi & Hk0).
      assert (od_values acc !! i = Some v0) as Hvi.
      { unfold od_values. rewrite list_lookup_fmap, Hi. reflexivity. }
      destruct (keyed_lookup acc i v0 Hkd Hvi) as (k1 & k1' & Hi' & Hg & Hn).
      assert (k1 = k0) by congruence. subst k1.
      assert (i = length (od_values acc)) as Heq.
      { apply (Hids i (length (od_values acc)) v0 s).
        - rewrite lookup_app_l; [exact Hvi | eapply lookup_lt_Some, Hvi].
        - rewrite lookup_app_r by lia. rewrite Nat.sub_diag. reflexivity.
        - exists k1', ks. split; [exact Hg|]. split; [exact Hgs|].
          apply key_eqb_norm. apply key_eqb_norm in Hk0. congruence. }
      apply lookup_lt_Some in Hvi. lia. }
    rewrite (dict_set_absent _ _ _ Hfresh).
    destruct (IH (acc ++ [(ks, s)])%list Hrest) as (d & Hrun & Hvals).
    + unfold keyed in *. apply Forall_app. split; [exact Hkd|].
      repeat constructor. simpl. rewrite (has_id_of_get_id _ _ _ Hgs). apply key_eqb_refl.
    + unfold od_values in *. rewrite map_app, <- app_assoc. exact Hids.
    + exists d. split; [exact Hrun|]. rewrite Hvals.
      unfold od_values. rewrite map_app, <- app_assoc. reflexivity.
Qed.

(** Records whose ids are all in the dict already leave its keys as they are. *)
Lemma assign_all_present (key : pyval -> result pykey) (items : list pyval) (acc d : pydict) :
  (forall s, In s items -> forall k, key s = Ok k -> is_Some (dict_get acc k)) ->
  assign_all key acc items = Ok d ->
  od_keys d = od_keys acc.
Proof.
  revert acc. induction items as [|s rest IH]; intros acc Hin Hrun; simpl in Hrun.
  - injection Hrun as <-. reflexivity.
  - destruct (key s) as [ks|] eqn:Hks; [|discriminate]. simpl in Hrun.
    destruct (Hin s (or_introl eq_refl) ks Hks) as [v0 Hv0].
    assert (forall s', In s' rest -> forall k, key s' = Ok k ->
              is_Some (dict_get (dict_set acc ks s) k)) as Hin'.
    { intros s' Hs' k Hk. rewrite dict_get_set.
      destruct (key_eqb ks k); [eauto|]. apply (Hin s'); [right; exact Hs' | exact Hk]. }
    rewrite (IH _ Hin' Hrun). eapply dict_set_present_keys, Hv0.
Qed.

Lemma last_filter_In {A} (f : A -> bool) (l : list A) (x : A) :
  In x l -> f x = true -> is_Some (last (List.filter f l)).
Proof.
  intros Hin Hf. destruct (last (List.filter f l)) eqn:Hl; [eauto|].
  apply last_None in Hl.
  assert (In x (List.filter f l)) as H by (apply filter_In; auto).
  rewrite Hl in H. destruct H.
Qed.

(** The values of a dict of records load back, by line 97, to the same
    values in the same order. *)
Lemma values_load_back (d : pydict) :
  distinct_keys d -> keyed d ->
  exists d', assign_all get_id [] (od_values d) = Ok d'
    /\ od_values d' = od_values d /\ distinct_keys d' /\ keyed d'.
Proof.
  intros Hnd Hkd.
  assert (forallb (fun r => is_ok (get_id r)) (od_values d) = true) as Hok.
  { apply forallb_forall. intros r Hr. unfold od_values in Hr.
    apply in_map_iff in Hr as ([k v] & <- & Hin).
    unfold keyed in Hkd. rewrite Forall_forall in Hkd. rewrite <- list_elem_of_In in Hin.
    specialize (Hkd _ Hin). simpl in *. unfold has_id in Hkd.
    destruct (get_id v); [reflexivity | discriminate]. }
  destruct (assign_all_fresh get_id (od_values d) [] (fun _ _ H => H) Hok)
    as (d' & Hrun & Hvals); [constructor | apply registry_ids_distinct; assumption |].
  destruct (assign_all_spec get_id (od_values d) [] (fun _ _ H => H) Hok)
    as (d'' & Hrun' & Hnd' & Hkd' & _); [apply NoDup_nil_2 | constructor |].
  assert (d'' = d') by congruence. subst d''.
  exists d'. auto.
Qed.

Lemma stored_items_makedirs (s s' : slot) :
  makedirs s = Ok s' -> stored_items s' = stored_items s.
Proof.
  unfold makedirs, stored_items, file_exists, read_json.
  destruct (dir_exists s) eqn:Hd.
  - intros [= <-]. rewrite Hd. reflexivity.
  - destruct (dir_creatable s); [|discriminate]. intros [= <-]. reflexivity.
Qed.

Lemma read_config_data_items (w : world) :
  match content (wechat_json w) with
  | FileJson v => negb (dir_exists (wechat_json w)) || loadable v
  | _ => true
  end = true ->
  exists data w', read_config_data w = (Ok data, w')
    /\ (srcs ← py_get_default data "sources" (PList []); py_iter srcs)
       = Ok (stored_items (wechat_json w))
    /\ wechat_json w' = wechat_json w /\ cookies_json w' = cookies_json w
    /\ WECHAT_SOURCES w' = WECHAT_SOURCES w /\ WECHAT_SESSION w' = WECHAT_SESSION w
    /\ wechat_auth w' = wechat_auth w.
Proof.
  intros H. unfold read_config_data, stored_items, file_exists, read_json. simpl.
  destruct (dir_exists (wechat_json w)); simpl in *.
  - destruct (content (wechat_json w)) as [| | |v]; simpl.
    1-3: eexists _, _; split; [reflexivity|]; repeat split.
    unfold loadable in H.
    destruct (srcs ← py_get_default v "sources" (PList []); py_iter srcs) as [items|] eqn:Hi;
      [|discriminate].
    eexists _, _. split; [reflexivity|]. repeat split. exact Hi.
  - eexists _, _. split; [reflexivity|]. repeat split.
Qed.

Lemma loadable_items (data : pyval) (items : list pyval) :
  (srcs ← py_get_default data "sources" (PList []); py_iter srcs) = Ok items ->
  loadable data = forallb (fun r => is_ok (get_id r)) items.
Proof. unfold loadable. intros ->. reflexivity. Qed.

Lemma existing_of_items (data : pyval) (items : list pyval) :
  (srcs ← py_get_default data "sources" (PList []); py_iter srcs) = Ok items ->
  existing_of data = assign_all get_id [] items.
Proof.
  unfold existing_of, mbind, result_bind.
  destruct (py_get_default data "sources" (PList [])); [|discriminate].
  intros ->. reflexivity.
Qed.

(** One call of [merge_wechat_config] on a registry that can be loaded and
    rewritten, with the dicts it goes through. *)
Lemma merge_wechat_config_full (new_sources : list pyval) (session : pyobj) (w : world) :
  registry_ok w = true ->
  call_ok (new_sources, session) = true ->
  exists w' loaded existing fields,
    merge_wechat_config new_sources session w = (Ok tt, w')
    /\ assign_all get_id [] (stored_items (wechat_json w)) = Ok loaded
    /\ assign_all item_id loaded new_sources = Ok existing
    /\ session_fields session = Ok fields
    /\ wechat_json w'
       = {| dir_exists := true; dir_creatable := dir_creatable (wechat_json w);
            content := FileJson (PDict [("session", fields);
                                        ("sources", PList (od_values existing))]);
            writable := true |}
    /\ cookies_json w' = cookies_json w
    /\ WECHAT_SOURCES w' = WECHAT_SOURCES w /\ WECHAT_SESSION w' = WECHAT_SESSION w
    /\ wechat_auth w' = wechat_auth w.
Proof.
  unfold registry_ok, call_ok. simpl fst. simpl snd. intros Hreg Hcall.
  apply andb_true_iff in Hreg as [Hreg Hdoc]. apply andb_true_iff in Hreg as [Hdir Hwr].
  apply andb_true_iff in Hcall as [Hnew Hsess].
  unfold merge_wechat_config, mbind, M_bind, say, modify, get_world, lift. simpl.
  assert (exists s, makedirs (wechat_json w) = Ok s /\ dir_exists s = true
                    /\ writable s = true /\ dir_creatable s = dir_creatable (wechat_json w)
                    /\ match content s with
                       | FileJson v => negb (dir_exists s) || loadable v
                       | _ => true
                       end = true) as (s & Hmk & Hsd & Hsw & Hsc & Hsdoc).
  { unfold makedirs. destruct (dir_exists (wechat_json w)) eqn:Hd.
    - exists (wechat_json w). rewrite Hd. auto.
    - simpl in Hdir. rewrite Hdir. eexists. split; [reflexivity|]. simpl. auto. }
  rewrite Hmk.
  set (w1 := set_wechat_json s (emit MakeConfigDir w)).
  destruct (read_config_data_items w1 Hsdoc)
    as (data & w2 & Hread & Hitems & Hw2 & Hc2 & Hs2 & Hd2 & Ha2).
  rewrite Hread. unfold w1 in Hitems. simpl in Hitems.
  rewrite (stored_items_makedirs _ _ Hmk) in Hitems.
  pose proof (Hsdoc) as Hload.
  assert (loadable data = true) as Hloadable.
  { destruct (read_config_data_loadable w1 Hsdoc) as (data' & w2' & Hread' & Hl & _).
    congruence. }
  rewrite (loadable_items _ _ Hitems) in Hloadable.
  destruct (assign_all_spec get_id _ [] (fun _ _ H => H) Hloadable)
    as (loaded & Hrun & Hnd & Hkd & _); [apply NoDup_nil_2 | constructor |].
  destruct (assign_all_spec item_id new_sources loaded item_id_get_id Hnew Hnd Hkd)
    as (existing & Hrun' & _).
  destruct (session_fields session) as [fields|] eqn:Hf; [|discriminate].
  unfold merged_document. rewrite (existing_of_items _ _ Hitems), Hrun. simpl.
  rewrite Hrun'. simpl. rewrite Hf. simpl. rewrite Hw2. unfold write_json. simpl.
  rewrite Hsd, Hsw. simpl.
  eexists _, loaded, existing, fields. split; [reflexivity|]. simpl.
  rewrite Hsc. repeat split; assumption.
Qed.

Lemma persisted_sources_slot (w : world) (c : bool) (fields : pyval) (srcs : list pyval) :
  wechat_json w
  = {| dir_exists := true; dir_creatable := c;
       content := FileJson (PDict [("session", fields); ("sources", PList srcs)]);
       writable := true |} ->
  persisted_sources w = Some srcs /\ stored_items (wechat_json w) = srcs.
Proof.
  intros H. unfold persisted_sources, stored_items. rewrite H. split; reflexivity.
Qed.

Lemma last_filter_app {A} (f : A -> bool) (a b : list A) :
  last (List.filter f (a ++ b))
  = match last (List.filter f b) with
    | Some r => Some r
    | None => last (List.filter f a)
    end.
Proof. rewrite List.filter_app. apply last_app. Qed.

(** X6. After a merge the file holds, for every id, the last record with
    that id among the records it held followed by the new sources, and no
    other record with that id; so a stored source that is not registered
    again is kept as it was. *)
Theorem merge_keeps_last_record_of_each_id (w : world) (new_sources : list pyval)
    (session : pyobj) :
  registry_ok w = true ->
  call_ok (new_sources, session) = true ->
  exists w' srcs,
    merge_wechat_config new_sources session w = (Ok tt, w')
    /\ persisted_sources w' = Some srcs
    /\ forall k,
         List.filter (has_id k) srcs
         = match last (List.filter (has_id k)
                         (stored_items (wechat_json w) ++ new_sources)) with
           | Some r => [r]
           | None => []
           end.
Proof.
  intros Hreg Hcall.
  destruct (merge_wechat_config_full new_sources session w Hreg Hcall)
    as (w' & loaded & existing & fields & Hrun & Hl & He & _ & Hslot & _).
  destruct (persisted_sources_slot _ _ _ _ Hslot) as [Hp _].
  exists w', (od_values existing). split; [exact Hrun|]. split; [exact Hp|].
  unfold call_ok in Hcall. apply andb_true_iff in Hcall as [Hnew _]. simpl in Hnew.
  assert (forallb (fun r => is_ok (get_id r)) (stored_items (wechat_json w)) = true) as Hok.
  { clear -Hl. revert Hl. generalize (@nil (pykey * pyval)).
    induction (stored_items (wechat_json w)) as [|s rest IH]; intros acc H;
      [reflexivity|].
    simpl in *. destruct (get_id s); [|discriminate]. simpl in *. eapply IH, H. }
  destruct (assign_all_spec get_id _ [] (fun _ _ H => H) Hok)
    as (loaded' & Hl' & Hnd & Hkd & Hget); [apply NoDup_nil_2 | constructor |].
  assert (loaded' = loaded) by congruence. subst loaded'.
  destruct (assign_all_spec item_id new_sources loaded item_id_get_id Hnew Hnd Hkd)
    as (existing' & He' & Hnd' & Hkd' & Hget').
  assert (existing' = existing) by congruence. subst existing'.
  intros k. rewrite (filter_by_id _ _ Hnd' Hkd'), Hget', Hget, last_filter_app.
  destruct (last (List.filter (has_id k) new_sources)); [reflexivity|].
  destruct (last _); reflexivity.
Qed.

Lemma merge_keeps_last_record_of_each_id_witness :
  let w := sample_world [] (FileJson (PDict sample_duplicates)) FileMissing AuthMissing in
  exists w' srcs,
    merge_wechat_config [sample_source "789" "C" 3] (OVal (PDict sample_session)) w
    = (Ok tt, w')
    /\ persisted_sources w' = Some srcs
    /\ List.filter (has_id (KStr "wechat_456")) srcs = [sample_source "456" "B" 10]
    /\ List.filter (has_id (KStr "wechat_123")) srcs = [sample_source "123" "A again" 7].
Proof.
  intros w.
  destruct (merge_keeps_last_record_of_each_id w [sample_source "789" "C" 3]
              (OVal (PDict sample_session)) eq_refl eq_refl)
    as (w' & srcs & Hrun & Hp & Hid).
  exists w', srcs. split; [exact Hrun|]. split; [exact Hp|].
  split; rewrite Hid; reflexivity.
Defined.

Lemma ids_distinct_app_l (a b : list pyval) : ids_distinct (a ++ b) -> ids_distinct a.
Proof.
  intros H i j r1 r2 Hi Hj Hsame. apply (H i j r1 r2); [| |exact Hsame].
  - rewrite lookup_app_l; [exact Hi | eapply lookup_lt_Some, Hi].
  - rewrite lookup_app_l; [exact Hj | eapply lookup_lt_Some, Hj].
Qed.

(** X7. When the stored records and the new sources all carry different
    ids, the merge rewrites the stored records unchanged, in their order,
    and appends the new sources in the order given. *)
Theorem merge_appends_new_ids (w : world) (new_sources : list pyval) (session : pyobj) :
  registry_ok w = true ->
  call_ok (new_sources, session) = true ->
  ids_distinct (stored_items (wechat_json w) ++ new_sources) ->
  exists w',
    merge_wechat_config new_sources session w = (Ok tt, w')
    /\ persisted_sources w'
       = Some (stored_items (wechat_json w) ++ new_sources)%list.
Proof.
  intros Hreg Hcall Hids.
  destruct (merge_wechat_config_full new_sources session w Hreg Hcall)
    as (w' & loaded & existing & fields & Hrun & Hl & He & _ & Hslot & _).
  destruct (persisted_sources_slot _ _ _ _ Hslot) as [Hp _].
  exists w'. split; [exact Hrun|]. rewrite Hp. f_equal.
  unfold call_ok in Hcall. apply andb_true_iff in Hcall as [Hnew _]. simpl in Hnew.
  assert (forallb (fun r => is_ok (get_id r)) (stored_items (wechat_json w)) = true) as Hok.
  { clear -Hl. revert Hl. generalize (@nil (pykey * pyval)).
    induction (stored_items (wechat_json w)) as [|s rest IH]; intros acc H;
      [reflexivity|].
    simpl in *. destruct (get_id s); [|discriminate]. simpl in *. eapply IH, H. }
  destruct (assign_all_fresh get_id _ [] (fun _ _ H => H) Hok)
    as (loaded' & Hl' & Hvals);
    [constructor | simpl; eapply ids_distinct_app_l, Hids |].
  assert (loaded' = loaded) by congruence. subst loaded'. simpl in Hvals.
  destruct (assign_all_spec get_id _ [] (fun _ _ H => H) Hok)
    as (loaded' & Hl'' & _ & Hkd & _); [apply NoDup_nil_2 | constructor |].
  assert (loaded' = loaded) by congruence. subst loaded'.
  destruct (assign_all_fresh item_id new_sources loaded item_id_get_id Hnew Hkd)
    as (existing' & He' & Hvals'); [rewrite Hvals; exact Hids |].
  assert (existing' = existing) by congruence. subst existing'.
  rewrite Hvals', Hvals. reflexivity.
Qed.

Lemma merge_appends_new_ids_witness :
  let w := sample_world [] (FileJson (PDict sample_document)) FileMissing AuthMissing in
  let new_sources := [sample_source "789" "C" 3; sample_source "321" "D" 4] in
  exists w',
    merge_wechat_config new_sources (OVal (PDict sample_session)) w = (Ok tt, w')
    /\ persisted_sources w'
       = Some [sample_source "123" "A" 5; sample_source "456" "B" 10;
               sample_source "789" "C" 3; sample_source "321" "D" 4].
Proof.
  intros w new_sources.
  apply (merge_appends_new_ids w new_sources (OVal (PDict sample_session)) eq_refl eq_refl).
  apply (registry_ids_distinct
           [(KStr "wechat_123", sample_source "123" "A" 5);
            (KStr "wechat_456", sample_source "456" "B" 10);
            (KStr "wechat_789", sample_source "789" "C" 3);
            (KStr "wechat_321", sample_source "321" "D" 4)]).
  - unfold distinct_keys. simpl.
    repeat (apply NoDup_cons_2;
            [rewrite ?not_elem_of_cons; repeat split;
             first [discriminate | apply not_elem_of_nil] |]).
    apply NoDup_nil_2.
  - repeat constructor.
Defined.

(** X8. The document a merge writes has exactly two keys: [session], a dict
    of the token, cookies_str and user_agent of the session passed (a
    missing one is [None]), and [sources]. The session and any other
    top-level key the file held are not carried over. *)
Theorem merge_rewrites_the_document (w : world) (new_sources : list pyval)
    (session : pyobj) :
  registry_ok w = true ->
  call_ok (new_sources, session) = true ->
  exists w' token cookies_str user_agent srcs,
    merge_wechat_config new_sources session w = (Ok tt, w')
    /\ obj_get session "token" = Ok token
    /\ obj_get session "cookies_str" = Ok cookies_str
    /\ obj_get session "user_agent" = Ok user_agent
    /\ content (wechat_json w')
       = FileJson (PDict [("session", PDict [("token", token);
                                             ("cookies_str", cookies_str);
                                             ("user_agent", user_agent)]);
                          ("sources", PList srcs)]).
Proof.
  intros Hreg Hcall.
  destruct (merge_wechat_config_full new_sources session w Hreg Hcall)
    as (w' & loaded & existing & fields & Hrun & _ & _ & Hf & Hslot & _).
  unfold session_fields, mbind, result_bind in Hf.
  destruct (obj_get session "token") as [token|]; [|discriminate].
  destruct (obj_get session "cookies_str") as [cookies_str|]; [|discriminate].
  destruct (obj_get session "user_agent") as [user_agent|]; [|discriminate].
  injection Hf as <-.
  exists w', token, cookies_str, user_agent, (od_values existing).
  rewrite Hslot. repeat split. exact Hrun.
Qed.

Lemma merge_rewrites_the_document_witness :
  let w := sample_world []
             (FileJson (PDict [("version", PInt 2);
                               ("session", PDict [("token", PStr "old");
                                                  ("extra", PStr "x")])]))
             FileMissing AuthMissing in
  exists w',
    merge_wechat_config [] (ODict [(KStr "token", PStr "new")]) w = (Ok tt, w')
    /\ content (wechat_json w')
       = FileJson (PDict [("session", PDict [("token", PStr "new");
                                             ("cookies_str", PNone);
                                             ("user_agent", PNone)]);
                          ("sources", PList [])]).
Proof.
  intros w.
  destruct (merge_rewrites_the_document w [] (ODict [(KStr "token", PStr "new")])
              eq_refl eq_refl)
    as (w' & token & cookies_str & user_agent & srcs & Hrun & _).
  exists w'. split; [exact Hrun|].
  replace w' with (snd (merge_wechat_config [] (ODict [(KStr "token", PStr "new")]) w))
    by (rewrite Hrun; reflexivity).
  reflexivity.
Defined.

Lemma makedirs_observed (s s' : slot) :
  makedirs s = Ok s' ->
  file_exists s' = file_exists s /\ read_json s' = read_json s.
Proof.
  unfold makedirs, file_exists, read_json. destruct (dir_exists s) eqn:Hd.
  - intros [= <-]. rewrite Hd. auto.
  - destruct (dir_creatable s); [|discriminate]. intros [= <-]. auto.
Qed.

Lemma read_config_data_frame (w : world) :
  wechat_json (snd (read_config_data w)) = wechat_json w
  /\ cookies_json (snd (read_config_data w)) = cookies_json w
  /\ WECHAT_SOURCES (snd (read_config_data w)) = WECHAT_SOURCES w
  /\ WECHAT_SESSION (snd (read_config_data w)) = WECHAT_SESSION w
  /\ exists data, fst (read_config_data w) = Ok data.
Proof.
  unfold read_config_data. destruct (file_exists (wechat_json w)); simpl.
  - destruct (read_json (wechat_json w)); simpl; eauto 10.
  - eauto 10.
Qed.

Lemma merged_document_shape (data : pyval) (new_sources : list pyval)
    (session : pyobj) (merged : pyval) :
  merged_document data new_sources session = Ok merged ->
  exists fields srcs, merged = PDict [("session", fields); ("sources", PList srcs)].
Proof.
  unfold merged_document, mbind, result_bind.
  destruct (existing_of data) as [loaded|]; [|discriminate].
  destruct (assign_all item_id loaded new_sources) as [existing|]; [|discriminate].
  destruct (session_fields session) as [fields|]; [|discriminate].
  intros [= <-]. eauto.
Qed.

(** What a call of [merge_wechat_config] leaves alone, whatever it is given. *)
Lemma merge_wechat_config_frame (new_sources : list pyval) (session : pyobj) (w : world) :
  let r := fst (merge_wechat_config new_sources session w) in
  let w' := snd (merge_wechat_config new_sources session w) in
  cookies_json w' = cookies_json w
  /\ WECHAT_SOURCES w' = WECHAT_SOURCES w /\ WECHAT_SESSION w' = WECHAT_SESSION w
  /\ (forall e, r = Raise e ->
        file_exists (wechat_json w') = file_exists (wechat_json w)
        /\ read_json (wechat_json w') = read_json (wechat_json w)).
Proof.
  unfold merge_wechat_config, mbind, M_bind, say, modify, get_world, lift. simpl.
  destruct (makedirs (wechat_json w)) as [s|e0] eqn:Hmk; simpl; [|auto].
  destruct (makedirs_observed _ _ Hmk) as [Hex Hrd].
  set (w1 := set_wechat_json s (emit MakeConfigDir w)).
  destruct (read_config_data_frame w1) as (Hj & Hc & Hs & Hd & data & Hdata).
  destruct (read_config_data w1) as [r1 w2]. simpl in *. subst r1.
  destruct (merged_document data new_sources session) as [merged|e1] eqn:Hm; simpl.
  - destruct (merged_document_shape _ _ _ _ Hm) as (fields & srcs & ->).
    rewrite Hj. destruct (write_json s _) as [s'|e2]; simpl.
    + repeat split; try assumption; intros; discriminate.
    + rewrite Hj. auto.
  - rewrite Hj. auto.
Qed.

(** X9. A call of [merge_wechat_config] that raises has not changed what
    can be read from the registry file, and no call touches the credential
    file, [WECHAT_SOURCES] or [WECHAT_SESSION]. *)
Theorem failed_merge_leaves_the_file (w : world) (new_sources : list pyval)
    (session : pyobj) :
  let r := fst (merge_wechat_config new_sources session w) in
  let w' := snd (merge_wechat_config new_sources session w) in
  cookies_json w' = cookies_json w
  /\ WECHAT_SOURCES w' = WECHAT_SOURCES w /\ WECHAT_SESSION w' = WECHAT_SESSION w
  /\ (forall e, r = Raise e ->
        file_exists (wechat_json w') = file_exists (wechat_json w)
        /\ read_json (wechat_json w') = read_json (wechat_json w)
        /\ stored_items (wechat_json w') = stored_items (wechat_json w)).
Proof.
  destruct (merge_wechat_config_frame new_sources session w) as (Hc & Hs & Hd & Hfail).
  repeat split; try assumption; destruct (Hfail e H) as [Hex Hrd]; try assumption.
  unfold stored_items. rewrite Hex, Hrd. reflexivity.
Qed.

Lemma failed_merge_leaves_the_file_witness :
  let w := sample_world [] (FileJson (PDict sample_document)) FileMissing AuthMissing in
  let w' := snd (merge_wechat_config [PDict [("name", PStr "no id")]]
                   (OVal (PDict sample_session)) w) in
  fst (merge_wechat_config [PDict [("name", PStr "no id")]]
         (OVal (PDict sample_session)) w) = Raise KeyError
  /\ read_json (wechat_json w') = Ok (PDict sample_document).
Proof.
  intros w w'. split; [reflexivity|].
  destruct (failed_merge_leaves_the_file w [PDict [("name", PStr "no id")]]
              (OVal (PDict sample_session))) as (_ & _ & _ & Hfail).
  destruct (Hfail KeyError eq_refl) as (_ & Hrd & _).
  fold w' in Hrd. rewrite Hrd. reflexivity.
Defined.

(** Assigning the same new sources to what the first assignment gave, once
    written and loaded again, changes nothing. *)
Lemma assign_all_again (new_sources : list pyval) (loaded ex1 loaded2 ex2 : pydict) :
  forallb (fun r => is_ok (item_id r)) new_sources = true ->
  distinct_keys loaded -> keyed loaded ->
  assign_all item_id loaded new_sources = Ok ex1 ->
  assign_all get_id [] (od_values ex1) = Ok loaded2 ->
  assign_all item_id loaded2 new_sources = Ok ex2 ->
  od_values ex2 = od_values ex1.
Proof.
  intros Hnew Hnd Hkd H1 H2 H3.
  destruct (assign_all_spec item_id new_sources loaded item_id_get_id Hnew Hnd Hkd)
    as (ex1' & H1' & Hnd1 & Hkd1 & Hget1).
  assert (ex1' = ex1) by congruence. subst ex1'.
  destruct (values_load_back ex1 Hnd1 Hkd1) as (l2 & H2' & Hvals2 & Hnd2 & Hkd2).
  assert (l2 = loaded2) by congruence. subst l2.
  destruct (assign_all_spec item_id new_sources loaded2 item_id_get_id Hnew Hnd2 Hkd2)
    as (ex2' & H3' & Hnd3 & Hkd3 & Hget3).
  assert (ex2' = ex2) by congruence. subst ex2'.
  assert (forall k, dict_get loaded2 k = dict_get ex1 k) as Hsame.
  { intros k. rewrite (dict_get_by_values _ _ Hnd2 Hkd2), (dict_get_by_values _ _ Hnd1 Hkd1).
    rewrite Hvals2. reflexivity. }
  assert (forall k, dict_get ex2 k = dict_get loaded2 k) as Hget.
  { intros k. rewrite Hget3, Hsame, Hget1.
    destruct (last (List.filter (has_id k) new_sources)); reflexivity. }
  assert (od_keys ex2 = od_keys loaded2) as Hkeys.
  { apply (assign_all_present item_id new_sources loaded2 ex2); [|exact H3].
    intros s Hs k Hk. rewrite Hsame, Hget1.
    destruct (last_filter_In (has_id k) new_sources s Hs) as [r Hr].
    - rewrite (has_id_of_get_id _ _ _ (item_id_get_id _ _ Hk)). apply key_eqb_refl.
    - rewrite Hr. eauto. }
  rewrite (dict_ext ex2 loaded2 Hnd3 Hkeys Hget). exact Hvals2.
Qed.

(** X10. A merge is idempotent on the file: calling [merge_wechat_config]
    again with the same sources and session returns again and leaves the
    registry file exactly as the first call left it. *)
Theorem merge_is_idempotent (w : world) (new_sources : list pyval) (session : pyobj) :
  registry_ok w = true ->
  call_ok (new_sources, session) = true ->
  exists w1 w2,
    merge_wechat_config new_sources session w = (Ok tt, w1)
    /\ merge_wechat_config new_sources session w1 = (Ok tt, w2)
    /\ wechat_json w2 = wechat_json w1.
Proof.
  intros Hreg Hcall.
  destruct (merge_wechat_config_full new_sources session w Hreg Hcall)
    as (w1 & loaded & ex1 & fields & Hrun1 & Hl1 & He1 & Hf1 & Hslot1 & _).
  destruct (merge_wechat_config_run new_sources session w Hreg Hcall)
    as (w1' & _ & _ & Hrun1' & _ & Hreg1 & _).
  assert (w1' = w1) by congruence. subst w1'.
  destruct (merge_wechat_config_full new_sources session w1 Hreg1 Hcall)
    as (w2 & loaded2 & ex2 & fields2 & Hrun2 & Hl2 & He2 & Hf2 & Hslot2 & _).
  exists w1, w2. split; [exact Hrun1|]. split; [exact Hrun2|].
  destruct (persisted_sources_slot _ _ _ _ Hslot1) as [_ Hstored].
  rewrite Hstored in Hl2.
  assert (fields2 = fields) by congruence. subst fields2.
  unfold call_ok in Hcall. apply andb_true_iff in Hcall as [Hnew _]. simpl in Hnew.
  assert (forallb (fun r => is_ok (get_id r)) (stored_items (wechat_json w)) = true) as Hok.
  { clear -Hl1. revert Hl1. generalize (@nil (pykey * pyval)).
    induction (stored_items (wechat_json w)) as [|s rest IH]; intros acc H;
      [reflexivity|].
    simpl in *. destruct (get_id s); [|discriminate]. simpl in *. eapply IH, H. }
  destruct (assign_all_spec get_id _ [] (fun _ _ H => H) Hok)
    as (loaded' & Hl' & Hnd & Hkd & _); [apply NoDup_nil_2 | constructor |].
  assert (loaded' = loaded) by congruence. subst loaded'.
  rewrite Hslot2, Hslot1. simpl.
  rewrite (assign_all_again new_sources loaded ex1 loaded2 ex2 Hnew Hnd Hkd He1 Hl2 He2).
  reflexivity.
Qed.

Lemma merge_is_idempotent_witness :
  let w := sample_world [] (FileJson (PDict sample_duplicates)) FileMissing AuthMissing in
  let new_sources := [sample_source "456" "B renamed" 1; sample_source "789" "C" 3] in
  exists w1 w2,
    merge_wechat_config new_sources (OVal (PDict sample_session)) w = (Ok tt, w1)
    /\ merge_wechat_config new_sources (OVal (PDict sample_session)) w1 = (Ok tt, w2)
    /\ wechat_json w2 = wechat_json w1.
Proof.
  intros w new_sources.
  apply (merge_is_idempotent w new_sources (OVal (PDict sample_session)) eq_refl eq_refl).
Defined.

Lemma assign_all_app (key : pyval -> result pykey) (a b : list pyval) (acc : pydict) :
  assign_all key acc (a ++ b)
  = (acc' ← assign_all key acc a; assign_all key acc' b).
Proof.
  revert acc. induction a as [|s a IH]; intros acc; simpl; [reflexivity|].
  destruct (key s) as [k|]; simpl; [apply IH | reflexivity].
Qed.

(** On a registry that can be loaded and rewritten, a merge fails exactly
    when building the document of lines 97 to 108 fails. *)
Lemma merge_wechat_config_outcome (w : world) :
  registry_ok w = true ->
  exists data,
    (srcs ← py_get_default data "sources" (PList []); py_iter srcs)
    = Ok (stored_items (wechat_json w))
    /\ forall new_sources session,
         fst (merge_wechat_config new_sources session w)
         = (_ ← merged_document data new_sources session; mret tt).
Proof.
  unfold registry_ok. intros Hreg.
  apply andb_true_iff in Hreg as [Hreg Hdoc]. apply andb_true_iff in Hreg as [Hdir Hwr].
  assert (exists s, makedirs (wechat_json w) = Ok s /\ dir_exists s = true
                    /\ writable s = true
                    /\ match content s with
                       | FileJson v => negb (dir_exists s) || loadable v
                       | _ => true
                       end = true) as (s & Hmk & Hsd & Hsw & Hsdoc).
  { unfold makedirs. destruct (dir_exists (wechat_json w)) eqn:Hd.
    - exists (wechat_json w). rewrite Hd. auto.
    - simpl in Hdir. rewrite Hdir. eexists. split; [reflexivity|]. simpl. auto. }
  set (w1 := set_wechat_json s (emit MakeConfigDir w)).
  destruct (read_config_data_items w1 Hsdoc) as (data & w2 & Hread & Hitems & Hw2 & _).
  unfold w1 in Hitems. simpl in Hitems. rewrite (stored_items_makedirs _ _ Hmk) in Hitems.
  exists data. split; [exact Hitems|]. intros new_sources session.
  unfold merge_wechat_config, mbind, M_bind, say, modify, get_world, lift. simpl.
  rewrite Hmk. fold w1. rewrite Hread.
  destruct (merged_document data new_sources session) as [merged|e] eqn:Hm; simpl;
    [|reflexivity].
  destruct (merged_document_shape _ _ _ _ Hm) as (fields & srcs & ->).
  rewrite Hw2. unfold write_json. simpl. rewrite Hsd, Hsw. reflexivity.
Qed.

Lemma assign_all_returns (key : pyval -> result pykey) (items : list pyval) (acc d : pydict) :
  assign_all key acc items = Ok d ->
  forallb (fun r => is_ok (key r)) items = true.
Proof.
  revert acc. induction items as [|s rest IH]; intros acc H; [reflexivity|].
  simpl in *. destruct (key s); [|discriminate]. simpl in *. eapply IH, H.
Qed.

(** X11. A new source without an ["id"] key makes the merge raise
    [KeyError], whatever the session and the other sources are, and the file
    is not touched; the same record found in the stored document is
    accepted, keyed by [None]. *)
Theorem new_source_without_id_is_rejected (w : world) (before after : list pyval)
    (fields : list (string * pyval)) (session : pyobj) :
  registry_ok w = true ->
  forallb (fun r => is_ok (item_id r)) before = true ->
  json_get fields "id" = None ->
  let new_sources := (before ++ PDict fields :: after)%list in
  fst (merge_wechat_config new_sources session w) = Raise KeyError
  /\ read_json (wechat_json (snd (merge_wechat_config new_sources session w)))
     = read_json (wechat_json w)
  /\ get_id (PDict fields) = Ok KNone.
Proof.
  intros Hreg Hbefore Hid new_sources.
  assert (fst (merge_wechat_config new_sources session w) = Raise KeyError) as Hrun.
  { destruct (merge_wechat_config_outcome w Hreg) as (data & Hitems & Hout).
    rewrite Hout. unfold merged_document.
    rewrite (existing_of_items _ _ Hitems).
    unfold registry_ok in Hreg.
    destruct (merge_wechat_config_full [] (ODict []) w Hreg eq_refl)
      as (_ & loaded & _ & _ & _ & Hl & _).
    rewrite Hl. simpl. unfold new_sources. rewrite assign_all_app.
    pose proof (assign_all_returns _ _ _ _ Hl) as Hok.
    destruct (assign_all_spec get_id _ [] (fun _ _ H => H) Hok)
      as (loaded' & Hl' & Hnd & Hkd & _); [apply NoDup_nil_2 | constructor |].
    assert (loaded' = loaded) by congruence. subst loaded'.
    destruct (assign_all_spec item_id before loaded item_id_get_id Hbefore Hnd Hkd)
      as (mid & Hmid & _).
    rewrite Hmid. simpl. unfold item_id, py_getitem. rewrite Hid. reflexivity. }
  split; [exact Hrun|]. split.
  - destruct (merge_wechat_config_frame new_sources session w) as (_ & _ & _ & Hfail).
    apply (Hfail KeyError Hrun).
  - unfold get_id, py_get. rewrite Hid. reflexivity.
Qed.

Lemma new_source_without_id_is_rejected_witness :
  let w := sample_world [] (FileJson (PDict sample_document)) FileMissing AuthMissing in
  fst (merge_wechat_config
         [sample_source "789" "C" 3; PDict [("name", PStr "no id")]]
         (OVal (PDict sample_session)) w) = Raise KeyError.
Proof.
  intros w.
  apply (new_source_without_id_is_rejected w [sample_source "789" "C" 3] []
           [("name", PStr "no id")] (OVal (PDict sample_session)) eq_refl eq_refl eq_refl).
Defined.

(** X12. A registry file that is valid JSON but not an object (a list, a
    string, a number, [null]) is not recovered like a corrupt file: the
    merge raises [AttributeError] and leaves the file as it is. *)
Theorem document_that_is_not_an_object (w : world) (v : pyval)
    (new_sources : list pyval) (session : pyobj) :
  dir_exists (wechat_json w) = true ->
  content (wechat_json w) = FileJson v ->
  is_dict v = false ->
  fst (merge_wechat_config new_sources session w) = Raise AttributeError
  /\ read_json (wechat_json (snd (merge_wechat_config new_sources session w))) = Ok v.
Proof.
  intros Hdir Hc Hv.
  assert (fst (merge_wechat_config new_sources session w) = Raise AttributeError) as Hrun.
  { unfold merge_wechat_config, mbind, M_bind, say, modify, get_world, lift. simpl.
    unfold makedirs. rewrite Hdir. simpl.
    unfold read_config_data, file_exists, read_json. simpl. rewrite Hdir, Hc. simpl.
    unfold merged_document, existing_of.
    destruct v; try discriminate; reflexivity. }
  split; [exact Hrun|].
  destruct (merge_wechat_config_frame new_sources session w) as (_ & _ & _ & Hfail).
  destruct (Hfail _ Hrun) as [_ Hrd]. rewrite Hrd.
  unfold read_json. rewrite Hdir, Hc. reflexivity.
Qed.

Lemma document_that_is_not_an_object_witness :
  let w := sample_world [] (FileJson (PList [sample_source "123" "A" 5]))
             FileMissing AuthMissing in
  fst (merge_wechat_config [sample_source "456" "B" 10] (OVal (PDict sample_session)) w)
  = Raise AttributeError.
Proof.
  intros w.
  apply (document_that_is_not_an_object w (PList [sample_source "123" "A" 5])
           [sample_source "456" "B" 10] (OVal (PDict sample_session))
           eq_refl eq_refl eq_refl).
Defined.

(** A merge that returned, followed by the reload of [main]. *)
Lemma merge_then_reload (w : world) (new_sources : list pyval) (session : pyobj) :
  registry_ok w = true ->
  call_ok (new_sources, session) = true ->
  exists w' srcs token cookies_str user_agent,
    (merge_wechat_config new_sources session;; main_reload) w = (Ok tt, w')
    /\ persisted_sources w' = Some srcs
    /\ WECHAT_SOURCES w' = srcs
    /\ ids_distinct srcs
    /\ wechat_json w' = wechat_json (snd (merge_wechat_config new_sources session w))
    /\ cookies_json w' = cookies_json w
    /\ obj_get session "token" = Ok token
    /\ obj_get session "cookies_str" = Ok cookies_str
    /\ obj_get session "user_agent" = Ok user_agent
    /\ forall key,
         dict_get (WECHAT_SESSION w') (KStr key)
         = match json_get [("token", token); ("cookies_str", cookies_str);
                           ("user_agent", user_agent)] key with
           | Some v => Some v
           | None => dict_get (WECHAT_SESSION w) (KStr key)
           end.
Proof.
  intros Hreg Hcall.
  destruct (merge_wechat_config_full new_sources session w Hreg Hcall)
    as (w1 & loaded & existing & fields & Hrun & _ & _ & Hf & Hslot & Hck & _ & Hsess & _).
  assert (ids_distinct (od_values existing)) as Hids.
  { destruct (merge_wechat_config_run new_sources session w Hreg Hcall)
      as (w1' & ex' & f' & Hrun' & Hc' & _ & Hnd & Hkd & _).
    assert (w1' = w1) by congruence. subst w1'. rewrite Hslot in Hc'. simpl in Hc'.
    injection Hc' as _ Hv. rewrite Hv. apply registry_ids_distinct; assumption. }
  unfold session_fields, mbind, result_bind in Hf.
  destruct (obj_get session "token") as [token|]; [|discriminate].
  destruct (obj_get session "cookies_str") as [cookies_str|]; [|discriminate].
  destruct (obj_get session "user_agent") as [user_agent|]; [|discriminate].
  injection Hf as <-.
  assert (dir_exists (wechat_json (set_sources [] w1)) = true) as Hdir
    by (simpl; rewrite Hslot; reflexivity).
  assert (content (wechat_json (set_sources [] w1))
          = FileJson (PDict [("session", PDict [("token", token);
                                                ("cookies_str", cookies_str);
                                                ("user_agent", user_agent)]);
                             ("sources", PList (od_values existing))])) as Hc
    by (simpl; rewrite Hslot; reflexivity).
  destruct (load_configurations_step (set_sources [] w1) _ (od_values existing) Hdir Hc eq_refl)
    as (w2 & Hload & Hsrc & Hj & Hd).
  exists w2, (od_values existing), token, cookies_str, user_agent.
  split.
  { unfold mbind, M_bind. rewrite Hrun. unfold main_reload, try_except, mbind, M_bind, modify.
    rewrite Hload. reflexivity. }
  split.
  { unfold persisted_sources. rewrite Hj. simpl. rewrite Hslot. reflexivity. }
  split; [exact Hsrc|]. split; [exact Hids|].
  split; [rewrite Hj, Hrun; reflexivity|].
  split.
  { destruct (load_configurations_only_adds_lemma (set_sources [] w1)) as (_ & Hc2 & _).
    rewrite Hload in Hc2. simpl in Hc2. rewrite Hc2. exact Hck. }
  do 3 (split; [reflexivity|]).
  intros key. rewrite Hd. simpl. rewrite Hsess.
  apply (update_from_dict_get [("token", token); ("cookies_str", cookies_str);
                               ("user_agent", user_agent)]).
  simpl. repeat (apply NoDup_cons_2;
            [rewrite ?not_elem_of_cons; repeat split;
             first [discriminate | apply not_elem_of_nil] |]).
  apply NoDup_nil_2.
Qed.


(** X13. After a merge that returned, the reload of [main] leaves in
    [WECHAT_SOURCES] exactly the sources just written, and in
    [WECHAT_SESSION] the token, cookies_str and user_agent of the session
    passed to the merge (a missing one as [None]); any other key of
    [WECHAT_SESSION] keeps its value. *)
Theorem reload_after_merge (w : world) (new_sources : list pyval) (session : pyobj) :
  registry_ok w = true ->
  call_ok (new_sources, session) = true ->
  exists w' srcs token cookies_str user_agent,
    (merge_wechat_config new_sources session;; main_reload) w = (Ok tt, w')
    /\ persisted_sources w' = Some srcs
    /\ WECHAT_SOURCES w' = srcs
    /\ obj_get session "token" = Ok token
    /\ obj_get session "cookies_str" = Ok cookies_str
    /\ obj_get session "user_agent" = Ok user_agent
    /\ forall key,
         dict_get (WECHAT_SESSION w') (KStr key)
         = match json_get [("token", token); ("cookies_str", cookies_str);
                           ("user_agent", user_agent)] key with
           | Some v => Some v
           | None => dict_get (WECHAT_SESSION w) (KStr key)
           end.
Proof.
  intros Hreg Hcall.
  destruct (merge_then_reload w new_sources session Hreg Hcall)
    as (w' & srcs & t & c & u & Hrun & Hp & Hs & _ & _ & _ & Ht & Hc & Hu & Hget).
  exists w', srcs, t, c, u. auto 10.
Qed.

Lemma reload_after_merge_witness :
  let w := sample_world [(KStr "token", PStr "old"); (KStr "proxy", PStr "p")]
             (FileJson (PDict sample_document)) FileMissing AuthMissing in
  exists w',
    (merge_wechat_config [sample_source "789" "C" 3] (OVal (PDict sample_session));;
     main_reload) w = (Ok tt, w')
    /\ persisted_sources w' = Some (WECHAT_SOURCES w')
    /\ dict_get (WECHAT_SESSION w') (KStr "token") = Some (PStr "tok")
    /\ dict_get (WECHAT_SESSION w') (KStr "proxy") = Some (PStr "p").
Proof.
  intros w.
  destruct (reload_after_merge w [sample_source "789" "C" 3] (OVal (PDict sample_session))
              eq_refl eq_refl)
    as (w' & srcs & t & c & u & Hrun & Hp & Hs & Ht & Hc & Hu & Hget).
  exists w'. split; [exact Hrun|]. split; [congruence|].
  injection Ht as <-. injection Hc as <-. injection Hu as <-.
  split; rewrite Hget; reflexivity.
Defined.

(** ** Entries and the sessions they are built from *)

Lemma wechat_prefix_inj (a b : string) :
  "wechat_" +:+ a = "wechat_" +:+ b <-> a = b.
Proof. split; [intros [= H]; exact H | intros ->; reflexivity]. Qed.

Lemma build_source_entry_id (name biz : string) (wx_cfg : pyobj) (count now : Z)
    (entry : pyval) :
  build_source_entry name biz wx_cfg count now = Ok entry ->
  py_getitem entry "id" = Ok (PStr ("wechat_" +:+ biz))
  /\ item_id entry = Ok (KStr ("wechat_" +:+ biz))
  /\ get_id entry = Ok (KStr ("wechat_" +:+ biz))
  /\ is_ok (session_fields wx_cfg) = true.
Proof.
  unfold build_source_entry, mbind, result_bind.
  destruct (session_fields wx_cfg) as [fields|]; [|discriminate].
  intros [= <-]. repeat split.
Qed.

(** X14. Two entries built by [build_source_entry] share an id exactly when
    they were built for the same platform key, whatever the names, counts,
    sessions and times; and each is accepted as a new source by the merge. *)
Theorem built_entries_share_id_iff_same_key (name1 name2 biz1 biz2 : string)
    (wx1 wx2 : pyobj) (count1 count2 now1 now2 : Z) (e1 e2 : pyval) :
  build_source_entry name1 biz1 wx1 count1 now1 = Ok e1 ->
  build_source_entry name2 biz2 wx2 count2 now2 = Ok e2 ->
  (same_id e1 e2 <-> biz1 = biz2)
  /\ is_ok (item_id e1) = true /\ is_ok (item_id e2) = true.
Proof.
  intros H1 H2.
  destruct (build_source_entry_id _ _ _ _ _ _ H1) as (_ & Hi1 & Hg1 & _).
  destruct (build_source_entry_id _ _ _ _ _ _ H2) as (_ & Hi2 & Hg2 & _).
  rewrite Hi1, Hi2. split; [|split; reflexivity].
  unfold same_id. rewrite Hg1, Hg2. split.
  - intros (k1 & k2 & [= <-] & [= <-] & Hk).
    rewrite key_eqb_str in Hk. apply String.eqb_eq in Hk.
    apply wechat_prefix_inj. exact Hk.
  - intros ->. eexists _, _. split; [reflexivity|]. split; [reflexivity|].
    apply key_eqb_refl.
Qed.

Lemma built_entries_share_id_iff_same_key_witness :
  exists e1 e2,
    build_source_entry "A" "123" (OVal (PDict sample_session)) 5 1700000000 = Ok e1
    /\ build_source_entry "A renamed" "123" (ODict []) 10 1700000500 = Ok e2
    /\ same_id e1 e2.
Proof.
  eexists _, _. split; [reflexivity|]. split; [reflexivity|].
  apply (built_entries_share_id_iff_same_key "A" "A renamed" "123" "123"
           (OVal (PDict sample_session)) (ODict []) 5 10 1700000000 1700000500
           _ _ eq_refl eq_refl).
  reflexivity.
Defined.

Lemma session_fields_not_dict (v : pyval) :
  is_dict v = false -> session_fields (OVal v) = Raise AttributeError.
Proof. destruct v; try discriminate; reflexivity. Qed.

(** X15. A credential file that holds a truthy JSON value which is not an
    object (a list, a string, a number) is accepted as the session; with it
    every call of [build_source_entry] raises [AttributeError], and so does
    every merge on a registry that can be loaded, with sources that have
    ids. *)
Theorem session_that_is_not_an_object (w : world) (v : pyval) :
  usable (ODict (WECHAT_SESSION w)) = false ->
  file_exists (cookies_json w) = true ->
  content (cookies_json w) = FileJson v ->
  truthy v = true ->
  is_dict v = false ->
  fst (ensure_session_interactive w) = Ok (OVal v)
  /\ (forall name biz count now,
        build_source_entry name biz (OVal v) count now = Raise AttributeError)
  /\ (forall w0 new_sources,
        registry_ok w0 = true ->
        forallb (fun r => is_ok (item_id r)) new_sources = true ->
        fst (merge_wechat_config new_sources (OVal v) w0) = Raise AttributeError).
Proof.
  intros Hconf Hex Hc Hv Hd.
  assert (stored_credentials (cookies_json w) = v) as Hstored.
  { unfold stored_credentials, read_json. rewrite Hex, Hc.
    unfold file_exists in Hex. apply andb_true_iff in Hex as [-> _]. reflexivity. }
  split; [|split].
  - rewrite <- Hstored in Hv. rewrite (ensure_session_from_file w Hconf Hv), Hstored.
    reflexivity.
  - intros name biz count now. unfold build_source_entry.
    rewrite (session_fields_not_dict v Hd). reflexivity.
  - intros w0 new_sources Hreg Hnew.
    destruct (merge_wechat_config_outcome w0 Hreg) as (data & Hitems & Hout).
    rewrite Hout. unfold merged_document. rewrite (existing_of_items _ _ Hitems).
    destruct (merge_wechat_config_full [] (ODict []) w0 Hreg eq_refl)
      as (_ & loaded & _ & _ & _ & Hl & _).
    rewrite Hl. simpl.
    pose proof (assign_all_returns _ _ _ _ Hl) as Hok.
    destruct (assign_all_spec get_id _ [] (fun _ _ H => H) Hok)
      as (loaded' & Hl' & Hnd & Hkd & _); [apply NoDup_nil_2 | constructor |].
    assert (loaded' = loaded) by congruence. subst loaded'.
    destruct (assign_all_spec item_id new_sources loaded item_id_get_id Hnew Hnd Hkd)
      as (existing & He & _).
    rewrite He. simpl. rewrite (session_fields_not_dict v Hd). reflexivity.
Qed.

Lemma session_that_is_not_an_object_witness :
  let w := sample_world [] FileMissing (FileJson (PStr "token=abc")) AuthMissing in
  fst (ensure_session_interactive w) = Ok (OVal (PStr "token=abc"))
  /\ build_source_entry "A" "123" (OVal (PStr "token=abc")) 5 1700000000
     = Raise AttributeError.
Proof.
  intros w.
  destruct (session_that_is_not_an_object w (PStr "token=abc")
              eq_refl eq_refl eq_refl eq_refl eq_refl) as (Hrun & Hbuild & _).
  split; [exact Hrun | apply Hbuild].
Defined.

(** ** The crawl loop in general *)

Lemma crawl_report_kind (sid : string) (r : result pyval) :
  is_warning (crawl_report sid r) = failed r
  /\ is_success (crawl_report sid r) = negb (failed r).
Proof.
  unfold crawl_report, failed, fetched.
  destruct (items ← r; py_len items); split; reflexivity.
Qed.

Lemma maybe_crawl_sources_counts {St : Type}
    (fetch : string -> St -> result pyval * St) (ids : list string) (st : St) :
  length (List.filter is_warning (fst (maybe_crawl_sources fetch ids st)))
  = length (List.filter failed (fetch_outcomes fetch ids st))
  /\ length (List.filter is_success (fst (maybe_crawl_sources fetch ids st)))
     = length (List.filter (fun r => negb (failed r)) (fetch_outcomes fetch ids st)).
Proof.
  revert st. induction ids as [|sid rest IH]; intros st; [split; reflexivity|].
  cbn [maybe_crawl_sources fetch_outcomes]. unfold crawl_one.
  destruct (fetch sid st) as [r st']. destruct (IH st') as [Hwarn Hok].
  destruct (maybe_crawl_sources fetch rest st') as [out st''].
  cbn [fst] in *. cbn [app List.filter is_warning is_success].
  destruct (crawl_report_kind sid r) as [-> ->].
  destruct (failed r); cbn [negb length]; rewrite ?Hwarn, ?Hok; split; reflexivity.
Qed.

(** X16. Failures are isolated however many there are. The fetch returns or
    raises one of the exceptions of the model, which are all caught by line
    137 (a cancellation or an interrupt is not an [Exception] and is not
    among them). Then every id, in the order of the list, has its start
    line, followed by its success line with the number of items when the
    fetch returned something that has a length, by the warning with the
    exception of the fetch when it raised, and by the warning with the
    [TypeError] of [len] otherwise. There are as many warnings as failed
    fetches, and the success lines are one for every other id. *)
Theorem crawl_isolates_every_failure {St : Type}
    (fetch : string -> St -> result pyval * St) (ids : list string) (st : St) :
  let outcomes := fetch_outcomes fetch ids st in
  let out := fst (maybe_crawl_sources fetch ids st) in
  (forall j sid, ids !! j = Some sid ->
     exists r, outcomes !! j = Some r
       /\ out !! (2 * j)%nat = Some (CrawlStart sid)
       /\ (forall n, fetched r = Some n ->
             out !! (2 * j + 1)%nat = Some (CrawlOk n sid))
       /\ (forall e, r = Raise e ->
             out !! (2 * j + 1)%nat = Some (CrawlWarn sid e))
       /\ (forall items e, r = Ok items -> py_len items = Raise e ->
             out !! (2 * j + 1)%nat = Some (CrawlWarn sid e)))
  /\ length (List.filter is_warning out) = length (List.filter failed outcomes)
  /\ (length (List.filter is_success out) + length (List.filter failed outcomes)
      = length ids)%nat.
Proof.
  intros outcomes out. split; [|split].
  - intros j sid Hsid.
    assert (j < length outcomes)%nat as Hlt.
    { unfold outcomes. rewrite fetch_outcomes_length. eapply lookup_lt_Some, Hsid. }
    destruct (lookup_lt_is_Some_2 _ _ Hlt) as [r Hr].
    destruct (maybe_crawl_sources_lines fetch ids st j sid r Hsid Hr) as [Hstart Hline].
    exists r. split; [exact Hr|]. split; [exact Hstart|].
    fold out in Hline. rewrite Hline. unfold crawl_report, fetched.
    split; [|split].
    + intros n Hn. destruct (items ← r; py_len items) as [m|e]; [|discriminate].
      injection Hn as ->. reflexivity.
    + intros e ->. reflexivity.
    + intros items e -> Hlen. simpl. rewrite Hlen. reflexivity.
  - apply maybe_crawl_sources_counts.
  - destruct (maybe_crawl_sources_counts fetch ids st) as [_ Hok].
    fold out outcomes in Hok. rewrite Hok.
    rewrite Nat.add_comm, List.filter_length.
    apply fetch_outcomes_length.
Qed.

(** Two of three fetches time out. *)
Lemma crawl_isolates_every_failure_witness :
  let out := fst (maybe_crawl_sources sample_fetch
                    ["wechat_456"; "wechat_123"; "wechat_456"] 0%nat) in
  length (List.filter is_warning out) = 2%nat
  /\ length (List.filter is_success out) = 1%nat
  /\ out !! 3%nat = Some (CrawlOk 2 "wechat_123")
  /\ out !! 5%nat = Some (CrawlWarn "wechat_456" (CollaboratorError "timeout")).
Proof.
  intros out.
  destruct (crawl_isolates_every_failure sample_fetch
              ["wechat_456"; "wechat_123"; "wechat_456"] 0%nat)
    as (Hlines & Hwarn & Hsum).
  fold out in Hlines, Hwarn, Hsum.
  split; [rewrite Hwarn; reflexivity|].
  split.
  { assert (length (List.filter failed
                      (fetch_outcomes sample_fetch
                         ["wechat_456"; "wechat_123"; "wechat_456"] 0%nat)) = 2%nat)
      as Hfailed by reflexivity.
    rewrite Hfailed in Hsum. cbn [length] in Hsum. lia. }
  split.
  - destruct (Hlines 1%nat "wechat_123" eq_refl) as (r & Hr & _ & Hok & _).
    injection Hr as <-. exact (Hok 2%nat eq_refl).
  - destruct (Hlines 2%nat "wechat_456" eq_refl) as (r & Hr & _ & _ & Hraise & _).
    injection Hr as <-. exact (Hraise _ eq_refl).
Defined.

(** X17. Crawling a list of ids in two batches, the second from the state
    the first left, prints the same lines and ends in the same state as
    crawling the whole list at once. *)
Theorem crawl_in_batches {St : Type}
    (fetch : string -> St -> result pyval * St) (ids1 ids2 : list string) (st : St) :
  maybe_crawl_sources fetch (ids1 ++ ids2) st
  = let '(out1, st1) := maybe_crawl_sources fetch ids1 st in
    let '(out2, st2) := maybe_crawl_sources fetch ids2 st1 in
    ((out1 ++ out2)%list, st2).
Proof.
  revert st. induction ids1 as [|sid rest IH]; intros st.
  - simpl. destruct (maybe_crawl_sources fetch ids2 st). reflexivity.
  - cbn [app maybe_crawl_sources]. unfold crawl_one.
    destruct (fetch sid st) as [r st']. rewrite IH.
    destruct (maybe_crawl_sources fetch rest st') as [out1 st1].
    destruct (maybe_crawl_sources fetch ids2 st1) as [out2 st2].
    rewrite <- app_assoc. reflexivity.
Qed.

(** ** The flags: case and surrounding white space *)

Lemma is_space_lower_char (c : ascii) : is_space (lower_char c) = is_space c.
Proof. destruct c as [[] [] [] [] [] [] [] []]; reflexivity. Qed.

Lemma lstrip_lower (s : string) :
  lstrip is_space (lower s) = lower (lstrip is_space s).
Proof.
  induction s as [|c s IH]; simpl; [reflexivity|].
  rewrite is_space_lower_char. destruct (is_space c); [exact IH | reflexivity].
Qed.

Lemma rstrip_lower (s : string) :
  rstrip is_space (lower s) = lower (rstrip is_space s).
Proof.
  induction s as [|c s IH]; simpl; [reflexivity|].
  rewrite IH, is_space_lower_char.
  destruct (rstrip is_space s); simpl; [destruct (is_space c)|]; reflexivity.
Qed.

Lemma strip_lower (s : string) : strip (lower s) = lower (strip s).
Proof. unfold strip. rewrite lstrip_lower, rstrip_lower. reflexivity. Qed.

Lemma lstrip_blank_app (pad s : string) :
  blank pad = true -> lstrip is_space (pad +:+ s) = lstrip is_space s.
Proof.
  induction pad as [|c pad IH]; simpl; [reflexivity|].
  intros H. apply andb_true_iff in H as [-> H]. apply IH, H.
Qed.

Lemma lstrip_blank (pad : string) : blank pad = true -> lstrip is_space pad = "".
Proof.
  induction pad as [|c pad IH]; simpl; [reflexivity|].
  intros H. apply andb_true_iff in H as [-> H]. apply IH, H.
Qed.

Lemma rstrip_blank (pad : string) : blank pad = true -> rstrip is_space pad = "".
Proof.
  induction pad as [|c pad IH]; simpl; [reflexivity|].
  intros H. apply andb_true_iff in H as [-> H]. rewrite (IH H). reflexivity.
Qed.

Lemma rstrip_app_blank (s pad : string) :
  blank pad = true -> rstrip is_space (s +:+ pad) = rstrip is_space s.
Proof.
  intros H. induction s as [|c s IH]; simpl; [apply rstrip_blank, H|].
  rewrite IH. reflexivity.
Qed.

Lemma strip_app_blank (s pad : string) :
  blank pad = true -> strip (s +:+ pad) = strip s.
Proof.
  intros H. unfold strip. induction s as [|c s IH]; simpl.
  - change ("" +:+ pad) with pad. rewrite (lstrip_blank pad H). reflexivity.
  - destruct (is_space c); [exact IH|].
    apply (rstrip_app_blank (String c s) pad H).
Qed.

Lemma strip_padded (pad1 s pad2 : string) :
  blank pad1 = true -> blank pad2 = true ->
  strip (pad1 +:+ s +:+ pad2) = strip s.
Proof.
  intros H1 H2. unfold strip at 1. rewrite (lstrip_blank_app _ _ H1).
  apply (strip_app_blank s pad2 H2).
Qed.

(** X21. A flag does not depend on the case of its value nor on white
    space around it: two values that are equal once lowercased, one of them
    padded with white space, give the same [_get_bool_env]. *)
Theorem get_bool_env_ignores_case_and_padding (env : environ) (name : string)
    (dflt : bool) (value value' pad1 pad2 : string) :
  lower value = lower value' ->
  blank pad1 = true -> blank pad2 = true ->
  _get_bool_env (<[name := pad1 +:+ value' +:+ pad2]> env) name dflt
  = _get_bool_env (<[name := value]> env) name dflt.
Proof.
  intros Hlow H1 H2. unfold _get_bool_env, getenv. rewrite !lookup_insert_eq.
  rewrite (strip_padded _ _ _ H1 H2), <- !strip_lower, Hlow. reflexivity.
Qed.

Lemma get_bool_env_ignores_case_and_padding_witness :
  _get_bool_env (<["AUTO_CRAWL_ENABLED" := "  TrUe" +:+ String "010" ""]> ∅)
    "AUTO_CRAWL_ENABLED" false
  = _get_bool_env (<["AUTO_CRAWL_ENABLED" := "true"]> ∅) "AUTO_CRAWL_ENABLED" false.
Proof.
  apply (get_bool_env_ignores_case_and_padding ∅ "AUTO_CRAWL_ENABLED" false
           "true" "TrUe" "  " (String "010" "") eq_refl eq_refl eq_refl).
Defined.

(** ** The names given to [main] *)

Lemma lstrip_head (p : ascii -> bool) (s : string) :
  lstrip p s = "" \/ exists c r, lstrip p s = String c r /\ p c = false.
Proof.
  induction s as [|c s IH]; simpl; [auto|].
  destruct (p c) eqn:Hc; [exact IH|]. right. eauto.
Qed.

Lemma rstrip_idem (p : ascii -> bool) (s : string) :
  rstrip p (rstrip p s) = rstrip p s.
Proof.
  induction s as [|c s IH]; simpl; [reflexivity|].
  destruct (rstrip p s) as [|a r] eqn:Hr.
  - destruct (p c) eqn:Hc; simpl; [reflexivity|]. rewrite Hc. reflexivity.
  - simpl in *. rewrite IH. reflexivity.
Qed.

Lemma rstrip_head (p : ascii -> bool) (c : ascii) (s : string) :
  p c = false -> exists r, rstrip p (String c s) = String c r.
Proof.
  intros Hc. simpl. destruct (rstrip p s); [rewrite Hc|]; eauto.
Qed.

Lemma strip_idem (s : string) : strip (strip s) = strip s.
Proof.
  unfold strip. destruct (lstrip_head is_space s) as [->|(c & r & -> & Hc)];
    [reflexivity|].
  destruct (rstrip_head is_space c r Hc) as [r' Hr]. rewrite Hr.
  simpl lstrip. rewrite Hc, <- Hr. apply rstrip_idem.
Qed.

Lemma has_char_lstrip (p : ascii -> bool) (c : ascii) (s : string) :
  has_char c s = false -> has_char c (lstrip p s) = false.
Proof.
  induction s as [|a s IH]; simpl; [reflexivity|].
  intros H. apply orb_false_iff in H as [Ha Hs].
  destruct (p a); [apply IH, Hs|]. simpl. rewrite Ha, Hs. reflexivity.
Qed.

Lemma has_char_rstrip (p : ascii -> bool) (c : ascii) (s : string) :
  has_char c s = false -> has_char c (rstrip p s) = false.
Proof.
  induction s as [|a s IH]; simpl; [reflexivity|].
  intros H. apply orb_false_iff in H as [Ha Hs]. specialize (IH Hs).
  destruct (rstrip p s); [destruct (p a)|]; simpl in *; rewrite ?Ha, ?IH; reflexivity.
Qed.

Lemma split_on_no_sep (sep : ascii) (s part : string) :
  In part (split_on sep s) -> has_char sep part = false.
Proof.
  revert part. induction s as [|c s IH]; simpl; intros part Hin.
  - destruct Hin as [<-|[]]. reflexivity.
  - destruct (Ascii.eqb c sep) eqn:Hc.
    + destruct Hin as [<-|Hin]; [reflexivity | apply IH, Hin].
    + destruct (split_on sep s) as [|p ps].
      * destruct Hin as [<-|[]]. simpl. rewrite Hc. reflexivity.
      * destruct Hin as [<-|Hin].
        -- simpl. rewrite Hc. apply IH. left. reflexivity.
        -- apply IH. right. exact Hin.
Qed.

(** X22. Every name [main] works on is clean: the names parsed from the
    [--names] argument or from the prompt are not empty, have no white
    space at either end and contain no comma. *)
Theorem parsed_names_are_clean (s name : string) :
  In name (parse_names s) -> clean_name name = true.
Proof.
  unfold parse_names, clean_name. intros Hin.
  apply filter_In in Hin as [Hin Hne]. apply in_map_iff in Hin as (part & <- & Hpart).
  rewrite Hne, strip_idem, String.eqb_refl. simpl.
  unfold strip. rewrite has_char_rstrip; [reflexivity|].
  apply has_char_lstrip. eapply split_on_no_sep, Hpart.
Qed.

Lemma parsed_names_are_clean_witness :
  parse_names " a , ,b,, c d ," = ["a"; "b"; "c d"] /\ clean_name "c d" = true.
Proof.
  split; [reflexivity|].
  apply (parsed_names_are_clean " a , ,b,, c d ," "c d"). simpl. auto.
Defined.

Lemma split_on_clean (sep : ascii) (a : string) :
  has_char sep a = false -> split_on sep a = [a].
Proof.
  induction a as [|c a IH]; simpl; [reflexivity|].
  intros H. apply orb_false_iff in H as [Hc Ha]. rewrite Hc, (IH Ha). reflexivity.
Qed.

Lemma split_on_app (sep : ascii) (a b : string) :
  has_char sep a = false ->
  split_on sep (a +:+ String sep b) = a :: split_on sep b.
Proof.
  induction a as [|c a IH]; intros H.
  - change ("" +:+ String sep b) with (String sep b). simpl.
    rewrite Ascii.eqb_refl. reflexivity.
  - simpl in H. apply orb_false_iff in H as [Hc Ha].
    change (String c a +:+ String sep b) with (String c (a +:+ String sep b)).
    simpl. rewrite Hc, (IH Ha). reflexivity.
Qed.

Lemma clean_name_parts (n : string) :
  clean_name n = true ->
  String.eqb n "" = false /\ strip n = n /\ has_char "," n = false.
Proof.
  unfold clean_name. intros H.
  apply andb_true_iff in H as [H Hc]. apply andb_true_iff in H as [Hn Hs].
  apply negb_true_iff in Hn, Hc. apply String.eqb_eq in Hs. auto.
Qed.

Lemma split_on_join (n : string) (names : list string) :
  forallb clean_name (n :: names) = true ->
  split_on "," (join_names (n :: names)) = n :: names.
Proof.
  revert n. induction names as [|m names IH]; intros n H.
  - simpl in *. apply andb_true_iff in H as [H _].
    destruct (clean_name_parts n H) as (_ & _ & Hc). apply split_on_clean, Hc.
  - change (forallb clean_name (n :: m :: names))
      with (clean_name n && forallb clean_name (m :: names)) in H.
    apply andb_true_iff in H as [Hn H].
    destruct (clean_name_parts n Hn) as (_ & _ & Hc).
    change (join_names (n :: m :: names))
      with (n +:+ String "," (join_names (m :: names))).
    rewrite (split_on_app _ _ _ Hc), (IH m H). reflexivity.
Qed.

(** X23. Parsing undoes joining: clean names joined with commas are parsed
    back to the same names, in order; no names give the empty string, which
    is parsed to no names. *)
Theorem parse_names_of_joined_names (names : list string) :
  forallb clean_name names = true ->
  parse_names (join_names names) = names.
Proof.
  intros H. destruct names as [|n names]; [reflexivity|].
  unfold parse_names. rewrite (split_on_join n names H).
  induction (n :: names) as [|m l IH]; [reflexivity|].
  simpl in H. apply andb_true_iff in H as [Hm Hl].
  destruct (clean_name_parts m Hm) as (Hne & Hs & _).
  simpl. rewrite Hs, Hne. simpl. rewrite (IH Hl). reflexivity.
Qed.

Lemma parse_names_of_joined_names_witness :
  parse_names (join_names ["school news"; "lab-42"; "x"]) = ["school news"; "lab-42"; "x"].
Proof. apply (parse_names_of_joined_names ["school news"; "lab-42"; "x"]). reflexivity. Defined.

Lemma blank_strip (s : string) : blank s = true -> strip s = "".
Proof. intros H. unfold strip. rewrite (lstrip_blank s H). reflexivity. Qed.

Lemma split_on_only_separators (s : string) :
  only_separators s = true -> forallb blank (split_on "," s) = true.
Proof.
  induction s as [|c s IH]; simpl; [reflexivity|].
  intros H. apply andb_true_iff in H as [Hc Hs]. specialize (IH Hs).
  destruct (Ascii.eqb c ",") eqn:Hcomma; [exact IH|]. simpl in Hc.
  destruct (split_on "," s) as [|p ps]; simpl in *; rewrite Hc; [reflexivity | exact IH].
Qed.

Lemma parse_names_only_separators (s : string) :
  only_separators s = true -> parse_names s = [].
Proof.
  intros H. apply split_on_only_separators in H. unfold parse_names.
  induction (split_on "," s) as [|p ps IH]; [reflexivity|].
  simpl in H. apply andb_true_iff in H as [Hp Hps].
  simpl. rewrite (blank_strip p Hp). simpl. apply IH, Hps.
Qed.

(** ** [main] *)

Section main_facts.
Context {St : Type}
  (get_fakeid_by_name : pyobj -> string -> St -> result (option string) * St)
  (time_now : nat -> Z).


Lemma nonempty_Some (o : option string) (s : string) :
  nonempty o = Some s -> s <> "".
Proof.
  destruct o as [s'|]; simpl; [|discriminate].
  destruct (String.eqb_spec s' ""); [discriminate|]. intros [= <-]. assumption.
Qed.

(** What the loop of lines 160 to 170 returns. *)
Lemma collect_sources_spec (wx_cfg : pyobj) (count : Z) (names : list string) :
  forall built st notes entries ids st' notes',
    collect_sources get_fakeid_by_name time_now wx_cfg count names built st notes
    = (Ok (entries, ids), st', notes') ->
    Forall2 (fun e sid => item_id e = Ok (KStr sid)
                          /\ exists biz, biz <> "" /\ sid = "wechat_" +:+ biz)
      entries ids
    /\ (length entries <= length names)%nat
    /\ (entries <> [] -> is_ok (session_fields wx_cfg) = true).
Proof.
  induction names as [|name rest IH]; intros built st notes entries ids st' notes' H.
  - simpl in H. injection H as <- <- <- <-.
    split; [apply Forall2_nil; exact I|]. split; [simpl; lia | congruence].
  - cbn [collect_sources] in H.
    destruct (get_fakeid_by_name wx_cfg name st) as [[found|e] st1]; [|discriminate].
    destruct (nonempty found) as [biz|] eqn:Hbiz.
    + destruct (build_source_entry name biz wx_cfg count (time_now built))
        as [entry|e] eqn:Hb; [|discriminate].
      destruct (build_source_entry_id _ _ _ _ _ _ Hb) as (Hid & Hitem & _ & Hsess).
      simpl in H. unfold entry_id in H. rewrite Hid in H. simpl in H.
      destruct (collect_sources get_fakeid_by_name time_now wx_cfg count rest (S built)
                  st1 _) as [[more st2] notes2] eqn:Hrest.
      destruct more as [[es is_]|e]; [|discriminate].
      injection H as <- <- <- <-.
      destruct (IH _ _ _ _ _ _ _ Hrest) as (Hall & Hlen & _).
      split; [|split; [simpl; lia | intros _; exact Hsess]].
      apply Forall2_cons. split; [|exact Hall].
      split; [exact Hitem|]. exists biz. split; [|reflexivity].
      eapply nonempty_Some, Hbiz.
    + destruct (IH _ _ _ _ _ _ _ H) as (Hall & Hlen & Hsess).
      split; [exact Hall|]. split; [simpl; lia | exact Hsess].
Qed.

Lemma collect_sources_call_ok (wx_cfg : pyobj) (count : Z) (names : list string)
    (built : nat) (st : St) (notes : list notice) (e : pyval) (entries : list pyval)
    (ids : list string) (st' : St) (notes' : list notice) :
  collect_sources get_fakeid_by_name time_now wx_cfg count names built st notes
  = (Ok (e :: entries, ids), st', notes') ->
  call_ok (e :: entries, wx_cfg) = true.
Proof.
  intros H. destruct (collect_sources_spec _ _ _ _ _ _ _ _ _ _ H) as (Hall & _ & Hsess).
  unfold call_ok. cbn [fst snd]. rewrite Hsess by discriminate. rewrite andb_true_r.
  clear -Hall. induction Hall as [|x sid xs sids [Hitem _] _ IH]; [reflexivity|].
  simpl. rewrite Hitem. exact IH.
Qed.
End main_facts.

Lemma emit_all_frame (out : list event) (w : world) :
  let w' := fold_left (fun w ev => emit ev w) out w in
  wechat_json w' = wechat_json w /\ cookies_json w' = cookies_json w
  /\ WECHAT_SOURCES w' = WECHAT_SOURCES w /\ WECHAT_SESSION w' = WECHAT_SESSION w.
Proof.
  revert w. induction out as [|ev out IH]; intros w; simpl; [auto|].
  destruct (IH (emit ev w)) as (H1 & H2 & H3 & H4). simpl in *. auto.
Qed.

(** X24. When the names given, on the command line or at the prompt, hold
    nothing but commas and white space, [main] returns at once: no session
    is resolved, no file is read or written and no collaborator is called. *)
Theorem main_without_names {St : Type}
    (get_fakeid_by_name : pyobj -> string -> St -> result (option string) * St)
    (crawl_wechat_source : string -> St -> result pyval * St)
    (input : nat -> result string) (time_now : nat -> Z)
    (a : args) (r : run) (s : string) :
  nonempty (arg_names a) = Some s
  \/ (nonempty (arg_names a) = None /\ input 0%nat = Ok s) ->
  only_separators s = true ->
  let out := main get_fakeid_by_name crawl_wechat_source input time_now a r in
  fst out = Ok tt
  /\ run_world (snd out) = run_world r
  /\ run_services (snd out) = run_services r
  /\ last (run_notes (snd out)) = Some NoteNoNames.
Proof.
  intros Hnames Hsep. apply parse_names_only_separators in Hsep.
  unfold main, read_names.
  destruct Hnames as [->|[-> ->]]; simpl; rewrite Hsep; simpl;
    repeat split; apply last_snoc.
Qed.

Lemma main_without_names_witness :
  let r := {| run_world := sample_world [] FileMissing FileMissing AuthMissing;
              run_services := 0%nat; run_notes := [] |} in
  let out := main sample_lookup sample_fetch sample_input sample_clock
               {| arg_names := Some " , ,, "; arg_count := 10; arg_crawl := true |} r in
  fst out = Ok tt /\ run_world (snd out) = run_world r /\ run_services (snd out) = 0%nat.
Proof.
  intros r out.
  destruct (main_without_names sample_lookup sample_fetch sample_input sample_clock
              {| arg_names := Some " , ,, "; arg_count := 10; arg_crawl := true |} r
              " , ,, " (or_introl eq_refl) eq_refl) as (H1 & H2 & H3 & _).
  auto.
Defined.

(** X25. Whenever the loop of lines 160 to 170 returns, the ids it hands to
    the crawl are the ids of the entries it hands to the merge, in the same
    order, each "wechat_" followed by a non-empty platform key; there are at
    most as many entries as names; and the entries with the session are
    arguments the merge accepts. *)
Theorem collected_ids_match_entries {St : Type}
    (get_fakeid_by_name : pyobj -> string -> St -> result (option string) * St)
    (time_now : nat -> Z) (wx_cfg : pyobj) (count : Z) (names : list string)
    (built : nat) (st st' : St) (notes notes' : list notice)
    (entries : list pyval) (ids : list string) :
  collect_sources get_fakeid_by_name time_now wx_cfg count names built st notes
  = (Ok (entries, ids), st', notes') ->
  Forall2 (fun e sid => item_id e = Ok (KStr sid)
                        /\ exists biz, biz <> "" /\ sid = "wechat_" +:+ biz)
    entries ids
  /\ (length entries <= length names)%nat
  /\ (entries <> [] -> call_ok (entries, wx_cfg) = true).
Proof.
  intros H.
  destruct (collect_sources_spec get_fakeid_by_name time_now _ _ _ _ _ _ _ _ _ _ H)
    as (Hall & Hlen & _).
  split; [exact Hall|]. split; [exact Hlen|].
  destruct entries as [|e entries]; [congruence|]. intros _.
  eapply collect_sources_call_ok, H.
Qed.

Lemma collected_ids_match_entries_witness :
  exists entries st' notes',
    collect_sources sample_lookup sample_clock (ODict [(KStr "token", PStr "tok")]) 10
      ["A"; "nobody"; "B"] 0%nat 0%nat []
    = (Ok (entries, ["wechat_123"; "wechat_456"]), st', notes')
    /\ length entries = 2%nat
    /\ call_ok (entries, ODict [(KStr "token", PStr "tok")]) = true.
Proof.
  eexists _, _, _. split; [reflexivity|]. split; [reflexivity|].
  apply (collected_ids_match_entries sample_lookup sample_clock
           (ODict [(KStr "token", PStr "tok")]) 10 ["A"; "nobody"; "B"]
           0%nat 0%nat _ [] _ _ _ eq_refl).
  discriminate.
Defined.

Lemma collect_sources_nothing {St : Type}
    (get_fakeid_by_name : pyobj -> string -> St -> result (option string) * St)
    (time_now : nat -> Z) (wx_cfg : pyobj) (count : Z) (names : list string) :
  (forall o n st, exists found,
      fst (get_fakeid_by_name o n st) = Ok found /\ nonempty found = None) ->
  forall built st notes, exists st' notes',
    collect_sources get_fakeid_by_name time_now wx_cfg count names built st notes
    = (Ok ([], []), st', notes').
Proof.
  intros Hnone. induction names as [|name rest IH]; intros built st notes.
  - eexists _, _. reflexivity.
  - cbn [collect_sources]. destruct (Hnone wx_cfg name st) as (found & Hf & Hn).
    destruct (get_fakeid_by_name wx_cfg name st) as [r st1]. simpl in Hf. subst r.
    rewrite Hn. apply IH.
Qed.

(** X26. When the lookup finds none of the names, nothing is registered:
    [main] returns (or raises what the session resolution raised), the
    registry file is not touched and the module state is as it was. *)
Theorem main_with_unknown_names {St : Type}
    (get_fakeid_by_name : pyobj -> string -> St -> result (option string) * St)
    (crawl_wechat_source : string -> St -> result pyval * St)
    (input : nat -> result string) (time_now : nat -> Z)
    (a : args) (r : run) (s : string) :
  nonempty (arg_names a) = Some s ->
  (forall o n st, exists found,
      fst (get_fakeid_by_name o n st) = Ok found /\ nonempty found = None) ->
  let out := main get_fakeid_by_name crawl_wechat_source input time_now a r in
  (fst out = Ok tt
   \/ exists e, fst (ensure_session_interactive (run_world r)) = Raise e
                /\ fst out = Raise e)
  /\ wechat_json (run_world (snd out)) = wechat_json (run_world r)
  /\ WECHAT_SOURCES (run_world (snd out)) = WECHAT_SOURCES (run_world r)
  /\ WECHAT_SESSION (run_world (snd out)) = WECHAT_SESSION (run_world r).
Proof.
  intros Hnames Hnone. unfold main, read_names. rewrite Hnames.
  destruct (parse_names s) as [|n ns] eqn:Hp; [simpl; auto|].
  destruct (ensure_session_frame_lemma (run_world r)) as (Hj & Hs & Hd & _).
  destruct (ensure_session_interactive (run_world r)) as [[wx|e] w1].
  - destruct (collect_sources_nothing get_fakeid_by_name time_now wx (arg_count a)
                (n :: ns) Hnone 0%nat (run_services r) (run_notes r))
      as (st' & notes' & Hc).
    cbv beta match. rewrite Hc. simpl in *. auto.
  - simpl in *. split; [right; eauto | auto].
Qed.

Lemma main_with_unknown_names_witness :
  let r := {| run_world := sample_world [(KStr "token", PStr "tok")]
                             (FileJson (PDict sample_document)) FileMissing AuthMissing;
              run_services := 0%nat; run_notes := [] |} in
  let out := main (fun _ _ (calls : nat) => (Ok None, S calls)) sample_fetch
               sample_input sample_clock
               {| arg_names := Some "X,Y"; arg_count := 10; arg_crawl := true |} r in
  wechat_json (run_world (snd out)) = wechat_json (run_world r).
Proof.
  intros r out.
  apply (main_with_unknown_names (fun _ _ (calls : nat) => (Ok None, S calls)) sample_fetch
           sample_input sample_clock
           {| arg_names := Some "X,Y"; arg_count := 10; arg_crawl := true |} r "X,Y" eq_refl).
  intros o n st. exists None. split; reflexivity.
Defined.

(** X27. Registration is all or nothing: when the loop of lines 160 to 170
    raises, because the lookup raised or an entry could not be built,
    [main] raises the same exception before any merge; the names resolved
    before are not registered, and the registry file and the module state
    are as they were. *)
Theorem main_aborts_when_the_loop_raises {St : Type}
    (get_fakeid_by_name : pyobj -> string -> St -> result (option string) * St)
    (crawl_wechat_source : string -> St -> result pyval * St)
    (input : nat -> result string) (time_now : nat -> Z)
    (a : args) (r : run) (s : string) (wx_cfg : pyobj) (e : exn) :
  nonempty (arg_names a) = Some s ->
  fst (ensure_session_interactive (run_world r)) = Ok wx_cfg ->
  fst (fst (collect_sources get_fakeid_by_name time_now wx_cfg (arg_count a)
              (parse_names s) 0%nat (run_services r) (run_notes r))) = Raise e ->
  let out := main get_fakeid_by_name crawl_wechat_source input time_now a r in
  fst out = Raise e
  /\ wechat_json (run_world (snd out)) = wechat_json (run_world r)
  /\ WECHAT_SOURCES (run_world (snd out)) = WECHAT_SOURCES (run_world r)
  /\ WECHAT_SESSION (run_world (snd out)) = WECHAT_SESSION (run_world r).
Proof.
  intros Hnames Hens Hloop. unfold main, read_names. rewrite Hnames.
  destruct (parse_names s) as [|n ns] eqn:Hp; [discriminate|].
  destruct (ensure_session_frame_lemma (run_world r)) as (Hj & Hs & Hd & _).
  destruct (ensure_session_interactive (run_world r)) as [[wx|e0] w1];
    [|discriminate].
  cbn [fst] in Hens. injection Hens as ->. cbv beta match.
  destruct (collect_sources get_fakeid_by_name time_now wx_cfg (arg_count a) (n :: ns)
              0%nat (run_services r) (run_notes r)) as [[c st'] notes'].
  cbn [fst] in Hloop. subst c. simpl in *. auto.
Qed.

Lemma main_aborts_when_the_loop_raises_witness :
  let r := {| run_world := sample_world [(KStr "token", PStr "tok")]
                             (FileJson (PDict sample_document)) FileMissing AuthMissing;
              run_services := 0%nat; run_notes := [] |} in
  let out := main sample_lookup_flaky sample_fetch sample_input sample_clock
               {| arg_names := Some "A,C,B"; arg_count := 10; arg_crawl := true |} r in
  fst out = Raise (CollaboratorError "connection reset")
  /\ wechat_json (run_world (snd out)) = wechat_json (run_world r).
Proof.
  intros r out.
  destruct (main_aborts_when_the_loop_raises sample_lookup_flaky sample_fetch
              sample_input sample_clock
              {| arg_names := Some "A,C,B"; arg_count := 10; arg_crawl := true |} r
              "A,C,B" (ODict [(KStr "token", PStr "tok")])
              (CollaboratorError "connection reset") eq_refl eq_refl eq_refl)
    as (H1 & H2 & _).
  auto.
Defined.

(** The loop of lines 160 to 170 returns when no lookup raises and the
    session is one whose fields can be read. *)
Lemma collect_sources_returns {St : Type}
    (get_fakeid_by_name : pyobj -> string -> St -> result (option string) * St)
    (time_now : nat -> Z) (wx_cfg : pyobj) (count : Z) (names : list string) :
  is_ok (session_fields wx_cfg) = true ->
  (forall o n st, is_ok (fst (get_fakeid_by_name o n st)) = true) ->
  forall built st notes, exists entries ids st' notes',
    collect_sources get_fakeid_by_name time_now wx_cfg count names built st notes
    = (Ok (entries, ids), st', notes').
Proof.
  intros Hsess Hlook. induction names as [|name rest IH]; intros built st notes.
  - eexists _, _, _, _. reflexivity.
  - cbn [collect_sources]. pose proof (Hlook wx_cfg name st) as Hl.
    destruct (get_fakeid_by_name wx_cfg name st) as [[found|e] st1]; [|discriminate].
    destruct (nonempty found) as [biz|]; [|apply IH].
    unfold build_source_entry.
    destruct (session_fields wx_cfg) as [fields|]; [|discriminate]. simpl.
    destruct (IH (S built) st1 (notes ++ [NoteProcessing name])%list)
      as (entries & ids & st' & notes' & ->).
    eexists _, _, _, _. reflexivity.
Qed.

(** X28. A run of [main] with names on the command line and [--crawl], a
    usable session in the configuration, a registry file that can be loaded
    and written, and a lookup that does not raise, returns normally. When
    the loop found nothing, the registry file is as it was. Otherwise the
    file holds a list of sources with pairwise distinct ids, the module
    state [WECHAT_SOURCES] is that same list, and the crawl ran over the
    ids of the loop. *)
Theorem main_registers_what_it_finds {St : Type}
    (get_fakeid_by_name : pyobj -> string -> St -> result (option string) * St)
    (crawl_wechat_source : string -> St -> result pyval * St)
    (input : nat -> result string) (time_now : nat -> Z)
    (a : args) (r : run) (s : string) :
  nonempty (arg_names a) = Some s ->
  arg_crawl a = true ->
  usable (ODict (WECHAT_SESSION (run_world r))) = true ->
  registry_ok (run_world r) = true ->
  (forall o n st, is_ok (fst (get_fakeid_by_name o n st)) = true) ->
  let out := main get_fakeid_by_name crawl_wechat_source input time_now a r in
  exists entries ids st' notes',
    collect_sources get_fakeid_by_name time_now (ODict (WECHAT_SESSION (run_world r)))
      (arg_count a) (parse_names s) 0%nat (run_services r) (run_notes r)
    = (Ok (entries, ids), st', notes')
    /\ fst out = Ok tt
    /\ (entries = [] ->
        wechat_json (run_world (snd out)) = wechat_json (run_world r)
        /\ WECHAT_SOURCES (run_world (snd out)) = WECHAT_SOURCES (run_world r)
        /\ run_services (snd out) = st')
    /\ (entries <> [] ->
        exists srcs,
          persisted_sources (run_world (snd out)) = Some srcs
          /\ WECHAT_SOURCES (run_world (snd out)) = srcs
          /\ ids_distinct srcs
          /\ run_services (snd out)
             = snd (maybe_crawl_sources crawl_wechat_source ids st')).
Proof.
  intros Hnames Hcrawl Huse Hreg Hlook out. subst out.
  destruct (collect_sources_returns get_fakeid_by_name time_now
              (ODict (WECHAT_SESSION (run_world r))) (arg_count a) (parse_names s)
              eq_refl Hlook 0%nat (run_services r) (run_notes r))
    as (entries & ids & st' & notes' & Hc).
  exists entries, ids, st', notes'. split; [exact Hc|].
  unfold main, read_names. rewrite Hnames.
  destruct (parse_names s) as [|n ns] eqn:Hp.
  - simpl in Hc. injection Hc as <- <- <- <-. simpl.
    split; [reflexivity|]. split; [auto | congruence].
  - rewrite (ensure_session_from_conf _ Huse). cbv beta match. rewrite Hc.
    destruct entries as [|e es].
    + simpl. split; [reflexivity|]. split; [auto | congruence].
    + pose proof (collect_sources_call_ok _ _ _ _ _ _ _ _ _ _ _ _ _ Hc) as Hcall.
      destruct (merge_then_reload (emit InfoUsingConfigSession (run_world r))
                  (e :: es) (ODict (WECHAT_SESSION (run_world r))) Hreg Hcall)
        as (w' & srcs & t & c & u & Hrun & Hper & Hsrc & Hids & _).
      cbv beta match. rewrite Hrun, Hcrawl. unfold crawl_new. cbn [run_services run_world].
      destruct (maybe_crawl_sources crawl_wechat_source ids st') as [lines st2].
      cbn [fst snd run_world run_services].
      destruct (emit_all_frame lines w') as (Hj & _ & Hs & _).
      split; [reflexivity|]. split; [discriminate|]. intros _.
      exists srcs. unfold persisted_sources in *. rewrite Hj, Hs.
      auto.
Qed.

Lemma main_registers_what_it_finds_witness :
  let r := {| run_world := sample_world [(KStr "token", PStr "tok")]
                             (FileJson (PDict sample_document)) FileMissing AuthMissing;
              run_services := 0%nat; run_notes := [] |} in
  let out := main sample_lookup sample_fetch sample_input sample_clock
               {| arg_names := Some "A, nobody ,B"; arg_count := 10; arg_crawl := true |} r in
  fst out = Ok tt
  /\ exists srcs, persisted_sources (run_world (snd out)) = Some srcs
                  /\ WECHAT_SOURCES (run_world (snd out)) = srcs.
Proof.
  intros r out.
  destruct (main_registers_what_it_finds sample_lookup sample_fetch sample_input
              sample_clock
              {| arg_names := Some "A, nobody ,B"; arg_count := 10; arg_crawl := true |}
              r "A, nobody ,B" eq_refl eq_refl eq_refl eq_refl)
    as (entries & ids & st' & notes' & Hc & Hok & _ & Hsome).
  { intros o n st. unfold sample_lookup. simpl.
    destruct (String.eqb n "A"); [reflexivity|].
    destruct (String.eqb n "B"); reflexivity. }
  split; [exact Hok|].
  vm_compute in Hc. injection Hc as <- _ _ _.
  destruct Hsome as (srcs & Hp & Hs & _); [discriminate|].
  exists srcs. split; assumption.
Defined.
